(** * SheetEase: a shallow embedding of the export pipeline

    The Python sources under [ExcelExportTool/] are translated function by
    function.  Python [str] values are Rocq [string]s; the character
    functions ([str.strip], [str.lower], [\s] of the [re] module, ...) are
    modelled on the ASCII repertoire, where their tables are fixed: a
    character above code 127 is an ordinary character (neither white space
    nor a cased letter). *)

From Stdlib Require Import ZArith List String Ascii Bool Lia DecimalString.
From stdpp Require Import base option list gmap strings.

Import ListNotations.
Set Warnings "-register-all".

Local Open Scope Z_scope.
Local Open Scope string_scope.

(* ===================================================================== *)
(** ** Python string primitives *)
(* ===================================================================== *)

Module PyStr.

Definition code (c : ascii) : nat := nat_of_ascii c.

(** [str.isspace] on one ASCII character; the same set is [\s] of [re]
    on [str] patterns: TAB, LF, VT, FF, CR, FS, GS, RS, US and SPACE. *)
Definition isspace (c : ascii) : bool :=
  let n := code c in
  ((9 <=? n) && (n <=? 13) || (28 <=? n) && (n <=? 32))%nat.

Definition isupper (c : ascii) : bool :=
  let n := code c in ((65 <=? n) && (n <=? 90))%nat.

Definition islower (c : ascii) : bool :=
  let n := code c in ((97 <=? n) && (n <=? 122))%nat.

Definition isdigit (c : ascii) : bool :=
  let n := code c in ((48 <=? n) && (n <=? 57))%nat.

Definition lower_char (c : ascii) : ascii :=
  if isupper c then ascii_of_nat (code c + 32) else c.

Definition chars (s : string) : list ascii := list_ascii_of_string s.
Definition of_chars (l : list ascii) : string := string_of_list_ascii l.

(** [s.lower()] *)
Definition lower (s : string) : string :=
  of_chars (map lower_char (chars s)).

Fixpoint drop_while (p : ascii -> bool) (l : list ascii) : list ascii :=
  match l with
  | [] => []
  | c :: l' => if p c then drop_while p l' else l
  end.

Fixpoint take_while (p : ascii -> bool) (l : list ascii) : list ascii :=
  match l with
  | [] => []
  | c :: l' => if p c then c :: take_while p l' else []
  end.

Definition lstrip_chars (p : ascii -> bool) (l : list ascii) : list ascii :=
  drop_while p l.
Definition rstrip_chars (p : ascii -> bool) (l : list ascii) : list ascii :=
  rev (drop_while p (rev l)).

(** [s.strip()], [s.lstrip(".")] *)
Definition strip (s : string) : string :=
  of_chars (rstrip_chars isspace (lstrip_chars isspace (chars s))).
Definition lstrip_char (c : ascii) (s : string) : string :=
  of_chars (lstrip_chars (Ascii.eqb c) (chars s)).

(** [s.split(sep)] for a one-character separator: never the empty list. *)
Fixpoint split_chars (sep : ascii) (l : list ascii) : list (list ascii) :=
  match l with
  | [] => [[]]
  | c :: l' =>
      if Ascii.eqb c sep then [] :: split_chars sep l'
      else match split_chars sep l' with
           | [] => [[c]]
           | w :: ws => (c :: w) :: ws
           end
  end.
Definition split (sep : ascii) (s : string) : list string :=
  map of_chars (split_chars sep (chars s)).

(** [s.split(sep, 1)]: at most one cut, at the first separator. *)
Fixpoint split1_chars (sep : ascii) (l : list ascii)
  : list ascii * option (list ascii) :=
  match l with
  | [] => ([], None)
  | c :: l' =>
      if Ascii.eqb c sep then ([], Some l')
      else let '(a, b) := split1_chars sep l' in (c :: a, b)
  end.
Definition split1 (sep : ascii) (s : string) : list string :=
  match split1_chars sep (chars s) with
  | (a, None) => [of_chars a]
  | (a, Some b) => [of_chars a; of_chars b]
  end.

(** [c in s] for a one-character [c] *)
Definition contains (c : ascii) (s : string) : bool :=
  existsb (Ascii.eqb c) (chars s).

Fixpoint prefix_chars (p l : list ascii) : bool :=
  match p, l with
  | [], _ => true
  | _ :: _, [] => false
  | a :: p', b :: l' => Ascii.eqb a b && prefix_chars p' l'
  end.

(** [s.startswith(p)], [s.endswith(p)] *)
Definition startswith (p s : string) : bool :=
  prefix_chars (chars p) (chars s).
Definition endswith (p s : string) : bool :=
  prefix_chars (rev (chars p)) (rev (chars s)).

(** Line boundaries of [str.splitlines] in the ASCII range:
    LF, CR, CR LF, VT, FF, FS, GS, RS. *)
Definition is_linebreak (c : ascii) : bool :=
  let n := code c in
  ((10 <=? n) && (n <=? 13) || (28 <=? n) && (n <=? 30))%nat.

(** [cur] holds the characters of the line being read, reversed;
    [after_cr] says that the previous character was a CR, whose LF (if it
    comes next) belongs to the same boundary. *)
Fixpoint splitlines_chars (after_cr : bool) (cur : list ascii)
    (l : list ascii) : list (list ascii) :=
  match l with
  | [] => match cur with [] => [] | _ => [rev cur] end
  | c :: l' =>
      if (after_cr && Nat.eqb (code c) 10)%bool then
        splitlines_chars false cur l'
      else if is_linebreak c then
        rev cur :: splitlines_chars (Nat.eqb (code c) 13) [] l'
      else splitlines_chars false (c :: cur) l'
  end.

(** [s.splitlines()] *)
Definition splitlines (s : string) : list string :=
  map of_chars (splitlines_chars false [] (chars s)).

(** [sep.join(parts)] *)
Fixpoint join (sep : string) (parts : list string) : string :=
  match parts with
  | [] => EmptyString
  | [p] => p
  | p :: ps => String.append p (String.append sep (join sep ps))
  end.

(** [s.strip(chars)]: [p] says which characters [chars] holds. *)
Definition strip_set (p : ascii -> bool) (s : string) : string :=
  of_chars (rstrip_chars p (lstrip_chars p (chars s))).


(** [sub in s] *)
Fixpoint contains_chars (sub l : list ascii) : bool :=
  prefix_chars sub l
  || match l with
     | [] => false
     | _ :: l' => contains_chars sub l'
     end.
Definition contains_sub (sub s : string) : bool :=
  contains_chars (chars sub) (chars s).

(** [s.replace(old, new)] for a non-empty [old], as in every call of the
    sources: the occurrences are taken from the left and do not overlap.
    [skip] counts the characters of the occurrence just replaced that are
    still to be passed over. *)
Fixpoint replace_chars (old new : list ascii) (skip : nat) (l : list ascii)
  : list ascii :=
  match l with
  | [] => []
  | c :: l' =>
      match skip with
      | S k => replace_chars old new k l'
      | O =>
          if prefix_chars old l
          then (new ++ replace_chars old new (length old - 1) l')%list
          else c :: replace_chars old new 0 l'
      end
  end.
Definition replace (old new s : string) : string :=
  of_chars (replace_chars (chars old) (chars new) 0 (chars s)).

End PyStr.

(* ===================================================================== *)
(** ** The fragment of Python's [re] that the sources use *)
(* ===================================================================== *)

(** A backtracking matcher with Python's priorities: quantifiers are greedy
    and give characters back one at a time; a group records the text its
    last successful traversal consumed.  Every starred expression of the
    sources is a single character class, so the matcher is structural. *)
Module Re.

(** Character classes. *)
Inductive cls : Type :=
| Dot                          (* [.]  : anything but LF *)
| Space                        (* [\s] *)
| Lit (c : ascii)              (* a literal character *)
| NoneOf (l : list ascii)      (* [[^...]] *)
| Word.                        (* [[A-Za-z0-9_]] *)

Inductive re : Type :=
| Chr (c : cls)
| Star (c : cls)               (* [c*] *)
| Plus (c : cls)               (* [c+] *)
| Seq (r1 r2 : re)
| Opt (r : re)                 (* [(?:r)?] *)
| Group (n : nat) (r : re)     (* the [n]-th capturing group *)
| Bos                          (* [^] *)
| Eos                          (* [$] *)
| Eps.

Fixpoint seq (rs : list re) : re :=
  match rs with
  | [] => Eps
  | [r] => r
  | r :: rs' => Seq r (seq rs')
  end.

(** The literal word [w], one [Chr (Lit _)] per character. *)
Definition word (w : string) : re :=
  seq (map (fun c => Chr (Lit c)) (PyStr.chars w)).

(** [ic] is the flag [re.IGNORECASE]. *)
Definition cls_match (ic : bool) (c : cls) (x : ascii) : bool :=
  match c with
  | Dot => negb (Nat.eqb (PyStr.code x) 10)
  | Space => PyStr.isspace x
  | Lit a =>
      if ic then Ascii.eqb (PyStr.lower_char a) (PyStr.lower_char x)
      else Ascii.eqb a x
  | NoneOf l =>
      negb (existsb (fun a =>
              if ic then Ascii.eqb (PyStr.lower_char a) (PyStr.lower_char x)
              else Ascii.eqb a x) l)
  | Word => PyStr.isupper x || PyStr.islower x || PyStr.isdigit x
            || Ascii.eqb x "_"
  end.

(** Captures: group number to captured text. *)
Definition caps := list (nat * string).

Fixpoint group (n : nat) (m : caps) : option string :=
  match m with
  | [] => None
  | (i, s) :: m' => if Nat.eqb i n then Some s else group n m'
  end.

(** Try [f i], [f (i-1)], ..., [f lo]: the greedy order. *)
Fixpoint try_down {A} (f : nat -> option A) (lo i : nat) : option A :=
  if (i <? lo)%nat then None
  else match f i with
       | Some r => Some r
       | None => match i with
                 | O => None
                 | S i' => try_down f lo i'
                 end
       end.

(** [rmatch ic r pos s m k]: match [r] against [s], which starts at
    offset [pos] of the subject; [k] continues with what follows [r]. *)
Fixpoint rmatch (ic : bool) (r : re) (pos : nat) (s : list ascii) (m : caps)
    (k : nat -> list ascii -> caps -> option caps) : option caps :=
  match r with
  | Chr c =>
      match s with
      | x :: s' => if cls_match ic c x then k (S pos) s' m else None
      | [] => None
      end
  | Star c =>
      let n := length (PyStr.take_while (cls_match ic c) s) in
      try_down (fun i => k (pos + i)%nat (drop i s) m) 0 n
  | Plus c =>
      let n := length (PyStr.take_while (cls_match ic c) s) in
      try_down (fun i => k (pos + i)%nat (drop i s) m) 1 n
  | Seq r1 r2 =>
      rmatch ic r1 pos s m (fun pos' s' m' => rmatch ic r2 pos' s' m' k)
  | Opt r1 =>
      match rmatch ic r1 pos s m k with
      | Some res => Some res
      | None => k pos s m
      end
  | Group n r1 =>
      rmatch ic r1 pos s m
        (fun pos' s' m' =>
           k pos' s' ((n, PyStr.of_chars (take (pos' - pos) s)) :: m'))
  | Bos => if Nat.eqb pos 0 then k pos s m else None
  | Eos =>
      match s with
      | [] => k pos s m
      | [x] => if Nat.eqb (PyStr.code x) 10 then k pos s m else None
      | _ => None
      end
  | Eps => k pos s m
  end.

Definition accept : nat -> list ascii -> caps -> option caps :=
  fun _ _ m => Some m.

(** [re.match(r, s, flags)]: the match is tried at offset 0 only. *)
Definition re_match (ic : bool) (r : re) (s : string) : option caps :=
  rmatch ic r 0 (PyStr.chars s) [] accept.

(** [re.search(r, s, flags)]: the leftmost offset that matches. *)
Fixpoint search_from (ic : bool) (r : re) (pos : nat) (s : list ascii)
  : option caps :=
  match rmatch ic r pos s [] accept with
  | Some m => Some m
  | None => match s with
            | [] => None
            | _ :: s' => search_from ic r (S pos) s'
            end
  end.
Definition re_search (ic : bool) (r : re) (s : string) : option caps :=
  search_from ic r 0 (PyStr.chars s).

End Re.

(* ===================================================================== *)
(** ** Exceptions, results and the log *)
(* ===================================================================== *)

(** The classes of [exceptions.py] and the built-in ones the sources meet.
    A message is kept as the data its f-string interpolates, under an
    English name of the template. *)
Inductive exn : Type :=
| AttributeError (what : string)
| IndexError (what : string)
| KeyError (what : string)
| TypeError (what : string)
| ValueError (what : string)
| RuntimeError (what : string) (excel_row : Z)
| ExportError (what : string) (subject : string)
| InvalidEnumNameError (name : string) (dups : list (string * list Z))
    (row : Z)
| DuplicatePrimaryKeyError (key : Z) (row_a row_b : Z)
| CompositeKeyOverflowError (combined : Z)
| InvalidFieldNameError (field : string) (col_index : Z) (sheet : string)
| HeaderFormatError (sheet : string) (reason : string) (row : Z)
| UnknownCustomTypeError (type_name : string)
| CustomTypeParseError (type_name : string).

(** [isinstance(e, ExportError)]: the classes declared in [exceptions.py]. *)
Definition is_ExportError (e : exn) : bool :=
  match e with
  | AttributeError _ | IndexError _ | KeyError _ | TypeError _ | ValueError _
  | RuntimeError _ _ => false
  | _ => true
  end.


Inductive res (A : Type) : Type :=
| Ok (a : A)
| Raise (e : exn).
Arguments Ok {A} a.
Arguments Raise {A} e.


Definition res_bind {A B} (r : res A) (f : A -> res B) : res B :=
  match r with
  | Ok a => f a
  | Raise e => Raise e
  end.

(** [log_info], [log_warn], [log_error] of [utils/log.py] append one entry. *)
Inductive level : Type := INFO | WARN | ERROR.

Record log_entry : Type := LogEntry {
  log_level : level;
  log_what : string;          (* the template *)
  log_row : option Z;         (* the Excel row it names, if any *)
  log_field : string          (* the field or row name it names, if any *)
}.

Definition log := list log_entry.

Definition is_warn (e : log_entry) : bool :=
  match log_level e with WARN => true | _ => false end.
Definition is_error (e : log_entry) : bool :=
  match log_level e with ERROR => true | _ => false end.
Definition is_info (e : log_entry) : bool :=
  match log_level e with INFO => true | _ => false end.

Definition warnings (l : log) : list log_entry := List.filter is_warn l.
Definition errors (l : log) : list log_entry := List.filter is_error l.

(** Computations that log and may raise: the log written before a raise
    stays written. *)
Definition M (A : Type) : Type := log -> res A * log.

Definition ret {A} (a : A) : M A := fun l => (Ok a, l).
Definition raise {A} (e : exn) : M A := fun l => (Raise e, l).
Definition bind {A B} (m : M A) (f : A -> M B) : M B :=
  fun l => match m l with
           | (Ok a, l') => f a l'
           | (Raise e, l') => (Raise e, l')
           end.
Definition lift {A} (r : res A) : M A := fun l => (r, l).
(** [try: m except <classes>: h e] *)
Definition try_except {A} (m : M A) (catches : exn -> bool) (h : exn -> M A)
  : M A :=
  fun l => match m l with
           | (Raise e, l') => if catches e then h e l' else (Raise e, l')
           | r => r
           end.
Definition Exception : exn -> bool := fun _ => true.

Definition emit (lv : level) (what : string) (row : option Z)
    (field : string) : M unit :=
  fun l => (Ok tt, (l ++ [LogEntry lv what row field])%list).
Definition log_warn := emit WARN.
Definition log_error := emit ERROR.
Definition log_info := emit INFO.

Definition run {A} (m : M A) : res A * log := m [].

Declare Scope py_scope.
Delimit Scope py_scope with py.
Notation "x <- m ;; k" := (bind m (fun x => k))
  (at level 100, m at next level, right associativity) : py_scope.
Notation "m ;;; k" := (bind m (fun _ => k))
  (at level 100, right associativity) : py_scope.
Notation "'let?' x := r 'in' k" := (res_bind r (fun x => k))
  (at level 100, x name, r at next level, right associativity) : py_scope.

(** [enumerate(xs, start)] *)
Fixpoint enumerate {A} (start : Z) (xs : list A) : list (Z * A) :=
  match xs with
  | [] => []
  | x :: xs' => (start, x) :: enumerate (start + 1) xs'
  end.

(** A loop without logging that threads a local state. *)
Fixpoint res_fold {A S} (xs : list A) (s : S) (body : S -> A -> res S)
  : res S :=
  match xs with
  | [] => Ok s
  | x :: xs' => res_bind (body s x) (fun s' => res_fold xs' s' body)
  end.

(** [for x in xs: body x] *)
Fixpoint for_each {A} (xs : list A) (body : A -> M unit) : M unit :=
  match xs with
  | [] => ret tt
  | x :: xs' => bind (body x) (fun _ => for_each xs' body)
  end.

(** A loop that threads a local state through its body. *)
Fixpoint for_fold {A S} (xs : list A) (s : S) (body : S -> A -> M S) : M S :=
  match xs with
  | [] => ret s
  | x :: xs' => bind (body s x) (fun s' => for_fold xs' s' body)
  end.

(* ===================================================================== *)
(** ** utils/type_utils.py *)
(* ===================================================================== *)

Module TypeUtils.
Import Re.
Local Open Scope py_scope.

(** [m.group(n).strip()]: a group that took no part in the match is
    [None], which has no [strip]. *)
Definition group_strip (m : caps) (n : nat) : res string :=
  match group n m with
  | Some s => Ok (PyStr.strip s)
  | None => Raise (AttributeError "'NoneType' object has no attribute 'strip'")
  end.

Definition base_norm (s : string) : string :=
  let s := PyStr.lower (PyStr.strip s) in
  if existsb (String.eqb s) ["int"; "int32"; "integer"] then "int"
  else if existsb (String.eqb s) ["float"; "double"] then "float"
  else if existsb (String.eqb s) ["str"; "string"] then "string"
  else if existsb (String.eqb s) ["bool"; "boolean"] then "bool"
  else s.

(** [r"^enum\s*\(\s*([^)]+)\s*\)$"] *)
Definition enum_re : re :=
  seq [Bos; word "enum"; Star Space; Chr (Lit "("); Star Space;
       Group 1 (Plus (NoneOf [")"%char])); Star Space; Chr (Lit ")"); Eos].

(** [r"^list\s*\(\s*(.+)\s*\)$"] *)
Definition list_re : re :=
  seq [Bos; word "list"; Star Space; Chr (Lit "("); Star Space;
       Group 1 (Plus Dot); Star Space; Chr (Lit ")"); Eos].

(** [r"^dict\s*\(\s*([^,]+)\s*,\s*(.+)\s*\)$"] *)
Definition dict_re : re :=
  seq [Bos; word "dict"; Star Space; Chr (Lit "("); Star Space;
       Group 1 (Plus (NoneOf [","%char])); Star Space; Chr (Lit ",");
       Star Space; Group 2 (Plus Dot); Star Space; Chr (Lit ")"); Eos].

Definition enum_type_text (enum_name : string) : string :=
  String.append "enum(" (String.append enum_name ")").

(** [parse_type_annotation(type_str)]; the argument may be [None]. *)
Definition parse_type_annotation (type_str : option string)
  : res (string * option string) :=
  (* [(type_str or "").strip()] *)
  let t := PyStr.strip (match type_str with
                        | Some s => s
                        | None => ""
                        end) in
  match re_match true enum_re t with
  | Some enum_match =>
      let? enum_name := group_strip enum_match 1 in
      Ok ("enum", Some enum_name)
  | None =>
  match re_match true list_re t with
  | Some list_match =>
      let? inner := group_strip list_match 1 in
      match re_match true enum_re inner with
      | Some inner_enum_match =>
          let? enum_name := group_strip inner_enum_match 1 in
          Ok ("list", Some (enum_type_text enum_name))
      | None => Ok ("list", Some (base_norm inner))
      end
  | None =>
  match re_match true dict_re t with
  | Some dict_match =>
      let? key_type := group_strip dict_match 1 in
      let? value_type := group_strip dict_match 2 in
      match re_match true enum_re value_type with
      | Some value_enum_match =>
          let? enum_name := group_strip value_enum_match 1 in
          Ok ("dict", Some (enum_type_text enum_name))
      | None => Ok ("dict", None)
      end
  | None => Ok ("scalar", Some (base_norm t))
  end end end.

(** *** [validate_type_annotation] *)



(** *** [convert_type_to_csharp] *)

(** [r"^list\s*\(\s*enum\s*\(\s*([^)]+)\s*\)\s*\)$"] *)
Definition list_enum_re : re :=
  seq [Bos; word "list"; Star Space; Chr (Lit "("); Star Space;
       word "enum"; Star Space; Chr (Lit "("); Star Space;
       Group 1 (Plus (NoneOf [")"%char])); Star Space; Chr (Lit ")");
       Star Space; Chr (Lit ")"); Eos].

(** [r"^dict\s*\(\s*([^,]+)\s*,\s*enum\s*\(\s*([^)]+)\s*\)\s*\)$"] *)
Definition dict_enum_re : re :=
  seq [Bos; word "dict"; Star Space; Chr (Lit "("); Star Space;
       Group 1 (Plus (NoneOf [","%char])); Star Space; Chr (Lit ",");
       Star Space; word "enum"; Star Space; Chr (Lit "("); Star Space;
       Group 2 (Plus (NoneOf [")"%char])); Star Space; Chr (Lit ")");
       Star Space; Chr (Lit ")"); Eos].

(** The last part of [convert_type_to_csharp]: [list] and [dict] become
    [List] and [Dictionary] wherever they occur, the parentheses become
    angle brackets. *)
Definition generic_csharp (type_str : string) : string :=
  let type_str := PyStr.replace "list" "List" type_str in
  let type_str := PyStr.replace "dict" "Dictionary" type_str in
  PyStr.replace ")" ">" (PyStr.replace "(" "<" type_str).

(** [convert_type_to_csharp], by recursion on a bound for the length of
    the type string: the nested call is on the key type of a [dict], which
    is shorter. *)
Fixpoint convert_type_to_csharp_fuel (n : nat) (type_str : string)
  : res string :=
  match n with
  | O => Raise (RuntimeError "type string longer than the bound" 0)
  | S n' =>
      match re_match true enum_re type_str with
      | Some enum_match => group_strip enum_match 1
      | None =>
      match re_match true list_enum_re type_str with
      | Some list_enum_match =>
          let? enum_name := group_strip list_enum_match 1 in
          Ok (String.append "List<" (String.append enum_name ">"))
      | None =>
      match re_match true dict_enum_re type_str with
      | Some dict_enum_match =>
          let? key_type := group_strip dict_enum_match 1 in
          let? enum_name := group_strip dict_enum_match 2 in
          let? key_cs :=
            (if negb (existsb (String.eqb key_type)
                        ["int"; "string"; "float"; "bool"])
             then convert_type_to_csharp_fuel n' key_type
             else Ok key_type) in
          Ok (String.append "Dictionary<"
                (String.append key_cs
                   (String.append ", " (String.append enum_name ">"))))
      | None => Ok (generic_csharp type_str)
      end end end
  end.

Definition convert_type_to_csharp (type_str : string) : res string :=
  convert_type_to_csharp_fuel (S (String.length type_str)) type_str.

End TypeUtils.

(* ===================================================================== *)
(** ** Python values *)
(* ===================================================================== *)

(** Binary floating point is kept abstract: [F] stands for the finite
    [float] values up to [==] (so the equality of [F] is Python's), and the
    operations are the built-ins the sources apply to a float. *)
Class FloatOps : Type := {
  F : Type;
  F_eq_dec :: EqDecision F;
  float_of_Z : Z -> res F;            (* [float(n)], may overflow *)
  float_of_str : string -> option F;  (* [float(s)], [None]: ValueError *)
  float_trunc : F -> Z;               (* [int(f)] *)
  float_repr : F -> string;           (* [str(f)] *)
  float_eq_Z : F -> Z -> bool;        (* [f == n] *)
  float_exceeds_single : F -> bool    (* [abs(f) > 3.4028235e38] *)
}.

(** A float model over the integers, to run the definitions on inputs
    that hold no fraction. *)
Definition decimal_of_Z (z : Z) : string :=
  NilEmpty.string_of_int (Z.to_int z).

#[export] Instance ZFloat : FloatOps := {|
  F := Z;
  F_eq_dec := Z.eq_dec;
  float_of_Z := fun z => Ok z;
  float_of_str := fun _ => None;
  float_trunc := fun z => z;
  float_repr := fun z => String.append (decimal_of_Z z) ".0";
  float_eq_Z := Z.eqb;
  float_exceeds_single := fun z =>
    Z.ltb 340282350000000000000000000000000000000 (Z.abs z)
|}.

Module Py.
Section Values.
Context {fl : FloatOps}.

(** The hashable scalars: what a cell holds, what a [dict] key or a
    [set] member can be. *)
Inductive atom : Type :=
| ANone
| ABool (b : bool)
| AInt (z : Z)
| AFloat (f : F)
| AStr (s : string).

Inductive pyval : Type :=
| VAtom (a : atom)
| VList (l : list pyval)
| VDict (d : list (atom * pyval)).

Definition VNone := VAtom ANone.
Definition VBool b := VAtom (ABool b).
Definition VInt z := VAtom (AInt z).
Definition VStr s := VAtom (AStr s).

(** [a == b] on scalars: [bool] is an [int], numbers compare by value. *)
Definition atom_eqb (a b : atom) : bool :=
  match a, b with
  | ANone, ANone => true
  | ABool x, ABool y => Bool.eqb x y
  | ABool x, AInt y | AInt y, ABool x => Z.eqb (Z.b2z x) y
  | AInt x, AInt y => Z.eqb x y
  | AFloat x, AFloat y => bool_decide (x = y)
  | AFloat x, AInt y | AInt y, AFloat x => float_eq_Z x y
  | AFloat x, ABool y | ABool y, AFloat x => float_eq_Z x (Z.b2z y)
  | AStr x, AStr y => String.eqb x y
  | _, _ => false
  end.

(** Truth value of a scalar ([if not x]). *)
Definition truthy (a : atom) : bool :=
  match a with
  | ANone => false
  | ABool b => b
  | AInt z => negb (Z.eqb z 0)
  | AFloat f => negb (float_eq_Z f 0)
  | AStr s => negb (String.eqb s "")
  end.

(** *** [dict]: insertion-ordered, keys compared with [==] *)
Section Dict.
Context {V : Type}.
Definition pydict := list (atom * V).

Fixpoint dict_get (k : atom) (d : pydict) : option V :=
  match d with
  | [] => None
  | (k', v) :: d' => if atom_eqb k' k then Some v else dict_get k d'
  end.

(** [d[k] = v]: an existing key keeps its place (and its key object). *)
Fixpoint dict_set (k : atom) (v : V) (d : pydict) : pydict :=
  match d with
  | [] => [(k, v)]
  | (k', v') :: d' =>
      if atom_eqb k' k then (k', v) :: d' else (k', v') :: dict_set k v d'
  end.

Definition dict_mem (k : atom) (d : pydict) : bool :=
  match dict_get k d with Some _ => true | None => false end.
End Dict.
Arguments pydict V : clear implicits.

(** *** Built-in conversions *)

(** Digits of an [int] literal: single underscores may separate digits. *)
Fixpoint digits_value (acc : Z) (prev_digit : bool) (l : list ascii)
  : option Z :=
  match l with
  | [] => if prev_digit then Some acc else None
  | c :: l' =>
      if PyStr.isdigit c then
        digits_value (10 * acc + Z.of_nat (PyStr.code c - 48)) true l'
      else if (Ascii.eqb c "_" && prev_digit)%bool then
        digits_value acc false l'
      else None
  end.

(** [int(s)] for a string: white space stripped, an optional sign, base
    ten. *)
Definition int_of_str (s : string) : option Z :=
  match PyStr.chars (PyStr.strip s) with
  | "-"%char :: l => option_map Z.opp (digits_value 0 false l)
  | "+"%char :: l => digits_value 0 false l
  | l => digits_value 0 false l
  end.

(** [int(x)] *)
Definition py_int (x : atom) : res Z :=
  match x with
  | ANone => Raise (TypeError "int() argument must not be NoneType")
  | ABool b => Ok (Z.b2z b)
  | AInt z => Ok z
  | AFloat f => Ok (float_trunc f)
  | AStr s => match int_of_str s with
              | Some z => Ok z
              | None => Raise (ValueError "invalid literal for int()")
              end
  end.

(** [float(x)] *)
Definition py_float (x : atom) : res F :=
  match x with
  | ANone => Raise (TypeError "float() argument must not be NoneType")
  | ABool b => float_of_Z (Z.b2z b)
  | AInt z => float_of_Z z
  | AFloat f => Ok f
  | AStr s => match float_of_str s with
              | Some f => Ok f
              | None => Raise (ValueError "could not convert string to float")
              end
  end.

(** [str(x)] *)
Definition py_str (x : atom) : string :=
  match x with
  | ANone => "None"
  | ABool true => "True"
  | ABool false => "False"
  | AInt z => decimal_of_Z z
  | AFloat f => float_repr f
  | AStr s => s
  end.


(** [x is None or (isinstance(x, str) and x.strip() == "")] *)
Definition is_blank (x : atom) : bool :=
  match x with
  | ANone => true
  | AStr s => String.eqb (PyStr.strip s) ""
  | _ => false
  end.

End Values.
Arguments pydict {fl} V.
End Py.
Export Py.

(* ===================================================================== *)
(** ** utils/naming_utils.py *)
(* ===================================================================== *)

Module NamingUtils.

(** Modelled from the spec: [utils/naming_utils.py] is not among the
    sources.  The specification gives the rule for an identifier: letters,
    digits and underscore, not starting with a digit. *)
Definition is_valid_csharp_identifier (name : string) : bool :=
  match PyStr.chars name with
  | [] => false
  | c :: l =>
      (PyStr.isupper c || PyStr.islower c || Ascii.eqb c "_")
      && forallb (fun x => PyStr.isupper x || PyStr.islower x
                           || PyStr.isdigit x || Ascii.eqb x "_") l
  end.

End NamingUtils.

(* ===================================================================== *)
(** ** enum_registry.py *)
(* ===================================================================== *)

Module EnumRegistry.
Import NamingUtils.

Record t : Type := Build {
  _enums : gmap string (gmap string Z);
  _enum_namespaces : gmap string string;
  _enum_sources : gmap string string
}.

(** [EnumRegistry()] *)
Definition new : t := Build ∅ ∅ ∅.

(** [register_enum(enum_name, enum_items, namespace, source)]: the
    outcome and the registry afterwards. *)
Definition register_enum (self : t) (enum_name : string)
    (enum_items : gmap string Z) (namespace source : string)
  : res unit * t :=
  if negb (is_valid_csharp_identifier enum_name) then
    (Raise (ExportError "enum type name is not a valid C# identifier"
              enum_name), self)
  else
    match _enums self !! enum_name with
    | Some existing =>
        let existing_items := dom existing in
        let new_items := dom enum_items in
        if negb (bool_decide (existing_items = new_items)) then
          (Raise (ExportError "enum defined twice, with different items"
                    enum_name), self)
        else
          (Raise (ExportError "enum defined twice" enum_name), self)
    | None =>
        (Ok tt,
         Build (<[enum_name := enum_items]> (_enums self))
               (<[enum_name := namespace]> (_enum_namespaces self))
               (<[enum_name := source]> (_enum_sources self)))
    end.

Definition has_enum (self : t) (enum_name : string) : bool :=
  bool_decide (is_Some (_enums self !! enum_name)).

Definition get_enum_items (self : t) (enum_name : string)
  : res (gmap string Z) :=
  match _enums self !! enum_name with
  | None => Raise (ExportError "enum is not defined" enum_name)
  | Some items => Ok items
  end.

Definition get_enum_value (self : t) (enum_name item_name : string)
  : res Z :=
  match _enums self !! enum_name with
  | None => Raise (ExportError "enum is not defined" enum_name)
  | Some enum_items =>
      match enum_items !! item_name with
      | None => Raise (ExportError "enum has no such item" item_name)
      | Some v => Ok v
      end
  end.

Definition validate_enum_item (self : t) (enum_name item_name : string)
  : bool :=
  match _enums self !! enum_name with
  | None => false
  | Some items => bool_decide (is_Some (items !! item_name))
  end.

Definition validate_enum_item_name (item_name : string) : bool :=
  match PyStr.chars item_name with
  | [] => false
  | c :: _ => is_valid_csharp_identifier item_name && PyStr.isupper c
  end.

Definition get_all_enum_names (self : t) : gset string :=
  dom (_enums self).

Definition get_namespace (self : t) (enum_name : string) : string :=
  default "Data.TableScript" (_enum_namespaces self !! enum_name).

End EnumRegistry.

(* ===================================================================== *)
(** ** parsing/data_processing.py and data_processing.py *)
(* ===================================================================== *)

(** Where a conversion happens: the optional [field], [sheet], [row] and
    [col] arguments, which only feed the messages. *)
Record ctx : Type := Ctx {
  c_field : option string;
  c_sheet : option string;
  c_row : option Z;
  c_col : option Z
}.
Definition no_ctx : ctx := Ctx None None None None.

(** The two files share the text of the functions of this module; they
    differ in [_check_csharp_primitive_range], in [convert_to_type] and in
    the last branch of [_convert_with_check], which are the parameters
    [check] and [other_types] below. *)
Module Converters.
Section Converters.
Context {fl : FloatOps}.
Local Open Scope py_scope.

Definition warn_at (c : ctx) (what : string) : M unit :=
  log_warn what (c_row c) (default "" (c_field c)).

Definition _parse_bool (x : atom) : bool :=
  if is_blank x then false
  else
    let s := PyStr.lower (PyStr.strip (py_str x)) in
    if existsb (String.eqb s) ["1"; "true"] then true
    else if existsb (String.eqb s) ["0"; "false"] then false
    else false.

(** [PRIMITIVE_TYPE_MAPPING.get(type_str)] *)
Definition PRIMITIVE_TYPE_MAPPING (type_str : string)
  : option (atom -> res atom) :=
  if String.eqb type_str "int" then
    Some (fun x => res_bind (py_int x) (fun z => Ok (AInt z)))
  else if String.eqb type_str "float" then
    Some (fun x => res_bind (py_float x) (fun f => Ok (AFloat f)))
  else if String.eqb type_str "bool" then
    Some (fun x => Ok (ABool (_parse_bool x)))
  else if String.eqb type_str "str" then Some (fun x => Ok (AStr (py_str x)))
  else if String.eqb type_str "string" then
    Some (fun x => Ok (AStr (py_str x)))
  else None.

(** *** The registry of custom types *)

Definition parser := option string -> res pyval.

(** [raw.replace("\r\n", "\n")] *)
Fixpoint crlf_to_lf (l : list ascii) : list ascii :=
  match l with
  | c :: ((d :: l'') as l') =>
      if (Nat.eqb (PyStr.code c) 13 && Nat.eqb (PyStr.code d) 10)%bool
      then d :: crlf_to_lf l''
      else c :: crlf_to_lf l'
  | _ => l
  end.
Definition normalize_newlines (raw : string) : string :=
  PyStr.of_chars (crlf_to_lf (PyStr.chars raw)).

Definition _generic_custom_type_object (full_name : string)
    (raw : option string) : pyval :=
  match raw with
  | None => VDict [(AStr "__type", VStr full_name); (AStr "segments", VList [])]
  | Some raw =>
      if String.eqb raw "" then
        VDict [(AStr "__type", VStr full_name); (AStr "segments", VList [])]
      else
        let txt := normalize_newlines raw in
        let parts := map PyStr.strip (PyStr.split "#" txt) in
        VDict [(AStr "__type", VStr full_name); (AStr "__raw", VStr txt);
               (AStr "segments", VList (map VStr parts))]
  end.

Definition localized (src ctx : string) : pyval :=
  VDict [(AStr "keyHash", VInt 0); (AStr "source", VStr src);
         (AStr "context", VStr ctx)].

Definition _parse_localized_string_ref : parser := fun raw =>
  match raw with
  | None => Ok (localized "" "")
  | Some raw =>
      if String.eqb raw "" then Ok (localized "" "")
      else
        let txt := normalize_newlines raw in
        match PyStr.split1 "#" txt with
        | [src; ctx] => Ok (localized (PyStr.strip src) (PyStr.strip ctx))
        | _ => Ok (localized (PyStr.strip txt) (PyStr.strip ""))
        end
  end.

(** [CustomTypeRegistry._handlers] *)
Definition CustomTypeRegistry := gmap string parser.

Definition register (self : CustomTypeRegistry) (full_name : string)
    (p : parser) : CustomTypeRegistry :=
  <[full_name := p]> self.

Definition parse (self : CustomTypeRegistry) (full_name : string)
    (raw : atom) : M pyval :=
  match self !! full_name with
  | None => raise (UnknownCustomTypeError full_name)
  | Some h =>
      try_except
        (lift (h (match raw with ANone => None | _ => Some (py_str raw) end)))
        Exception
        (fun _ => raise (CustomTypeParseError full_name))
  end.

Definition contains (self : CustomTypeRegistry) (full_name : string) : bool :=
  bool_decide (is_Some (self !! full_name)).

(** The module-level instance, with its one registration. *)
Definition custom_type_registry : CustomTypeRegistry :=
  register ∅ "Localization.LocalizedStringRef" _parse_localized_string_ref.

Definition GENERIC_CUSTOM_TYPE_FALLBACK : bool := true.

(** *** Conversions *)

Variable check : string -> atom -> atom -> ctx -> M unit.
Variable other_types : string -> atom -> ctx -> option (M pyval).

Definition _convert_primitive (type_str : string) (value : atom) (c : ctx)
  : M pyval :=
  match PRIMITIVE_TYPE_MAPPING type_str with
  | None => raise (KeyError type_str)
  | Some converter =>
      match value with
      | ANone =>
          v <- (if existsb (String.eqb type_str) ["str"; "string"]
                then ret (AStr "") else lift (converter (AInt 0)));;
          check type_str v value c;;;
          ret (VAtom v)
      | _ =>
          v <- lift (converter value);;
          check type_str v value c;;;
          ret (VAtom v)
      end
  end.

(** The pattern of [re.search] in [_convert_list] and [_convert_dict]:
    an opening parenthesis, a greedy group of any characters, a closing
    parenthesis. *)
Definition paren_re : Re.re :=
  Re.seq [Re.Chr (Re.Lit "("); Re.Group 1 (Re.Star Re.Dot);
          Re.Chr (Re.Lit ")")].

Definition type_match (type_str : string) : option string :=
  match Re.re_search false paren_re type_str with
  | Some m => Re.group 1 m
  | None => None
  end.

Section Containers.
(** [rec] is [_convert_with_check]. *)
Variable rec : string -> atom -> ctx -> M pyval.

Definition _convert_list_with (type_str : string) (value : atom)
    (c : ctx) : M pyval :=
  match type_match type_str, value with
  | None, _ | _, ANone => ret (VList [])
  | Some inner, AStr text =>
      let element_type_str := PyStr.strip inner in
      result <- for_fold (PyStr.split "," text) []
        (fun result v =>
           let v := PyStr.strip v in
           if String.eqb v "" then ret result
           else
             x <- rec element_type_str (AStr v) c;;
             ret (result ++ [x])%list);;
      ret (VList result)
  | Some inner, _ =>
      let element_type_str := PyStr.strip inner in
      try_except
        (x <- rec element_type_str value c;; ret (VList [x]))
        Exception
        (fun _ => raise (ValueError "cannot convert the value to the list type"))
  end.

(** [PRIMITIVE_TYPE_MAPPING.get(key_type_str, str)] *)
Definition key_conv (key_type_str : string) : atom -> res atom :=
  default (fun x => Ok (AStr (py_str x)))
          (PRIMITIVE_TYPE_MAPPING key_type_str).

(** The body of the loop over the lines of a [dict] cell. *)
Definition _convert_dict_line (key_type_str value_type_str : string)
    (c : ctx) (result : pydict pyval) (line : string) : M (pydict pyval) :=
  if PyStr.contains ":" line then
    match map PyStr.strip (PyStr.split1 ":" line) with
    | [key; val] =>
        k <- lift (key_conv key_type_str (AStr key));;
        v <- rec value_type_str (AStr val) c;;
        ret (dict_set k v result)
    | _ => raise (ValueError "wrong number of values to unpack")
    end
  else ret result.

Definition _convert_dict_with (type_str : string) (value : atom)
    (c : ctx) : M pyval :=
  match type_match type_str, value with
  | None, _ | _, ANone => ret (VDict [])
  | Some inner, _ =>
      match map PyStr.strip (PyStr.split "," inner) with
      | [key_type_str; value_type_str] =>
          result <- for_fold (PyStr.splitlines (py_str value)) []
                      (_convert_dict_line key_type_str value_type_str c);;
          ret (VDict result)
      | _ => raise (ValueError "wrong number of values to unpack")
      end
  end.
End Containers.

(** [_convert_with_check], by recursion on a bound for the length of the
    type string, which every nested call shortens. *)
Fixpoint _convert_with_check_fuel (n : nat) (type_str : string)
    (value : atom) (c : ctx) : M pyval :=
  match n with
  | O => raise (RuntimeError "type string longer than the bound" 0)
  | S n' =>
      let type_str := PyStr.strip type_str in
      match PRIMITIVE_TYPE_MAPPING type_str with
      | Some conv =>
          v <- lift (conv value);;
          check type_str v value c;;;
          ret (VAtom v)
      | None =>
          if PyStr.startswith "list" type_str then
            _convert_list_with (_convert_with_check_fuel n') type_str value c
          else if PyStr.startswith "dict" type_str then
            _convert_dict_with (_convert_with_check_fuel n') type_str value c
          else
            match other_types type_str value c with
            | Some m => m
            | None => ret (VAtom value)
            end
      end
  end.

Definition _convert_with_check (type_str : string) : atom -> ctx -> M pyval :=
  _convert_with_check_fuel (S (String.length type_str)) type_str.

Definition _convert_list := _convert_list_with _convert_with_check.
Definition _convert_dict := _convert_dict_with _convert_with_check.

End Converters.
End Converters.

(** *** parsing/data_processing.py: range problems are warnings *)
Module ParsingDataProcessing.
Section ParsingDataProcessing.
Context {fl : FloatOps}.
Import Converters TypeUtils.
Local Open Scope py_scope.

(** [get_enum_registry()]: the process-wide registry, which conversions
    only read. *)
Variable enum_registry : EnumRegistry.t.

Definition _check_csharp_primitive_range (type_str : string) (v raw : atom)
    (c : ctx) : M unit :=
  if String.eqb type_str "int" then
    try_except
      (ival <- lift (py_int v);;
       if Z.ltb ival (-2147483648) || Z.gtb ival 2147483647 then
         warn_at c "value exceeds the C# int range"
       else ret tt)
      Exception
      (fun _ => raise (ValueError "value cannot be converted to C# int"))
  else if String.eqb type_str "float" then
    try_except
      (fval <- lift (py_float v);;
       if float_exceeds_single fval then
         warn_at c "value exceeds the C# float range"
       else ret tt)
      Exception
      (fun _ => raise (ValueError "value cannot be converted to C# float"))
  else if String.eqb type_str "bool" then
    if is_blank raw then ret tt
    else
      let sval := PyStr.lower (PyStr.strip (py_str raw)) in
      if negb (existsb (String.eqb sval) ["1"; "0"; "true"; "false"]) then
        warn_at c "value is not an allowed C# bool"
      else ret tt
  else if existsb (String.eqb type_str) ["str"; "string"] then
    match v with
    | AStr s =>
        if Z.ltb 65535 (Z.of_nat (String.length s)) then
          warn_at c "string is longer than 65535"
        else ret tt
    | _ => ret tt
    end
  else ret tt.

Definition _convert_enum (enum_name : string) (value : atom) (c : ctx)
  : M pyval :=
  if negb (EnumRegistry.has_enum enum_registry enum_name) then
    raise (ExportError "enum type is not defined" enum_name)
  else if is_blank value then
    raise (ExportError "enum field must not be empty" enum_name)
  else
    let item_name := PyStr.strip (py_str value) in
    if negb (EnumRegistry.validate_enum_item_name item_name) then
      raise (ExportError "enum item name is not upper camel case" item_name)
    else
      try_except
        (enum_value <- lift (EnumRegistry.get_enum_value enum_registry
                               enum_name item_name);;
         ret (VInt enum_value))
        is_ExportError
        (fun e => match e with
                  | ExportError what subject => raise (ExportError what subject)
                  | _ => raise (ExportError "" "")
                  end).

Definition _convert_list_enum (enum_name : string) (value : atom) (c : ctx)
  : M pyval :=
  if is_blank value then ret (VList [])
  else
    match value with
    | AStr text =>
        let item_names :=
          List.filter (fun v => negb (String.eqb v ""))
                      (map PyStr.strip (PyStr.split "," text)) in
        result <- for_fold item_names []
          (fun result item_name =>
             enum_value <- _convert_enum enum_name (AStr item_name) c;;
             ret (result ++ [enum_value])%list);;
        ret (VList result)
    | _ =>
        try_except
          (enum_value <- _convert_enum enum_name value c;;
           ret (VList [enum_value]))
          Exception
          (fun _ => raise (ValueError "cannot convert the value to list(enum)"))
    end.

Definition _convert_dict_enum (type_str enum_name : string) (value : atom)
    (c : ctx) : M pyval :=
  match type_match type_str, value with
  | None, _ | _, ANone => ret (VDict [])
  | Some inner, _ =>
      match map PyStr.strip (PyStr.split "," inner) with
      | [key_type_str; _] =>
          result <- for_fold (PyStr.splitlines (py_str value)) []
            (fun result line =>
               if PyStr.contains ":" line then
                 match map PyStr.strip (PyStr.split1 ":" line) with
                 | [key; val] =>
                     k <- lift (key_conv key_type_str (AStr key));;
                     enum_value <- _convert_enum enum_name (AStr val) c;;
                     ret (dict_set k enum_value result)
                 | _ => raise (ValueError "wrong number of values to unpack")
                 end
               else ret result);;
          ret (VDict result)
      | _ => raise (ValueError "wrong number of values to unpack")
      end
  end.

(** The [enum(...)] branch of [_convert_with_check]. *)
Definition enum_branch (type_str : string) (value : atom) (c : ctx)
  : option (M pyval) :=
  match Re.re_match true enum_re type_str with
  | Some enum_match =>
      Some (enum_name <- lift (group_strip enum_match 1);;
            _convert_enum enum_name value c)
  | None => None
  end.

Definition _convert_with_check :=
  Converters._convert_with_check _check_csharp_primitive_range enum_branch.
Definition _convert_list :=
  Converters._convert_list _check_csharp_primitive_range enum_branch.
Definition _convert_dict :=
  Converters._convert_dict _check_csharp_primitive_range enum_branch.
Definition _convert_primitive :=
  Converters._convert_primitive _check_csharp_primitive_range.

(** [custom] is the module's [custom_type_registry], which other code may
    extend. *)
Definition convert_to_type_with (custom : CustomTypeRegistry)
    (type_str : atom) (value : atom) (c : ctx) : M pyval :=
  if negb (truthy type_str) then raise (ValueError "empty type definition")
  else
    match type_str with
    | AStr type_str =>
        let type_str := PyStr.strip type_str in
        if String.eqb type_str "" then
          raise (ValueError "empty type definition")
        else
          kb <- lift (parse_type_annotation (Some type_str));;
          let '(kind, base_type) := kb in
          let enum_base :=
            match base_type with
            | Some b => negb (String.eqb b "") && PyStr.startswith "enum(" b
            | None => false
            end in
          let rest : M pyval :=
            if bool_decide (is_Some (PRIMITIVE_TYPE_MAPPING (fl:=fl) type_str))
            then _convert_primitive type_str value c
            else if PyStr.startswith "dict" type_str then
              _convert_dict type_str value c
            else if PyStr.startswith "list" type_str then
              _convert_list type_str value c
            else if PyStr.contains "." type_str then
              if contains custom type_str then parse custom type_str value
              else if GENERIC_CUSTOM_TYPE_FALLBACK then
                ret (_generic_custom_type_object type_str
                       (match value with
                        | ANone => None
                        | _ => Some (py_str value)
                        end))
              else raise (UnknownCustomTypeError type_str)
            else raise (ValueError "unsupported data type") in
          if String.eqb kind "enum" then
            _convert_enum (default "" base_type) value c
          else if String.eqb kind "list" && enum_base then
            match Re.re_match true enum_re (default "" base_type) with
            | Some enum_match =>
                enum_name <- lift (group_strip enum_match 1);;
                _convert_list_enum enum_name value c
            | None => _convert_list type_str value c
            end
          else if String.eqb kind "dict" && enum_base then
            match Re.re_match true enum_re (default "" base_type) with
            | Some enum_match =>
                enum_name <- lift (group_strip enum_match 1);;
                _convert_dict_enum type_str enum_name value c
            | None => _convert_dict type_str value c
            end
          else rest
    | _ => raise (AttributeError "the type is not a str: no attribute 'strip'")
    end.

Definition convert_to_type := convert_to_type_with custom_type_registry.

End ParsingDataProcessing.
End ParsingDataProcessing.

(** *** data_processing.py: range problems are errors *)
Module DataProcessing.
Section DataProcessing.
Context {fl : FloatOps}.
Import Converters.
Local Open Scope py_scope.

Definition _check_csharp_primitive_range (type_str : string) (v raw : atom)
    (c : ctx) : M unit :=
  if String.eqb type_str "int" then
    try_except
      (ival <- lift (py_int v);;
       if Z.ltb ival (-2147483648) || Z.gtb ival 2147483647 then
         raise (ValueError "value exceeds the C# int range")
       else ret tt)
      Exception
      (fun _ => raise (ValueError "value cannot be converted to C# int"))
  else if String.eqb type_str "float" then
    try_except
      (fval <- lift (py_float v);;
       if float_exceeds_single fval then
         raise (ValueError "value exceeds the C# float range")
       else ret tt)
      Exception
      (fun _ => raise (ValueError "value cannot be converted to C# float"))
  else if String.eqb type_str "bool" then
    if is_blank raw then ret tt
    else
      let sval := PyStr.lower (PyStr.strip (py_str raw)) in
      if negb (existsb (String.eqb sval) ["1"; "0"; "true"; "false"]) then
        raise (ValueError "value is not an allowed C# bool")
      else ret tt
  else if existsb (String.eqb type_str) ["str"; "string"] then
    match v with
    | AStr s =>
        if Z.ltb 65535 (Z.of_nat (String.length s)) then
          raise (ValueError "string is longer than 65535")
        else ret tt
    | _ => ret tt
    end
  else ret tt.

Definition no_other_types (type_str : string) (value : atom) (c : ctx)
  : option (M pyval) := None.

Definition _convert_with_check :=
  Converters._convert_with_check _check_csharp_primitive_range no_other_types.
Definition _convert_list :=
  Converters._convert_list _check_csharp_primitive_range no_other_types.
Definition _convert_dict :=
  Converters._convert_dict _check_csharp_primitive_range no_other_types.
Definition _convert_primitive :=
  Converters._convert_primitive _check_csharp_primitive_range.

Definition convert_to_type_with (custom : CustomTypeRegistry)
    (type_str : atom) (value : atom) (c : ctx) : M pyval :=
  if negb (truthy type_str) then raise (ValueError "empty type definition")
  else
    match type_str with
    | AStr type_str =>
        let type_str := PyStr.strip type_str in
        if bool_decide (is_Some (PRIMITIVE_TYPE_MAPPING (fl:=fl) type_str))
        then _convert_primitive type_str value c
        else if PyStr.startswith "dict" type_str then
          _convert_dict type_str value c
        else if PyStr.startswith "list" type_str then
          _convert_list type_str value c
        else if PyStr.contains "." type_str then
          if contains custom type_str then parse custom type_str value
          else if GENERIC_CUSTOM_TYPE_FALLBACK then
            ret (_generic_custom_type_object type_str
                   (match value with
                    | ANone => None
                    | _ => Some (py_str value)
                    end))
          else raise (UnknownCustomTypeError type_str)
        else raise (ValueError "unsupported data type")
    | _ => raise (AttributeError "the type is not a str: no attribute 'strip'")
    end.

Definition convert_to_type := convert_to_type_with custom_type_registry.

End DataProcessing.
End DataProcessing.

(* ===================================================================== *)
(** ** validation/asset_validator.py *)
(* ===================================================================== *)

Module AssetValidator.

Record _AssetEntry : Type := Entry {
  base : string;   (* without the extension, in its actual case *)
  ext : string;    (* lower case, without the dot *)
  path : string;
  root : string
}.

(** What the validator sees of the file system: for a directory, what
    [os.walk] yields below it ([dirpath] and its [filenames]); [None] for
    a path that is not a directory. *)
Definition filesystem := string -> option (list (string * list string)).

Record t : Type := Build {
  collector_setting : string;
  strict : bool;
  project_root : string;
  roots : list string;
  _index : gmap string (list _AssetEntry)
}.

(** [os.path.join(a, b)] on POSIX paths. *)
Definition path_join (a b : string) : string :=
  if PyStr.startswith "/" b then b
  else if String.eqb a "" then b
  else if PyStr.endswith "/" a then String.append a b
  else String.append a (String.append "/" b).

(** [os.path.splitext(fn)] for a file name (no directory part): the
    extension starts at the last dot, unless only dots precede it. *)
Definition splitext (fn : string) : string * string :=
  let r := rev (PyStr.chars fn) in
  let ext_rev := PyStr.take_while (fun c => negb (Ascii.eqb c ".")) r in
  match drop (length ext_rev) r with
  | [] => (fn, "")
  | dot :: base_rev =>
      if forallb (Ascii.eqb ".") base_rev then (fn, "")
      else (PyStr.of_chars (rev base_rev),
            PyStr.of_chars (dot :: rev ext_rev))
  end.

(** [ext[1:]] *)
Definition tail (s : string) : string :=
  match s with
  | EmptyString => EmptyString
  | String _ s' => s'
  end.

(** [idx.setdefault(key, []).append(entry)] *)
Definition index_add (key : string) (entry : _AssetEntry)
    (idx : gmap string (list _AssetEntry)) : gmap string (list _AssetEntry) :=
  <[key := (default [] (idx !! key) ++ [entry])%list]> idx.

Definition index_file (root dirpath : string)
    (idx : gmap string (list _AssetEntry)) (fn : string)
  : gmap string (list _AssetEntry) :=
  if PyStr.endswith ".meta" fn then idx
  else
    let '(base, ext) := splitext fn in
    let ext := if String.eqb ext "" then "" else PyStr.lower (tail ext) in
    let entry := Entry base ext (path_join dirpath fn) root in
    let key := PyStr.lower base in
    index_add key entry idx.

Definition index_dir (root : string) (idx : gmap string (list _AssetEntry))
    (d : string * list string) : gmap string (list _AssetEntry) :=
  fold_left (index_file root (fst d)) (snd d) idx.

Definition index_root (fs : filesystem) (proj : string)
    (idx : gmap string (list _AssetEntry)) (root : string)
  : gmap string (list _AssetEntry) :=
  let abs_root := path_join proj root in
  match fs abs_root with
  | None => idx
  | Some walk => fold_left (index_dir root) walk idx
  end.

(** [_build_index]: the new value of [self._index]. *)
Definition _build_index (fs : filesystem) (proj : string)
    (roots : list string) : gmap string (list _AssetEntry) :=
  fold_left (index_root fs proj) roots ∅.

(** [_infer_project_root], from the absolute path of the settings file. *)
Fixpoint before_assets (parts : list string) : option (list string) :=
  match parts with
  | [] => None
  | p :: ps =>
      if String.eqb p "Assets" then Some []
      else option_map (cons p) (before_assets ps)
  end.

Definition backslash_to_slash (s : string) : string :=
  PyStr.of_chars (map (fun c => if Ascii.eqb c "\" then "/"%char else c)
                      (PyStr.chars s)).

Definition _infer_project_root (abs_collector_setting : string) : string :=
  let p := backslash_to_slash abs_collector_setting in
  match before_assets (PyStr.split "/" p) with
  | Some parts =>
      let root := PyStr.join "/" parts in
      if String.eqb root "" then "/" else root
  | None => ""
  end.

(** The pattern [CollectPath:], white space, then the group
    [Assets/] followed by characters other than CR and LF. *)
Definition collect_path_re : Re.re :=
  Re.seq [Re.word "CollectPath:"; Re.Star Re.Space;
          Re.Group 1 (Re.Seq (Re.word "Assets/")
                        (Re.Plus (Re.NoneOf ["013"%char; "010"%char])))].

Definition drop_last_char (s : string) : string :=
  PyStr.of_chars (rev (drop 1 (rev (PyStr.chars s)))).

(** [_parse_collect_paths]; [lines] is [None] when the file cannot be
    read. *)
Definition _parse_collect_paths (lines : option (list string))
  : list string :=
  match lines with
  | None => []
  | Some lines =>
      fold_left
        (fun paths line =>
           match Re.re_search false collect_path_re line with
           | Some m =>
               match Re.group 1 m with
               | Some g =>
                   let path := PyStr.strip g in
                   let path := if PyStr.endswith "/" path
                               then drop_last_char path else path in
                   if existsb (String.eqb path) paths then paths
                   else (paths ++ [path])%list
               | None => paths
               end
           | None => paths
           end)
        lines []
  end.

(** [AssetValidator(collector_setting, strict)] *)
Definition new (fs : filesystem) (abs_collector_setting : string)
    (lines : option (list string)) (strict : bool) : t :=
  let project_root := _infer_project_root abs_collector_setting in
  let roots := _parse_collect_paths lines in
  Build abs_collector_setting strict project_root roots
    (if negb (String.eqb project_root "")
        && negb (bool_decide (roots = []))
     then _build_index fs project_root roots else ∅).

Definition entry_is (base_name : string) (req : option string)
    (e : _AssetEntry) : bool :=
  String.eqb (base e) base_name
  && match req with
     | Some req => String.eqb (ext e) req
     | None => true
     end.

Definition exists_in_index (index : gmap string (list _AssetEntry))
    (base_name : string) (required_ext : option string) : bool :=
  if bool_decide (index = ∅) then false
  else
    let key := PyStr.strip (PyStr.lower base_name) in
    let cand := default [] (index !! key) in
    match cand with
    | [] => false
    | _ =>
        match required_ext with
        | Some e =>
            if negb (String.eqb e "") then
              let req := PyStr.lower (PyStr.lstrip_char "." (PyStr.strip e)) in
              existsb (entry_is base_name (Some req)) cand
            else existsb (entry_is base_name None) cand
        | None => existsb (entry_is base_name None) cand
        end
    end.

Definition exists_base_name (self : t) (base_name : string)
    (required_ext : option string) : bool :=
  exists_in_index (_index self) base_name required_ext.

End AssetValidator.

(* ===================================================================== *)
(** ** validation/worksheet_validator.py *)
(* ===================================================================== *)

Module WorksheetValidator.
Section WorksheetValidator.
Context {fl : FloatOps}.
Local Open Scope py_scope.

(** A data row: the values of its cells, from the second column on
    ([iter_rows(min_row=7, min_col=2)]). *)
Definition row := list atom.

(** [available_csharp_enum_name] of [parsing/data_processing.py], that
    is [is_valid_csharp_identifier]; a cell that holds no [str] is not an
    identifier. *)
Definition available_csharp_enum_name (name : atom) : bool :=
  match name with
  | AStr s => NamingUtils.is_valid_csharp_identifier s
  | _ => false
  end.

Definition validate_enum_name (name : atom) (excel_row : Z) : res unit :=
  if negb (available_csharp_enum_name name) then
    Raise (InvalidEnumNameError (py_str name) [] excel_row)
  else Ok tt.

(** [name_rows[val].append(excel_row)] on a [defaultdict(list)] *)
Definition name_rows_append (val : atom) (excel_row : Z)
    (name_rows : pydict (list Z)) : pydict (list Z) :=
  dict_set val (default [] (dict_get val name_rows) ++ [excel_row])%list
           name_rows.

(** The body of the loop of [check_duplicate_enum_keys]. *)
Definition enum_scan_step (name_rows : pydict (list Z)) (ir : Z * row)
  : res (pydict (list Z)) :=
  let '(idx, r) := ir in
  match r with
  | [] => Ok name_rows
  | val :: _ =>
      let excel_row := 7 + idx in
      let? _ := validate_enum_name val excel_row in
      Ok (name_rows_append val excel_row name_rows)
  end.

Definition collect_name_rows (row_data : list row)
  : res (pydict (list Z)) :=
  res_fold (enumerate 0 row_data) [] enum_scan_step.

Definition check_duplicate_enum_keys (row_data : list row)
    (sheet_name : string) : res unit :=
  let? name_rows := collect_name_rows row_data in
  let dup := List.filter (fun kv => (1 <? length (snd kv))%nat) name_rows in
  match dup with
  | [] => Ok tt
  | _ =>
      Raise (InvalidEnumNameError "duplicate string primary keys"
               (map (fun kv => (py_str (fst kv), snd kv)) dup) (-1))
  end.

(** The body of the loop of [check_duplicate_composite_keys]: [seen]
    maps a combined key to the Excel row that brought it. *)
Definition composite_scan_step (multiplier : Z) (seen : gmap Z Z)
    (ir : Z * row) : res (gmap Z Z) :=
  let '(idx, r) := ir in
  match r with
  | k1 :: k2 :: _ =>
      let excel_row := 7 + idx in
      match k1, k2 with
      | ANone, _ | _, ANone =>
          Raise (RuntimeError "key1/key2 is empty" excel_row)
      | _, _ =>
          match py_int k1, py_int k2 with
          | Ok i1, Ok i2 =>
              let combined := i1 * multiplier + i2 in
              match seen !! combined with
              | Some first_row =>
                  Raise (DuplicatePrimaryKeyError combined first_row
                           excel_row)
              | None => Ok (<[combined := excel_row]> seen)
              end
          | _, _ =>
              Raise (RuntimeError "key1/key2 is not an integer" excel_row)
          end
      end
  | _ => Ok seen
  end.

Definition check_duplicate_composite_keys (row_data : list row)
    (multiplier max_key2 : Z) (sheet_name : string) : res unit :=
  let? _ := res_fold (enumerate 0 row_data) (∅ : gmap Z Z)
              (composite_scan_step multiplier) in
  Ok tt.

(** [data_labels[col_index]] *)
Definition label_at (data_labels : list atom) (i : nat) : res atom :=
  match nth_error data_labels i with
  | Some a => Ok a
  | None => Raise (IndexError "list index out of range")
  end.

(** The inner loop of [check_has_effective_data], over the cells of one
    row with their column indices: [true] is the early [return True]. *)
Fixpoint row_has_effective_data (field_names data_labels : list atom)
    (cells : list (Z * atom)) : res bool :=
  match cells with
  | [] => Ok false
  | (col_index, value) :: cells' =>
      if Z.leb (Z.of_nat (length field_names)) col_index then
        row_has_effective_data field_names data_labels cells'
      else
        let? label := label_at data_labels (Z.to_nat col_index) in
        if atom_eqb label (AStr "ignore") then
          row_has_effective_data field_names data_labels cells'
        else if negb (atom_eqb value ANone || atom_eqb value (AStr "")) then
          Ok true
        else row_has_effective_data field_names data_labels cells'
  end.

Fixpoint rows_have_effective_data (field_names data_labels : list atom)
    (rows : list row) : res bool :=
  match rows with
  | [] => Ok false
  | r :: rows' =>
      let? found := row_has_effective_data field_names data_labels
                      (enumerate 1 r) in
      if found then Ok true
      else rows_have_effective_data field_names data_labels rows'
  end.

Definition check_has_effective_data (row_data : list row)
    (field_names data_labels : list atom) : res bool :=
  match row_data with
  | [] => Ok false
  | _ => rows_have_effective_data field_names data_labels row_data
  end.

End WorksheetValidator.
End WorksheetValidator.

(* ===================================================================== *)
(** ** validation/reference_checker.py *)
(* ===================================================================== *)

Module ReferenceChecker.
Section ReferenceChecker.
Context {fl : FloatOps}.
Local Open Scope py_scope.

(** What [json.load] returns: objects have [str] keys. *)
Inductive json : Type :=
| JAtom (a : atom)
| JList (l : list json)
| JObj (o : list (string * json)).

(** [REFERENCE_ALLOW_EMPTY_INT_VALUES] and
    [REFERENCE_ALLOW_EMPTY_STRING_VALUES] of [utils/naming_config.py],
    which is not among the sources. *)
Variable REFERENCE_ALLOW_EMPTY_INT_VALUES : list Z.
Variable REFERENCE_ALLOW_EMPTY_STRING_VALUES : list string.

(** The exported files as the checker finds them: the object read from
    the first [<sheet>.json] under the search directories, [None] when
    there is no such file or it does not parse. *)
Variable load_json : string -> option json.

Definition infer_base_from_value (v : atom) : option string :=
  match v with
  | ANone => None
  | ABool _ => Some "bool"
  | AInt _ => Some "int"
  | AFloat _ => Some "float"
  | AStr _ => Some "string"
  end.

(** A [set] is a list without [==]-duplicates, iterated in the order of
    insertion.  (CPython iterates in hash order; the two orders give the
    same [infer_base_from_set] when every member other than [None] has
    the same type.) *)
Definition pyset := list atom.
Definition set_mem (a : atom) (s : pyset) : bool := existsb (atom_eqb a) s.
Definition set_add (a : atom) (s : pyset) : pyset :=
  if set_mem a s then s else (s ++ [a])%list.

Fixpoint infer_base_from_set (values : pyset) : option string :=
  match values with
  | [] => None
  | x :: values' =>
      match infer_base_from_value x with
      | Some t => Some t
      | None => infer_base_from_set values'
      end
  end.

Fixpoint pick_first_nonempty_field (obj : list (string * json))
  : option string :=
  match obj with
  | [] => None
  | (k, v) :: obj' =>
      match v with
      | JAtom a =>
          if negb (atom_eqb a ANone || atom_eqb a (AStr "")) then Some k
          else pick_first_nonempty_field obj'
      | _ => pick_first_nonempty_field obj'
      end
  end.

Fixpoint obj_get (k : string) (o : list (string * json)) : option json :=
  match o with
  | [] => None
  | (k', v) :: o' => if String.eqb k' k then Some v else obj_get k o'
  end.

Record PendingCheck : Type := Pending {
  excel_row : Z;
  field_name : string;
  ref_sheet : string;
  ref_field : option string;
  kind : string;
  base : option string;
  value : pyval
}.

Record t : Type := Build {
  sheet_name : string;
  source_file : option string;
  _pending_ref_checks : list PendingCheck;
  _ref_dict_warned_cols : gset nat;
  _reference_checks_done : bool
}.

Definition new (sheet_name : string) (source_file : option string) : t :=
  Build sheet_name source_file [] ∅ false.

Definition add_pending_check (self : t) (check_item : PendingCheck) : t :=
  Build (sheet_name self) (source_file self)
        (_pending_ref_checks self ++ [check_item])%list
        (_ref_dict_warned_cols self) (_reference_checks_done self).

Definition add_warned_dict_col (self : t) (col_index : nat) : t :=
  Build (sheet_name self) (source_file self) (_pending_ref_checks self)
        ({[col_index]} ∪ _ref_dict_warned_cols self)
        (_reference_checks_done self).

Definition is_dict_col_warned (self : t) (col_index : nat) : bool :=
  bool_decide (col_index ∈ _ref_dict_warned_cols self).

Definition clear_pending_checks (self : t) : t :=
  Build (sheet_name self) (source_file self) []
        (_ref_dict_warned_cols self) false.

(** *** [run_checks] *)

(** The value set of a column, the base type inferred from it, and the
    name of the column. *)
Definition ref_pack : Type := pyset * option string * string.

(** The local tables of one run. *)
Record tables : Type := Tables {
  cache : gmap (string * string) (option ref_pack);
  json_obj_cache : gmap string json;
  json_missing : gset string
}.
Definition no_tables : tables := Tables ∅ ∅ ∅.

Definition cache_put (tb : tables) (sheet : string) (field : option string)
    (v : option ref_pack) : tables :=
  match field with
  | Some f => Tables (<[(sheet, f) := v]> (cache tb))
                     (json_obj_cache tb) (json_missing tb)
  | None => tb
  end.

(** [build_set_for(col)]: a member must be hashable. *)
Definition build_set_for (obj : list (string * json)) (col : string)
  : res (pyset * option string) :=
  let? s :=
    res_fold obj ([] : pyset)
      (fun s kr =>
         match snd kr with
         | JObj r =>
             match obj_get col r with
             | Some (JAtom a) => Ok (set_add a s)
             | Some _ => Raise (TypeError "unhashable type")
             | None => Ok s
             end
         | _ => Ok s
         end) in
  Ok (s, infer_base_from_set s).

Definition load_ref_set (tb : tables) (sheet : string)
    (field : option string) : res (option ref_pack * tables) :=
  let cached :=
    match field with
    | Some f => cache tb !! (sheet, f)
    | None => None
    end in
  match cached with
  | Some hit => Ok (hit, tb)
  | None =>
      if bool_decide (sheet ∈ json_missing tb) then
        Ok (None, cache_put tb sheet field None)
      else
        (* obj = json_obj_cache.get(sheet); if obj is None: ... *)
        let found :=
          match json_obj_cache tb !! sheet with
          | Some (JAtom ANone) | None =>
              match load_json sheet with
              | None => None
              | Some obj =>
                  Some (obj, Tables (cache tb)
                               (<[sheet := obj]> (json_obj_cache tb))
                               (json_missing tb))
              end
          | Some obj => Some (obj, tb)
          end in
        match found with
        | None =>
            let tb := Tables (cache tb) (json_obj_cache tb)
                             ({[sheet]} ∪ json_missing tb) in
            Ok (None, cache_put tb sheet field None)
        | Some (obj, tb) =>
            match obj with
            | JObj o =>
                let real_field :=
                  match field with
                  | None =>
                      match o with
                      | (_, JObj first_row) :: _ =>
                          match pick_first_nonempty_field first_row with
                          | Some pick =>
                              if String.eqb pick "" then "id" else pick
                          | None => "id"
                          end
                      | _ => "id"
                      end
                  | Some f => f
                  end in
                match cache tb !! (sheet, real_field) with
                | Some hit => Ok (hit, cache_put tb sheet field hit)
                | None =>
                    let? vb := build_set_for o real_field in
                    let pack := Some (fst vb, snd vb, real_field) in
                    let tb := Tables (<[(sheet, real_field) := pack]> (cache tb))
                                     (json_obj_cache tb) (json_missing tb) in
                    Ok (pack, cache_put tb sheet field pack)
                end
            | _ =>
                (* [obj.values()] or [obj.items()] on what is no dict; a
                   given [field] reaches it in [build_set_for]. *)
                Raise (AttributeError "the JSON value has no items()")
            end
        end
  end.

Definition value_type_ok (base : string) (v : pyval) : bool :=
  match v with
  | VAtom ANone => false
  | _ =>
      if String.eqb base "int" then
        match v with VAtom (AInt _) => true | _ => false end
      else if String.eqb base "float" then
        match v with VAtom (AInt _) | VAtom (AFloat _) => true | _ => false end
      else if String.eqb base "string" then
        match v with VAtom (AStr _) => true | _ => false end
      else if String.eqb base "bool" then
        match v with VAtom (ABool _) => true | _ => false end
      else true
  end.

Definition _is_empty_ref (val : pyval) (base_type : option string) : bool :=
  match base_type with
  | Some b =>
      if String.eqb b "int" then
        match val with
        | VAtom (AInt z) => existsb (Z.eqb z) REFERENCE_ALLOW_EMPTY_INT_VALUES
        | VAtom (ABool x) =>
            existsb (Z.eqb (Z.b2z x)) REFERENCE_ALLOW_EMPTY_INT_VALUES
        | _ => false
        end
      else if String.eqb b "string" then
        match val with
        | VAtom (AStr s) =>
            existsb (String.eqb s) REFERENCE_ALLOW_EMPTY_STRING_VALUES
        | _ => false
        end
      else false
  | None => false
  end.

(** [a or b] on optional strings *)
Definition or_else (a b : option string) : option string :=
  match a with
  | Some s => if String.eqb s "" then b else a
  | None => b
  end.
Definition nonempty (a : option string) : bool :=
  match a with
  | Some s => negb (String.eqb s "")
  | None => false
  end.

(** [check_one(v, expected_base)] for one item and its [ref_pack];
    [any_error] is the variable of [run_checks] it may set. *)
Definition check_one (item : PendingCheck) (pack : ref_pack)
    (any_error : bool) (v : pyval) (expected_base : option string)
  : M bool :=
  let '(ref_values, ref_base, ref_real_field) := pack in
  if _is_empty_ref v (or_else expected_base ref_base) then ret any_error
  else if nonempty expected_base
          && negb (value_type_ok (default "" expected_base) v) then
    log_error "type mismatch: the value is not of the expected type"
      (Some (excel_row item)) (field_name item);;;
    ret any_error
  else
    match v with
    | VAtom a =>
        if negb (set_mem a ref_values) then
          log_error "the referenced value does not exist in the target"
            (Some (excel_row item)) (field_name item);;;
          ret true
        else ret any_error
    | _ => raise (TypeError "unhashable type")
    end.

Definition check_item (st : tables * bool) (item : PendingCheck)
  : M (tables * bool) :=
  let '(tb, any_error) := st in
  r <- lift (load_ref_set tb (ref_sheet item) (ref_field item));;
  let '(found, tb) := r in
  match found with
  | None =>
      log_warn "the JSON of the target sheet was not found, check skipped"
        (Some (excel_row item)) (field_name item);;;
      ret (tb, any_error)
  | Some pack =>
      let '(ref_values, ref_base, ref_real_field) := pack in
      any_error <-
        (if nonempty (base item) && nonempty ref_base
            && negb (bool_decide (base item = ref_base)) then
           log_error "reference type mismatch"
             (Some (excel_row item)) (field_name item);;;
           ret true
         else ret any_error);;
      any_error <-
        (if String.eqb (kind item) "scalar" then
           check_one item pack any_error (value item)
                     (or_else (base item) ref_base)
         else if String.eqb (kind item) "list" then
           match value item with
           | VList l =>
               for_fold l any_error
                 (fun any_error ele =>
                    check_one item pack any_error ele
                              (or_else (base item) ref_base))
           | _ =>
               log_error "declared as a list but the value is not a list"
                 (Some (excel_row item)) (field_name item);;;
               ret any_error
           end
         else ret any_error);;
      ret (tb, any_error)
  end.

Definition success_line : string :=
  "no reference is missing and no reference type mismatches".

(** [run_checks(search_dirs, sheet_to_file_map)]; the map of display
    names only feeds the messages. *)
Definition run_checks (self : t) : M t :=
  if _reference_checks_done self then ret self
  else
    match _pending_ref_checks self with
    | [] => ret self
    | _ =>
        st <- for_fold (_pending_ref_checks self) (no_tables, false)
                check_item;;
        let any_error := snd st in
        (if negb any_error then
           log_info success_line None (sheet_name self)
         else ret tt);;;
        ret (Build (sheet_name self) (source_file self)
               (_pending_ref_checks self) (_ref_dict_warned_cols self) true)
    end.

End ReferenceChecker.
End ReferenceChecker.

(* ===================================================================== *)
(** ** parsing/field_parser.py *)
(* ===================================================================== *)

Module FieldParser.
Import Re.
Local Open Scope py_scope.

(** [^\s*key1\s*:\s*(?P<name>.+)\s*$], ignoring case; the group [name]
    is group 1. *)
Definition key_prefix_re (key : string) : re :=
  seq [Bos; Star Space; word key; Star Space; Chr (Lit ":"); Star Space;
       Group 1 (Plus Dot); Star Space; Eos].
Definition KEY1_PREFIX_RE : re := key_prefix_re "key1".
Definition KEY2_PREFIX_RE : re := key_prefix_re "key2".

(** [[Sheet/Field]Name] or [[Sheet]Name]: groups [sheet] = 1,
    [field] = 2, [name] = 3. *)
Definition REF_PREFIX_RE : re :=
  seq [Bos; Star Space; Chr (Lit "[");
       Group 1 (Plus (NoneOf [":"%char; "/"%char; "]"%char]));
       Opt (Seq (Chr (Lit "/")) (Group 2 (Plus (NoneOf ["]"%char]))));
       Chr (Lit "]"); Star Space; Group 3 (Plus Dot); Eos].

(** [[Asset]Name] or [[Asset:ext]Name], ignoring case: groups
    [ext] = 1, [name] = 2. *)
Definition ASSET_PREFIX_RE : re :=
  seq [Bos; Star Space; Chr (Lit "["); word "asset";
       Opt (Seq (Chr (Lit ":")) (Group 1 (Plus Word)));
       Chr (Lit "]"); Star Space; Group 2 (Plus Dot); Eos].

Definition extract_actual_field_name (raw_field_name : string)
  : res string :=
  match re_match true KEY1_PREFIX_RE raw_field_name with
  | Some m1 => TypeUtils.group_strip m1 1
  | None =>
  match re_match true KEY2_PREFIX_RE raw_field_name with
  | Some m2 => TypeUtils.group_strip m2 1
  | None =>
  match re_match true ASSET_PREFIX_RE raw_field_name with
  | Some m_asset => TypeUtils.group_strip m_asset 2
  | None =>
  match re_match false REF_PREFIX_RE raw_field_name with
  | Some m3 => TypeUtils.group_strip m3 3
  | None => Ok raw_field_name
  end end end end.

Definition parse_ref_prefix (raw_field_name : string)
  : res (option (string * option string)) :=
  match re_match false REF_PREFIX_RE raw_field_name with
  | Some m =>
      let? sheet := TypeUtils.group_strip m 1 in
      let field :=
        match group 2 m with
        | Some f => if String.eqb f "" then None else Some (PyStr.strip f)
        | None => None
        end in
      Ok (Some (sheet, field))
  | None => Ok None
  end.

Definition parse_asset_prefix (raw_field_name : string)
  : res (option (string * option string)) :=
  match re_match true ASSET_PREFIX_RE raw_field_name with
  | Some m =>
      let ext := group 1 m in
      let? field_name := TypeUtils.group_strip m 2 in
      let ext :=
        match ext with
        | Some e =>
            if negb (String.eqb (PyStr.strip e) "")
            then Some (PyStr.lower (PyStr.strip e)) else None
        | None => None
        end in
      Ok (Some (field_name, ext))
  | None => Ok None
  end.

Definition parse_key_prefix (raw_field_name : string)
  : res (option (string * string)) :=
  match re_match true KEY1_PREFIX_RE raw_field_name with
  | Some m1 =>
      let? name := TypeUtils.group_strip m1 1 in Ok (Some ("key1", name))
  | None =>
  match re_match true KEY2_PREFIX_RE raw_field_name with
  | Some m2 =>
      let? name := TypeUtils.group_strip m2 1 in Ok (Some ("key2", name))
  | None => Ok None
  end end.

End FieldParser.

(* ===================================================================== *)
(** ** core/worksheet_data.py *)
(* ===================================================================== *)

Module WorksheetData.
Section WorksheetData.
Context {fl : FloatOps}.
Local Open Scope py_scope.

Definition MAX_KEY2 : Z := 46340.
Definition MULTIPLIER : Z := MAX_KEY2.

(** *** [__init__]: the six header rows *)

Record headers : Type := Headers {
  h_remarks : list atom;
  h_headers : list atom;
  h_data_types : list atom;
  h_data_labels : list atom;
  h_field_names : list atom;
  h_default_values : list atom
}.

(** [self.cell_values[i]] for [i] in 1..6 *)
Definition cell_values (h : headers) : list (Z * list atom) :=
  [(1, h_remarks h); (2, h_headers h); (3, h_data_types h);
   (4, h_data_labels h); (5, h_field_names h); (6, h_default_values h)].

Definition _align_list (sheet : string) (lst : list atom) (target : nat)
    (fill : atom) (name : string) : M (list atom) :=
  if Nat.eqb (length lst) target then ret lst
  else if (length lst <? target)%nat then
    log_warn "fewer cells than field columns, filled with None" None name;;;
    ret (lst ++ repeat fill (target - length lst))%list
  else
    log_warn "more cells than field columns, truncated" None name;;;
    ret (take target lst).

(** The part of [__init__] that reads and checks the header rows (up to
    the alignment); [h] holds what [read_cell_values] returned for rows
    1 to 6. *)
Definition init_headers (name : string) (h : headers) : M headers :=
  for_each (cell_values h)
    (fun ir => if Nat.eqb (length (snd ir)) 0
               then raise (HeaderFormatError name
                             "header row is missing or empty" (fst ir))
               else ret tt);;;
  let n_fields := length (h_field_names h) in
  (if Nat.eqb n_fields 0
   then raise (HeaderFormatError name "the field row is empty" 5)
   else ret tt);;;
  for_each (cell_values h)
    (fun ir => if negb (Nat.eqb (length (snd ir)) n_fields)
               then raise (HeaderFormatError name
                             "row length differs from the field columns"
                             (fst ir))
               else ret tt);;;
  let n_fields := length (h_field_names h) in
  remarks <- _align_list name (h_remarks h) n_fields ANone "remarks row";;
  headers_ <- _align_list name (h_headers h) n_fields ANone "header row";;
  data_types <- _align_list name (h_data_types h) n_fields ANone "type row";;
  data_labels <- _align_list name (h_data_labels h) n_fields ANone "label row";;
  default_values <- _align_list name (h_default_values h) n_fields ANone
                      "default value row";;
  ret (Headers remarks headers_ data_types data_labels (h_field_names h)
         default_values).

(** *** The worksheet after [__init__] *)

Record t : Type := Build {
  name : string;
  data_types : list atom;
  data_labels : list atom;
  field_names : list atom;
  default_values : list atom;
  row_data : list (list atom);
  need_generate_keys : bool;
  composite_keys : bool;
  first_int_pk_not_named_id_warned : bool;
  _ref_specs : gmap nat (string * option string);
  _asset_specs : gmap nat (option string);
  _reference_checker : ReferenceChecker.t;
  _asset_validator_missing_warned : bool
}.

(** The duplicate-key scans that [__init__] runs once the key strategy
    is known. *)
Definition init_key_scans (self : t) : res unit :=
  let? _ := (if need_generate_keys self
             then WorksheetValidator.check_duplicate_enum_keys
                    (row_data self) (name self)
             else Ok tt) in
  if composite_keys self
  then WorksheetValidator.check_duplicate_composite_keys
         (row_data self) MULTIPLIER MAX_KEY2 (name self)
  else Ok tt.

(** [lst[i]] *)
Definition index (lst : list atom) (i : nat) : res atom :=
  match nth_error lst i with
  | Some a => Ok a
  | None => Raise (IndexError "list index out of range")
  end.

Definition _actual_field_name (self : t) (field_index : nat) : res string :=
  let? raw := index (field_names self) field_index in
  match raw with
  | AStr s => FieldParser.extract_actual_field_name s
  | _ => Ok (py_str raw)
  end.

(** [parse_type_annotation] applied to a cell of the type row. *)
Definition parse_type_annotation (type_str : atom)
  : res (string * option string) :=
  match type_str with
  | AStr s => TypeUtils.parse_type_annotation (Some s)
  | _ =>
      if truthy type_str
      then Raise (AttributeError "the type is not a str: no attribute 'strip'")
      else TypeUtils.parse_type_annotation None
  end.

(** *** The key strategy and the annotations of the fields *)

(** The loop of [_iter_effective_field_indices] together with the body
    of the loop that consumes the generator, so that what raises comes in
    the order of the source. *)
Definition for_effective {S : Type} (self : t) (s : S)
    (body : S -> nat -> res S) : res S :=
  res_fold (seq 0 (length (field_names self))) s
    (fun s i =>
       let? label := index (data_labels self) i in
       if negb (atom_eqb label (AStr "ignore")) && (0 <? i)%nat
       then body s i else Ok s).

Definition _iter_effective_field_indices (self : t) : res (list nat) :=
  for_effective self [] (fun acc i => Ok (acc ++ [i])%list).

(** [convert_type_to_csharp] on a cell of the type row: [re.match] on
    what is no [str] raises. *)
Definition csharp_type (type_str : atom) : res string :=
  match type_str with
  | AStr s => TypeUtils.convert_type_to_csharp s
  | _ => Raise (TypeError "expected string or bytes-like object")
  end.

Definition _get_properties_dict (self : t) : res (pydict string) :=
  for_effective self []
    (fun result i =>
       let? actual_name := _actual_field_name self i in
       let? type_str := index (data_types self) i in
       let? cs := csharp_type type_str in
       Ok (dict_set (AStr actual_name) cs result)).

(** [next(iter(property_types.values()), None) == "string"] *)
Definition _need_generate_keys (self : t) : res bool :=
  let? property_types := _get_properties_dict self in
  Ok (match property_types with
      | (_, v) :: _ => String.eqb v "string"
      | [] => false
      end).

(** [_detect_composite_keys_with_prefixes_in_first_two_columns]: the
    values it leaves in [composite_keys] and [composite_key_fields] (the
    real names under [key1] and [key2]; [None] is the empty dict). *)
Definition _detect_composite_keys_with_prefixes_in_first_two_columns
    (self : t) : bool * option (string * string) :=
  let attempt : res (option (string * string)) :=
    if (length (field_names self) <=? 2)%nat then Ok None
    else
      let? f1 := index (field_names self) 1 in
      let? f2 := index (field_names self) 2 in
      match f1, f2 with
      | AStr f1, AStr f2 =>
          let? key1_result := FieldParser.parse_key_prefix f1 in
          let? key2_result := FieldParser.parse_key_prefix f2 in
          match key1_result, key2_result with
          | Some (tag1, real1), Some (tag2, real2) =>
              if negb (String.eqb tag1 "key1" && String.eqb tag2 "key2")
              then Ok None
              else
                let dt1 := default ANone (nth_error (data_types self) 1) in
                let dt2 := default ANone (nth_error (data_types self) 2) in
                match dt1, dt2 with
                | AStr dt1, AStr dt2 =>
                    if negb (PyStr.contains_sub "int"
                               (PyStr.lower (PyStr.strip dt1))
                             && PyStr.contains_sub "int"
                                  (PyStr.lower (PyStr.strip dt2)))
                    then Ok None
                    else if String.eqb real1 "" || String.eqb real2 ""
                    then Ok None
                    else Ok (Some (real1, real2))
                | _, _ => Ok None
                end
          | _, _ => Ok None
          end
      | _, _ => Ok None
      end in
  match attempt with
  | Ok (Some fields) => (true, Some fields)
  | Ok None | Raise _ => (false, None)
  end.

(** The loop of [__init__] that fills [_asset_specs] and [_ref_specs]. *)
Definition collect_specs_step (data_labels : list atom)
    (st : gmap nat (option string) * gmap nat (string * option string))
    (ir : Z * atom)
  : res (gmap nat (option string) * gmap nat (string * option string)) :=
  let '(asset_specs, ref_specs) := st in
  let '(i, raw_field_name) := ir in
  let i := Z.to_nat i in
  if Nat.eqb i 0 then Ok st
  else
    let? label := index data_labels i in
    if atom_eqb label (AStr "ignore") then Ok st
    else
      match raw_field_name with
      | AStr raw =>
          let? asset_result := FieldParser.parse_asset_prefix raw in
          match asset_result with
          | Some (_, ext) => Ok (<[i := ext]> asset_specs, ref_specs)
          | None =>
              let? ref_result := FieldParser.parse_ref_prefix raw in
              match ref_result with
              | Some (sheet, field) =>
                  Ok (asset_specs, <[i := (sheet, field)]> ref_specs)
              | None => Ok st
              end
          end
      | _ => Ok st
      end.

Definition init_specs (field_names data_labels : list atom)
  : res (gmap nat (option string) * gmap nat (string * option string)) :=
  res_fold (enumerate 0 field_names) (∅, ∅) (collect_specs_step data_labels).

(** The loop of [__init__] that checks the names of the fields. *)
Definition check_field_names (self : t) : res unit :=
  res_fold (seq 0 (length (field_names self))) tt
    (fun _ i =>
       if Nat.eqb i 0 then Ok tt
       else
         let? label := index (data_labels self) i in
         if atom_eqb label (AStr "ignore") then Ok tt
         else
           let? raw := index (field_names self) i in
           match raw with
           | AStr _ =>
               let? actual := _actual_field_name self i in
               if negb (NamingUtils.is_valid_csharp_identifier actual) then
                 Raise (InvalidFieldNameError actual (Z.of_nat i) (name self))
               else Ok tt
           | _ => Ok tt
           end).

(** [_generate_enum_keys_csfile]: the names and the values that it hands
    to [generate_enum_file]. *)
Definition enum_keys_step (st : list atom * list Z * Z) (ir : Z * list atom)
  : res (list atom * list Z * Z) :=
  let '(enum_names, enum_values, idx_val) := st in
  let '(idx, r) := ir in
  match r with
  | [] => Ok st
  | val :: _ =>
      let? _ := WorksheetValidator.validate_enum_name val (7 + idx) in
      Ok ((enum_names ++ [val])%list, (enum_values ++ [idx_val])%list,
          idx_val + 1)
  end.

Definition _generate_enum_keys_csfile (self : t)
  : res (list atom * list Z) :=
  let? st := res_fold (enumerate 0 (row_data self)) ([], [], 0)
               enum_keys_step in
  Ok (fst (fst st), snd (fst st)).

(** *** [generate_json] *)

(** [JSON_ID_FIRST] of [utils/naming_config.py], which is not among the
    sources; the registry of enums; what [get_asset_validator()]
    returns during the export. *)
Variable JSON_ID_FIRST : bool.
Variable enum_registry : EnumRegistry.t.
Variable asset_validator : option AssetValidator.t.

(** What the loop over the rows carries. *)
Record export_state : Type := ExportState {
  serial_key : Z;
  used_keys : gmap Z Z;
  data : pydict (pydict pyval);
  ws : t
}.

Definition set_pk_warned (self : t) : t :=
  Build (name self) (data_types self) (data_labels self) (field_names self)
    (default_values self) (row_data self) (need_generate_keys self)
    (composite_keys self) true (_ref_specs self) (_asset_specs self)
    (_reference_checker self) (_asset_validator_missing_warned self).

Definition set_asset_warned (self : t) : t :=
  Build (name self) (data_types self) (data_labels self) (field_names self)
    (default_values self) (row_data self) (need_generate_keys self)
    (composite_keys self) (first_int_pk_not_named_id_warned self)
    (_ref_specs self) (_asset_specs self) (_reference_checker self) true.

Definition set_checker (self : t) (rc : ReferenceChecker.t) : t :=
  Build (name self) (data_types self) (data_labels self) (field_names self)
    (default_values self) (row_data self) (need_generate_keys self)
    (composite_keys self) (first_int_pk_not_named_id_warned self)
    (_ref_specs self) (_asset_specs self) rc
    (_asset_validator_missing_warned self).

(** The combined key of a composite-key row: the range test, then the
    test against [2**31]. *)
Definition composite_row_key (r : list atom) (excel_row : Z) : res Z :=
  match (let? a := index r 0 in let? k1 := py_int a in
         let? b := index r 1 in let? k2 := py_int b in Ok (k1, k2)) with
  | Raise _ => Raise (RuntimeError "cannot parse the composite key as int"
                        excel_row)
  | Ok (k1, k2) =>
      if negb ((0 <=? k1) && (k1 <? MAX_KEY2)
               && (0 <=? k2) && (k2 <? MAX_KEY2))%Z then
        Raise (RuntimeError "composite key out of range" excel_row)
      else
        let row_key := k1 * MULTIPLIER + k2 in
        if (2 ^ 31 <=? row_key)%Z then
          Raise (CompositeKeyOverflowError row_key)
        else Ok row_key
  end.

(** The primary key of a row, by strategy. *)
Definition primary_key (st : export_state) (first_real : option string)
    (r : list atom) (excel_row : Z) : M (Z * export_state) :=
  let self := ws st in
  if need_generate_keys self then
    ret (serial_key st,
         ExportState (serial_key st + 1) (used_keys st) (data st) self)
  else if composite_keys self then
    row_key <- lift (composite_row_key r excel_row);;
    ret (row_key, st)
  else
    match (let? a := index r 0 in py_int a) with
    | Raise _ => raise (RuntimeError "the primary key is not an int" excel_row)
    | Ok row_key =>
        match first_real with
        | Some fr =>
            if negb (String.eqb (PyStr.lower fr) "id")
               && negb (first_int_pk_not_named_id_warned self) then
              log_warn "first column is the key but is not named id"
                None (name self);;;
              ret (row_key,
                   ExportState (serial_key st) (used_keys st) (data st)
                     (set_pk_warned self))
            else ret (row_key, st)
        | None => ret (row_key, st)
        end
    end.

Definition _check_one_filename (self : t) (validator : AssetValidator.t)
    (required_ext : option string) (excel_row : Z) (data_name : string)
    (fname : pyval) : M unit :=
  match fname with
  | VAtom (AStr f) =>
      if String.eqb (PyStr.strip f) "" then ret tt
      else
        let ok := AssetValidator.exists_base_name validator (PyStr.strip f)
                    required_ext in
        if negb ok then
          if AssetValidator.strict validator then
            raise (RuntimeError "asset file not found" excel_row)
          else log_warn "asset file not found" (Some excel_row) data_name
        else ret tt
  | _ => ret tt
  end.

(** One cell of a row: conversion, asset check, reference collection. *)
Definition export_cell (excel_row : Z) (st : pydict pyval * t)
    (ic : Z * atom) : M (pydict pyval * t) :=
  let '(row_obj, self) := st in
  let '(col, cell_value) := ic in
  let col_index := Z.to_nat col in
  if (length (field_names self) <=? col_index)%nat then ret st
  else
    label <- lift (index (data_labels self) col_index);;
    if atom_eqb label (AStr "ignore") then ret st
    else
      data_name <- lift (_actual_field_name self col_index);;
      type_str <- lift (index (data_types self) col_index);;
      default_value <- lift (index (default_values self) col_index);;
      let c := Ctx (Some data_name) (Some (name self)) None None in
      value <-
        match cell_value with
        | ANone =>
            match default_value with
            | ANone =>
                if atom_eqb label (AStr "required") then
                  raise (RuntimeError "required but empty, and no default"
                           excel_row)
                else ParsingDataProcessing.convert_to_type enum_registry
                       type_str default_value c
            | _ => ParsingDataProcessing.convert_to_type enum_registry
                     type_str default_value c
            end
        | _ => ParsingDataProcessing.convert_to_type enum_registry
                 type_str cell_value c
        end;;
      let row_obj := dict_set (AStr data_name) value row_obj in
      (* the asset check *)
      self <-
        match _asset_specs self !! col_index with
        | None => ret self
        | Some required_ext =>
            let _kind :=
              match parse_type_annotation type_str with
              | Ok (k, _) => k
              | Raise _ => "scalar"
              end in
            match asset_validator with
            | None =>
                if negb (_asset_validator_missing_warned self) then
                  log_warn "no asset collector setting, asset checks skipped"
                    None (name self);;;
                  ret (set_asset_warned self)
                else ret self
            | Some validator =>
                match value with
                | VList l =>
                    if String.eqb _kind "list" then
                      for_each l (_check_one_filename self validator
                                    required_ext excel_row data_name)
                    else _check_one_filename self validator required_ext
                           excel_row data_name value
                | _ => _check_one_filename self validator required_ext
                         excel_row data_name value
                end;;;
                ret self
            end
        end;;
      (* the reference check is queued *)
      self <-
        match _ref_specs self !! col_index with
        | None => ret self
        | Some (ref_sheet, ref_field) =>
            kb <- lift (parse_type_annotation type_str);;
            let '(kind, base) := kb in
            let rc := _reference_checker self in
            if String.eqb kind "dict" then
              if negb (ReferenceChecker.is_dict_col_warned rc col_index) then
                log_warn "reference on a dict field, check skipped"
                  None data_name;;;
                ret (set_checker self
                       (ReferenceChecker.add_warned_dict_col rc col_index))
              else ret self
            else
              ret (set_checker self
                     (ReferenceChecker.add_pending_check rc
                        (ReferenceChecker.Pending excel_row data_name
                           ref_sheet ref_field kind base value)))
        end;;
      ret (row_obj, self).

Definition export_row (first_real : option string) (st : export_state)
    (ir : Z * list atom) : M export_state :=
  let '(row_idx, r) := ir in
  match r with
  | [] => ret st
  | _ =>
      let excel_row := 7 + row_idx in
      ks <- primary_key st first_real r excel_row;;
      let '(row_key, st) := ks in
      match used_keys st !! row_key with
      | Some first_row =>
          raise (DuplicatePrimaryKeyError row_key first_row excel_row)
      | None =>
          let used := <[row_key := excel_row]> (used_keys st) in
          let row_obj : pydict pyval :=
            if JSON_ID_FIRST then [(AStr "id", VInt row_key)] else [] in
          os <- for_fold (enumerate 1 r) (row_obj, ws st)
                  (export_cell excel_row);;
          let '(row_obj, self) := os in
          let row_obj :=
            if negb JSON_ID_FIRST
            then dict_set (AStr "id") (VInt row_key) row_obj else row_obj in
          ret (ExportState (serial_key st) used
                 (dict_set (AInt row_key) row_obj (data st)) self)
      end
  end.

(** [generate_json]: the worksheet afterwards and the mapping that is
    serialized.  The serialization itself, the warnings about its size
    and the write to the file are not part of the model. *)
Definition generate_json (self : t) : M (t * pydict (pydict pyval)) :=
  let self :=
    set_checker self
      (ReferenceChecker.clear_pending_checks (_reference_checker self)) in
  first_real <-
    (if (1 <? length (field_names self))%nat
     then (fr <- lift (_actual_field_name self 1);; ret (Some fr))
     else ret None);;
  st <- for_fold (enumerate 0 (row_data self))
          (ExportState 0 ∅ [] self) (export_row first_real);;
  ret (ws st, data st).

End WorksheetData.
End WorksheetData.

(* ===================================================================== *)
(** ** utils/path_utils.py *)
(* ===================================================================== *)

Module PathUtils.

(** [InvalidPathError(path, reason)] of [exceptions.py]; the path is
    [None] when the argument was no [str]. *)
Record InvalidPathError : Type := InvalidPath {
  invalid_path : option string;
  invalid_reason : string
}.

(** The slash, the backslash, two dots, and the characters that a file
    name cannot hold on Windows. *)
Definition dangerous_chars : list string :=
  ["/"; "\"; ".."; "<"; ">"; ":"; String "034" EmptyString; "|"; "?"; "*"].

Definition space_or_dot (c : ascii) : bool :=
  Ascii.eqb c " " || Ascii.eqb c ".".

(** [sanitize_filename(filename)]; [None] stands for an argument that is
    no [str]. *)
Definition sanitize_filename (filename : option string)
  : InvalidPathError + string :=
  match filename with
  | None => inl (InvalidPath None "the file name is empty or not a string")
  | Some filename =>
      if String.eqb filename "" then
        inl (InvalidPath (Some filename)
               "the file name is empty or not a string")
      else
        let sanitized :=
          fold_left (fun sanitized char => PyStr.replace char "_" sanitized)
                    dangerous_chars filename in
        let sanitized := PyStr.strip_set space_or_dot sanitized in
        if String.eqb sanitized "" then
          inl (InvalidPath (Some filename) "the sanitized file name is empty")
        else inr sanitized
  end.

(** The path that [ensure_safe_path] hands to [validate_path]. *)
Definition safe_path (path : string) : string :=
  PyStr.replace "\\" "\"
    (PyStr.replace "//" "/" (PyStr.replace ".." EmptyString path)).

End PathUtils.

(* ===================================================================== *)
(** ** Concrete inputs *)
(* ===================================================================== *)

Module Examples.
Import WorksheetData.

Definition int_cell (z : Z) : atom (fl:=ZFloat) := AInt z.
Definition str_cell (s : string) : atom (fl:=ZFloat) := AStr s.

(** A composite-key sheet: key columns [key1:a] and [key2:b], one data
    row holding the largest admissible keys. *)
Definition max_key_sheet : WorksheetData.t (fl:=ZFloat) :=
  WorksheetData.Build "Items"
    [str_cell "int"; str_cell "int"; str_cell "int"]
    [ANone; ANone; ANone]
    [str_cell "key"; str_cell "key1:a"; str_cell "key2:b"]
    [ANone; ANone; ANone]
    [[int_cell 46339; int_cell 46339]]
    false true false ∅ ∅ (ReferenceChecker.new "Items" None) false.

(** Header rows whose remarks row is one cell short. *)
Definition short_remarks : headers (fl:=ZFloat) :=
  Headers [str_cell "note"]
          [str_cell "Key"; str_cell "Name"]
          [str_cell "int"; str_cell "string"]
          [ANone; ANone]
          [str_cell "id"; str_cell "name"]
          [ANone; ANone].



(** The exported sheet [B]: one record, whose [id] is 5. *)
Definition sheet_B : ReferenceChecker.json (fl:=ZFloat) :=
  ReferenceChecker.JObj
    [("5", ReferenceChecker.JObj [("id", ReferenceChecker.JAtom (int_cell 5))])].

Definition only_B (sheet : string) : option (ReferenceChecker.json (fl:=ZFloat)) :=
  if String.eqb sheet "B" then Some sheet_B else None.

(** A column [[B]refs] of type [list(int32)] whose cell holds the text
    [5,6]: what [generate_json] queues for it. *)
Definition refs_check : ReferenceChecker.PendingCheck (fl:=ZFloat) :=
  ReferenceChecker.Pending 7 "refs" "B" None "list" (Some "int")
    (VList [VAtom (str_cell "5"); VAtom (str_cell "6")]).

Definition refs_sheet : WorksheetData.t (fl:=ZFloat) :=
  WorksheetData.Build "A"
    [str_cell "int"; str_cell "int"; str_cell "list(int32)"]
    [ANone; ANone; ANone]
    [str_cell "key"; str_cell "id"; str_cell "[B]refs"]
    [ANone; ANone; ANone]
    [[int_cell 1; str_cell "5,6"]]
    false false false {[ 2%nat := ("B", None) ]} ∅
    (ReferenceChecker.new "A" None) false.

Definition refs_checker : ReferenceChecker.t (fl:=ZFloat) :=
  ReferenceChecker.add_pending_check (ReferenceChecker.new "A" None)
    refs_check.

(** An asset tree with the one file [Hero.png]. *)
Definition hero_fs : AssetValidator.filesystem :=
  fun p => if String.eqb p "/proj/Assets/Art"
           then Some [("/proj/Assets/Art", ["Hero.png"])] else None.

(** The text of a dict cell: the lines [1:a] and [01:b]. *)
Definition repeated_key_cell : string :=
  String.append "1:a" (String "010" "01:b").

Definition foo_items : gmap string Z := {[ "ItemA" := 0; "ItemB" := 1 ]}.
Definition foo_registry : EnumRegistry.t :=
  snd (EnumRegistry.register_enum EnumRegistry.new "Foo" foo_items
         "Data.TableScript" "a.xlsx").

End Examples.

(* ===================================================================== *)
(** ** Composite keys (core/worksheet_data.py) *)
(* ===================================================================== *)

Section CompositeKeys.
Context {fl : FloatOps}.
Import WorksheetData.

Lemma in_range_true (k : Z) :
  0 <= k < MAX_KEY2 -> ((0 <=? k) && (k <? MAX_KEY2))%Z = true.
Proof.
  intros [H1 H2]. apply andb_true_intro; split.
  - now apply Z.leb_le.
  - now apply Z.ltb_lt.
Qed.

Lemma combined_below_2_31 (k1 k2 : Z) :
  0 <= k1 < MAX_KEY2 -> 0 <= k2 < MAX_KEY2 ->
  0 <= k1 * MULTIPLIER + k2 < 2 ^ 31.
Proof.
  unfold MULTIPLIER, MAX_KEY2. intros H1 H2.
  replace (2 ^ 31) with 2147483648 by reflexivity. nia.
Qed.

Lemma composite_row_key_in_range (k1 k2 row : Z) (rest : list atom) :
  0 <= k1 < MAX_KEY2 -> 0 <= k2 < MAX_KEY2 ->
  composite_row_key (AInt k1 :: AInt k2 :: rest) row
  = Ok (k1 * MULTIPLIER + k2).
Proof.
  intros H1 H2. unfold composite_row_key. cbn [index nth_error py_int res_bind].
  rewrite <- andb_assoc, (in_range_true k1 H1), (in_range_true k2 H2).
  cbn [andb negb].
  destruct (combined_below_2_31 k1 k2 H1 H2) as [_ Hlt].
  destruct (2 ^ 31 <=? k1 * MULTIPLIER + k2)%Z eqn:E; [|reflexivity].
  apply Z.leb_le in E. lia.
Qed.

(** C8: on the domain 0 <= k1, k2 < 46340 the key step of
    [generate_json] computes k1 * 46340 + k2, and two pairs of the
    domain with the same combined key are the same pair. *)
Theorem composite_key_injective (k1 k2 k1' k2' row row' : Z) :
  0 <= k1 < 46340 -> 0 <= k2 < 46340 ->
  0 <= k1' < 46340 -> 0 <= k2' < 46340 ->
  composite_row_key [AInt k1; AInt k2] row = Ok (k1 * 46340 + k2) /\
  (composite_row_key [AInt k1; AInt k2] row
   = composite_row_key [AInt k1'; AInt k2'] row' ->
   k1 = k1' /\ k2 = k2').
Proof.
  intros H1 H2 H1' H2'.
  rewrite !composite_row_key_in_range by (unfold MAX_KEY2; lia).
  unfold MULTIPLIER, MAX_KEY2. split; [reflexivity|].
  intros E. injection E as E. lia.
Qed.

(** The overflow test of the key step never fires: whatever the row
    holds, the range test has already rejected it. *)
Lemma composite_overflow_unreachable (r : list atom) (row c : Z) :
  composite_row_key r row <> Raise (CompositeKeyOverflowError c).
Proof.
  unfold composite_row_key.
  destruct (res_bind _ _) as [[k1 k2]|e]; [|discriminate].
  destruct ((0 <=? k1) && (k1 <? MAX_KEY2) && (0 <=? k2) && (k2 <? MAX_KEY2))%Z
    eqn:E; cbn [negb]; [|discriminate].
  apply andb_prop in E as [E E4]. apply andb_prop in E as [E E3].
  apply andb_prop in E as [E1 E2].
  apply Z.leb_le in E1, E3. apply Z.ltb_lt in E2, E4.
  destruct (combined_below_2_31 k1 k2 (conj E1 E2) (conj E3 E4)) as [_ Hlt].
  destruct (2 ^ 31 <=? k1 * MULTIPLIER + k2)%Z eqn:E5; [|discriminate].
  apply Z.leb_le in E5. lia.
Qed.

(** C1, as amended: for key columns with 0 <= k1, k2 < 46340 the
    combined key k1 * 46340 + k2 is below 2^31 and the key step of
    [generate_json] accepts the row with that key; no row at all is
    rejected by the test against 2^31. *)
Theorem composite_key_in_range_accepted (k1 k2 row : Z) (rest : list atom) :
  0 <= k1 < 46340 -> 0 <= k2 < 46340 ->
  composite_row_key (AInt k1 :: AInt k2 :: rest) row = Ok (k1 * 46340 + k2)
  /\ k1 * 46340 + k2 < 2 ^ 31
  /\ (forall (r : list atom) (c : Z),
        composite_row_key r row <> Raise (CompositeKeyOverflowError c)).
Proof.
  intros H1 H2. split; [|split].
  - now rewrite composite_row_key_in_range by (unfold MAX_KEY2; lia).
  - apply (combined_below_2_31 k1 k2); unfold MAX_KEY2; lia.
  - intros r c. apply composite_overflow_unreachable.
Qed.

End CompositeKeys.

Lemma composite_key_injective_witness :
  WorksheetData.composite_row_key (fl:=ZFloat) [AInt 46339; AInt 46339] 7
  = Ok (46339 * 46340 + 46339) /\
  (WorksheetData.composite_row_key (fl:=ZFloat) [AInt 46339; AInt 46339] 7
   = WorksheetData.composite_row_key [AInt 46339; AInt 46339] 8 ->
   46339 = 46339 /\ 46339 = 46339).
Proof.
  apply (composite_key_injective (fl:=ZFloat) 46339 46339 46339 46339 7 8); lia.
Defined.

Lemma composite_key_in_range_accepted_witness :
  WorksheetData.composite_row_key (fl:=ZFloat) [AInt 46339; AInt 46339] 7
  = Ok (46339 * 46340 + 46339)
  /\ 46339 * 46340 + 46339 < 2 ^ 31
  /\ (forall (r : list (atom (fl:=ZFloat))) (c : Z),
        WorksheetData.composite_row_key r 7
        <> Raise (CompositeKeyOverflowError c)).
Proof.
  apply (composite_key_in_range_accepted (fl:=ZFloat) 46339 46339 7 []); lia.
Defined.

(** C1 as stated fails: the sheet whose one row holds k1 = k2 = 46339 is
    exported, under the key 2147395599. *)
Lemma max_keys_row_is_exported :
  fst (run (WorksheetData.generate_json true EnumRegistry.new None
              Examples.max_key_sheet))
  = Ok (WorksheetData.set_checker Examples.max_key_sheet
          (ReferenceChecker.new "Items" None),
        [(AInt 2147395599,
          [(AStr "id", VInt 2147395599); (AStr "a", VInt 46339);
           (AStr "b", VInt 46339)])]).
Proof. vm_compute. reflexivity. Qed.

(* ===================================================================== *)
(** ** The two range policies (data_processing.py) *)
(* ===================================================================== *)

Section RangePolicies.
Context {fl : FloatOps}.

(** C3: converting the text 2147483648 as [int].  The conversion of
    [parsing/data_processing.py] returns 2147483648 and logs one warning,
    and nothing else; the conversion of [data_processing.py] raises a
    [ValueError] and logs nothing. *)
Theorem int_above_range_warns_or_raises (reg : EnumRegistry.t) (c : ctx) :
  let lenient :=
    run (ParsingDataProcessing.convert_to_type reg (AStr "int")
           (AStr "2147483648") c) in
  let strict :=
    run (DataProcessing.convert_to_type (AStr "int")
           (AStr "2147483648") c) in
  fst lenient = Ok (VInt 2147483648)
  /\ snd lenient = [LogEntry WARN "value exceeds the C# int range"
                      (c_row c) (default "" (c_field c))]
  /\ length (warnings (snd lenient)) = 1%nat
  /\ strict = (Raise (ValueError "value cannot be converted to C# int"), []).
Proof. vm_compute. repeat split. Qed.

End RangePolicies.

(* ===================================================================== *)
(** ** Registering an enum twice (enum_registry.py) *)
(* ===================================================================== *)

Section RegisterTwice.
Import EnumRegistry.

(** C6: when [enum_name] is already in the registry, [register_enum]
    raises an [ExportError], whatever the new items are (the registered
    ones included), and the registry is left as it was. *)
Theorem register_enum_twice_raises (self : EnumRegistry.t)
    (enum_name : string) (enum_items : gmap string Z)
    (namespace source : string) :
  is_Some (_enums self !! enum_name) ->
  exists what subject,
    register_enum self enum_name enum_items namespace source
    = (Raise (ExportError what subject), self).
Proof.
  intros [existing Hreg]. unfold register_enum.
  destruct (negb (NamingUtils.is_valid_csharp_identifier enum_name)).
  - eauto.
  - rewrite Hreg.
    destruct (negb (bool_decide (dom existing = dom enum_items))); eauto.
Qed.

(** A first registration enters the name, so that a second one of the
    same name and items is the case of the theorem above. *)
Lemma register_enum_enters (self self' : EnumRegistry.t)
    (enum_name : string) (enum_items : gmap string Z)
    (namespace source : string) :
  register_enum self enum_name enum_items namespace source = (Ok tt, self') ->
  _enums self' !! enum_name = Some enum_items.
Proof.
  unfold register_enum.
  destruct (negb (NamingUtils.is_valid_csharp_identifier enum_name));
    [discriminate|].
  destruct (_enums self !! enum_name) eqn:E.
  - destruct (negb (bool_decide (dom g = dom enum_items))); discriminate.
  - intros H. injection H as <-. cbn. apply lookup_insert_eq.
Qed.

End RegisterTwice.

Lemma register_enum_twice_raises_witness :
  is_Some (EnumRegistry._enums Examples.foo_registry !! "Foo") /\
  exists what subject,
    EnumRegistry.register_enum Examples.foo_registry "Foo" Examples.foo_items
      "Data.TableScript" "b.xlsx"
    = (Raise (ExportError what subject), Examples.foo_registry).
Proof.
  assert (H : is_Some (EnumRegistry._enums Examples.foo_registry !! "Foo")).
  { exists Examples.foo_items.
    apply (register_enum_enters EnumRegistry.new _ "Foo" Examples.foo_items
             "Data.TableScript" "a.xlsx").
    vm_compute. reflexivity. }
  split; [exact H|].
  exact (register_enum_twice_raises Examples.foo_registry "Foo"
           Examples.foo_items "Data.TableScript" "b.xlsx" H).
Defined.

(* ===================================================================== *)
(** ** Header rows of unequal length (core/worksheet_data.py) *)
(* ===================================================================== *)

Section HeaderRows.
Context {fl : FloatOps}.
Import WorksheetData.

Lemma for_each_ok {A} (xs : list A) (body : A -> M unit) (l : log) :
  (forall x, In x xs -> body x l = (Ok tt, l)) ->
  for_each xs body l = (Ok tt, l).
Proof.
  induction xs as [|x xs IH]; intros H; [reflexivity|].
  cbn. unfold bind. rewrite (H x) by now left.
  apply IH. intros y Hy. apply H. now right.
Qed.

Lemma for_each_first_raise {A} (xs : list A) (body : A -> M unit) (l : log)
    (P : A -> bool) (err : A -> exn) :
  (forall x, In x xs ->
     body x l = if P x then (Raise (err x), l) else (Ok tt, l)) ->
  (exists x, In x xs /\ P x = true) ->
  exists x, In x xs /\ P x = true
            /\ for_each xs body l = (Raise (err x), l).
Proof.
  induction xs as [|x xs IH]; intros H [y [Hy Py]]; [destruct Hy|].
  cbn. unfold bind. rewrite (H x) by now left.
  destruct (P x) eqn:Px.
  - exists x. split; [now left|]. now split.
  - destruct Hy as [->|Hy]; [congruence|].
    destruct IH as [z [Hz [Pz Ez]]].
    + intros w Hw. apply H. now right.
    + eauto.
    + exists z. split; [now right|]. now split.
Qed.

(** C2 fails on the code: when the six header rows are non-empty and one
    of them has not the length of the field row, [__init__] raises
    [HeaderFormatError] for the first such row; nothing is padded or
    truncated and no warning is logged. *)
Theorem unequal_header_rows_raise (name : string) (h : headers) :
  (forall ir, In ir (cell_values h) -> snd ir <> []) ->
  (exists ir, In ir (cell_values h)
              /\ length (snd ir) <> length (h_field_names h)) ->
  exists ir, In ir (cell_values h)
    /\ length (snd ir) <> length (h_field_names h)
    /\ run (init_headers name h)
       = (Raise (HeaderFormatError name
                   "row length differs from the field columns" (fst ir)),
          []).
Proof.
  intros Hne Hlen. unfold run, init_headers, bind.
  rewrite for_each_ok.
  2:{ intros ir Hir. specialize (Hne ir Hir).
      destruct (snd ir); [congruence|reflexivity]. }
  assert (Hf : h_field_names h <> []).
  { apply (Hne (5, h_field_names h)). cbn. tauto. }
  destruct (h_field_names h) as [|f fs] eqn:Ef; [congruence|].
  cbn [length Nat.eqb ret].
  destruct (for_each_first_raise (cell_values h)
              (fun ir => if negb (Nat.eqb (length (snd ir)) (S (length fs)))
                         then raise (HeaderFormatError name
                                "row length differs from the field columns"
                                (fst ir))
                         else ret tt) []
              (fun ir => negb (Nat.eqb (length (snd ir)) (S (length fs))))
              (fun ir => HeaderFormatError name
                           "row length differs from the field columns"
                           (fst ir)))
    as [ir [Hir [Pir Eir]]].
  - intros ir _. now destruct (negb _).
  - destruct Hlen as [ir [Hir Hl]]. exists ir. split; [exact Hir|].
    apply negb_true_iff, Nat.eqb_neq. exact Hl.
  - exists ir. split; [exact Hir|]. split.
    + now apply negb_true_iff, Nat.eqb_neq in Pir.
    + rewrite Eir. reflexivity.
Qed.

End HeaderRows.

Lemma unequal_header_rows_raise_witness :
  run (WorksheetData.init_headers "Hero" Examples.short_remarks)
  = (Raise (HeaderFormatError "Hero"
              "row length differs from the field columns" 1), []).
Proof.
  destruct (unequal_header_rows_raise "Hero" Examples.short_remarks)
    as [ir [Hir [Hlen E]]].
  - intros ir Hir. cbn in Hir.
    repeat (destruct Hir as [<-|Hir]; [cbn; discriminate|]). destruct Hir.
  - exists (1, [Examples.str_cell "note"]). split; [cbn; tauto|].
    cbn. discriminate.
  - cbn in Hir.
    destruct Hir as [<-|Hir]; [exact E|].
    repeat (destruct Hir as [<-|Hir]; [cbn in Hlen; congruence|]).
    destruct Hir.
Defined.

(* ===================================================================== *)
(** ** The summary line of the reference checker *)
(* ===================================================================== *)

Section SummaryLine.
Import ReferenceChecker.

Definition is_success_line (e : log_entry) : bool :=
  is_info e && String.eqb (log_what e) success_line.

(** C5 fails on the code.  The sheet [A] has a column [[B]refs] of type
    [list(int32)] whose cell holds the text 5,6; [generate_json] queues
    one check for it, with the strings "5" and "6" as elements.  On this
    queue [run_checks] logs a type-mismatch error for each element and
    then the summary success line: [check_one] returns from its
    type-mismatch branch without setting [any_error]. *)
Theorem success_line_after_type_mismatch
    (allow_int : list Z) (allow_str : list string) :
  (exists ws out,
     fst (run (WorksheetData.generate_json true EnumRegistry.new None
                 Examples.refs_sheet)) = Ok (ws, out)
     /\ WorksheetData._reference_checker ws = Examples.refs_checker)
  /\ let l := snd (run (run_checks allow_int allow_str Examples.only_B
                          Examples.refs_checker)) in
     length (errors l) = 2%nat
     /\ existsb is_success_line l = true.
Proof.
  split.
  - eexists _, _. split.
    + vm_compute. reflexivity.
    + vm_compute. reflexivity.
  - vm_compute. split; reflexivity.
Qed.

(** The same slip for a value that is no list under a list type;
    such a check can only be queued through [add_pending_check]. *)
Lemma success_line_after_non_list
    (allow_int : list Z) (allow_str : list string) :
  let rc := add_pending_check (new "A" None)
              (Pending 7 "refs" "B" None "list" (Some "int")
                 (VAtom (Examples.int_cell 5))) in
  let l := snd (run (run_checks allow_int allow_str Examples.only_B rc)) in
  length (errors l) = 1%nat /\ existsb is_success_line l = true.
Proof. vm_compute. split; reflexivity. Qed.

(** A missing value, by contrast, does suppress the line (here with 0
    and the empty string as the values allowed to be unset). *)
Lemma no_success_line_after_missing_value :
  let rc := add_pending_check (new "A" None)
              (Pending 7 "ref" "B" None "scalar" (Some "int")
                 (VAtom (Examples.int_cell 6))) in
  let l := snd (run (run_checks [0] [""] Examples.only_B rc)) in
  length (errors l) = 1%nat /\ existsb is_success_line l = false.
Proof. vm_compute. split; reflexivity. Qed.

End SummaryLine.

(* ===================================================================== *)
(** ** The asset index (validation/asset_validator.py) *)
(* ===================================================================== *)

Section AssetIndex.
Import AssetValidator.

Definition entries (idx : gmap string (list _AssetEntry)) (key : string)
  : list _AssetEntry := default [] (idx !! key).

(** The entry that [_build_index] makes of a file. *)
Definition entry_of (root dirpath fn : string) : _AssetEntry :=
  let be := splitext fn in
  Entry (fst be)
        (if String.eqb (snd be) "" then "" else PyStr.lower (tail (snd be)))
        (path_join dirpath fn) root.

Definition from_file (root dirpath fn key : string) (e : _AssetEntry)
  : Prop :=
  PyStr.endswith ".meta" fn = false
  /\ key = PyStr.lower (fst (splitext fn))
  /\ e = entry_of root dirpath fn.

(** [fn] is a file name that [os.walk] yields under one of the roots. *)
Definition walked (fs : filesystem) (proj : string) (roots : list string)
    (root dirpath fn : string) : Prop :=
  In root roots /\
  exists walk files,
    fs (path_join proj root) = Some walk
    /\ In (dirpath, files) walk /\ In fn files.

Lemma entries_index_add idx k0 e0 k e :
  In e (entries (index_add k0 e0 idx) k)
  <-> In e (entries idx k) \/ (k = k0 /\ e = e0).
Proof.
  unfold entries, index_add.
  destruct (decide (k0 = k)) as [->|Hne].
  - rewrite lookup_insert_eq. cbn. rewrite in_app_iff. cbn. intuition.
  - rewrite lookup_insert_ne by exact Hne. intuition congruence.
Qed.

Lemma entries_index_file root dirpath idx fn k e :
  In e (entries (index_file root dirpath idx fn) k)
  <-> In e (entries idx k) \/ from_file root dirpath fn k e.
Proof.
  unfold index_file, from_file, entry_of.
  destruct (PyStr.endswith ".meta" fn).
  - intuition discriminate.
  - destruct (splitext fn) as [b x]. cbn [fst snd].
    rewrite entries_index_add. intuition.
Qed.

Lemma entries_fold {X}
    (f : gmap string (list _AssetEntry) -> X -> gmap string (list _AssetEntry))
    (R : X -> string -> _AssetEntry -> Prop) :
  (forall idx x k e,
      In e (entries (f idx x) k) <-> In e (entries idx k) \/ R x k e) ->
  forall xs idx k e,
    In e (entries (fold_left f xs idx) k)
    <-> In e (entries idx k) \/ exists x, In x xs /\ R x k e.
Proof.
  intros Hf xs. induction xs as [|x xs IH]; intros idx k e; cbn.
  - split; [tauto|]. intros [H|[x [[] _]]]. exact H.
  - rewrite IH, Hf. split.
    + intros [[H|H]|[y [Hy H]]]; eauto.
    + intros [H|[y [[<-|Hy] H]]]; eauto.
Qed.

Lemma entries_index_dir root idx d k e :
  In e (entries (index_dir root idx d) k)
  <-> In e (entries idx k)
      \/ exists fn, In fn (snd d) /\ from_file root (fst d) fn k e.
Proof.
  unfold index_dir.
  apply (entries_fold (index_file root (fst d))
           (fun fn k e => from_file root (fst d) fn k e)).
  intros. apply entries_index_file.
Qed.

Lemma entries_index_root fs proj idx root k e :
  In e (entries (index_root fs proj idx root) k)
  <-> In e (entries idx k)
      \/ exists walk, fs (path_join proj root) = Some walk
         /\ exists d, In d walk
            /\ exists fn, In fn (snd d) /\ from_file root (fst d) fn k e.
Proof.
  unfold index_root. destruct (fs (path_join proj root)) as [walk|].
  - rewrite (entries_fold (index_dir root)
               (fun d k e => exists fn, In fn (snd d)
                                        /\ from_file root (fst d) fn k e)).
    + split.
      * intros [H|H]; [now left|]. right. now exists walk.
      * intros [H|[w [Hw H]]]; [now left|]. right. now injection Hw as <-.
    + intros. apply entries_index_dir.
  - split; [tauto|]. intros [H|[w [Hw _]]]; [exact H|discriminate].
Qed.

(** What the index holds under a key: one entry per walked file that is
    no [.meta] file and whose lower-cased base name is the key. *)
Lemma entries_build_index fs proj roots k e :
  In e (entries (_build_index fs proj roots) k)
  <-> exists root dirpath fn,
        walked fs proj roots root dirpath fn
        /\ from_file root dirpath fn k e.
Proof.
  unfold _build_index.
  rewrite (entries_fold (index_root fs proj)
             (fun root k e =>
                exists walk, fs (path_join proj root) = Some walk
                  /\ exists d, In d walk
                     /\ exists fn, In fn (snd d)
                                   /\ from_file root (fst d) fn k e)).
  - unfold entries at 1. rewrite lookup_empty. cbn. unfold walked. split.
    + intros [[]|[root [Hr [walk [Hw [[dp files] [Hd [fn [Hfn Hf]]]]]]]]].
      exists root, dp, fn. split; [|exact Hf].
      split; [exact Hr|]. now exists walk, files.
    + intros [root [dp [fn [[Hr [walk [files [Hw [Hd Hfn]]]]] Hf]]]].
      right. exists root. split; [exact Hr|]. exists walk. split; [exact Hw|].
      exists (dp, files). split; [exact Hd|]. now exists fn.
  - intros. apply entries_index_root.
Qed.

Lemma exists_in_index_true idx base_name req key e :
  key = PyStr.strip (PyStr.lower base_name) ->
  In e (entries idx key) ->
  entry_is base_name req e = true ->
  existsb (entry_is base_name req) (entries idx key) = true
  /\ idx <> ∅ /\ entries idx key <> [].
Proof.
  intros -> Hin He. split; [|split].
  - apply existsb_exists. now exists e.
  - intros ->. unfold entries in Hin. rewrite lookup_empty in Hin.
    destruct Hin.
  - intros E. rewrite E in Hin. destruct Hin.
Qed.

Lemma exists_in_index_none idx base_name :
  (exists e, In e (entries idx (PyStr.strip (PyStr.lower base_name)))
             /\ base e = base_name) ->
  exists_in_index idx base_name None = true.
Proof.
  intros [e [Hin Hb]]. unfold exists_in_index.
  destruct (exists_in_index_true idx base_name None _ e eq_refl Hin)
    as [Hex [Hne Hc]].
  { unfold entry_is. rewrite Hb, String.eqb_refl. reflexivity. }
  rewrite bool_decide_eq_false_2 by exact Hne.
  fold (entries idx (PyStr.strip (PyStr.lower base_name))).
  destruct (entries idx (PyStr.strip (PyStr.lower base_name))) eqn:E;
    [congruence|exact Hex].
Qed.

Lemma exists_in_index_ext idx base_name required_ext :
  required_ext <> "" ->
  exists_in_index idx base_name (Some required_ext) = true
  <-> exists e, In e (entries idx (PyStr.strip (PyStr.lower base_name)))
        /\ base e = base_name
        /\ ext e = PyStr.lower (PyStr.lstrip_char "." (PyStr.strip required_ext)).
Proof.
  intros Hreq. unfold exists_in_index.
  fold (entries idx (PyStr.strip (PyStr.lower base_name))).
  apply String.eqb_neq in Hreq. rewrite Hreq. cbn [negb].
  split.
  - destruct (bool_decide (idx = ∅)); [discriminate|].
    destruct (entries idx (PyStr.strip (PyStr.lower base_name))) eqn:E;
      [discriminate|].
    intros H. apply existsb_exists in H as [e [Hin He]].
    exists e. split; [exact Hin|]. unfold entry_is in He.
    apply andb_prop in He as [H1 H2].
    apply String.eqb_eq in H1, H2. now split.
  - intros [e [Hin [Hb Hx]]].
    destruct (exists_in_index_true idx base_name
                (Some (PyStr.lower (PyStr.lstrip_char "." (PyStr.strip required_ext))))
                _ e eq_refl Hin) as [Hex [Hne Hc]].
    { unfold entry_is. rewrite Hb, Hx, !String.eqb_refl. reflexivity. }
    rewrite bool_decide_eq_false_2 by exact Hne.
    destruct (entries idx (PyStr.strip (PyStr.lower base_name))) eqn:E;
      [congruence|exact Hex].
Qed.

(** C7: over a tree in which [os.walk] yields the file [Hero.png],
    [exists_base_name] finds [Hero] with the extension [png] and with no
    extension required.  It does not find [hero] unless a file with the
    base name [hero] is there too, and it does not find [Hero] with the
    extension [jpg] unless some [Hero.jpg] (extension in any case) is
    there. *)
Theorem hero_png_lookup (fs : filesystem) (proj : string)
    (roots : list string) :
  (exists root dirpath, walked fs proj roots root dirpath "Hero.png") ->
  (forall root dirpath fn, walked fs proj roots root dirpath fn ->
     fst (splitext fn) <> "hero") ->
  (forall root dirpath fn, walked fs proj roots root dirpath fn ->
     ~ (fst (splitext fn) = "Hero"
        /\ PyStr.lower (tail (snd (splitext fn))) = "jpg")) ->
  let index := _build_index fs proj roots in
  exists_in_index index "Hero" (Some "png") = true
  /\ exists_in_index index "Hero" None = true
  /\ exists_in_index index "hero" (Some "png") = false
  /\ exists_in_index index "Hero" (Some "jpg") = false.
Proof.
  intros [root [dirpath Hw]] Hhero Hjpg index.
  assert (Hin : In (entry_of root dirpath "Hero.png") (entries index "hero")).
  { apply entries_build_index. exists root, dirpath, "Hero.png".
    split; [exact Hw|]. repeat split. }
  split; [|split; [|split]].
  - apply exists_in_index_ext; [discriminate|].
    exists (entry_of root dirpath "Hero.png"). now split.
  - apply exists_in_index_none.
    exists (entry_of root dirpath "Hero.png"). now split.
  - apply not_true_is_false. intros H.
    apply exists_in_index_ext in H as [e [He [Hb _]]]; [|discriminate].
    apply entries_build_index in He
      as [r [dp [fn [Hwalk [_ [_ ->]]]]]].
    exact (Hhero r dp fn Hwalk Hb).
  - apply not_true_is_false. intros H.
    apply exists_in_index_ext in H as [e [He [Hb Hx]]]; [|discriminate].
    apply entries_build_index in He
      as [r [dp [fn [Hwalk [_ [_ ->]]]]]].
    apply (Hjpg r dp fn Hwalk). split; [exact Hb|].
    cbn in Hx. unfold entry_of in Hx. cbn [ext] in Hx.
    destruct (String.eqb (snd (splitext fn)) ""); [discriminate|exact Hx].
Qed.

End AssetIndex.

Lemma hero_png_lookup_witness :
  let v := AssetValidator.new Examples.hero_fs "/proj/Assets/Settings/c.asset"
             (Some ["  - CollectPath: Assets/Art/"]) false in
  AssetValidator.exists_base_name v "Hero" (Some "png") = true
  /\ AssetValidator.exists_base_name v "Hero" None = true
  /\ AssetValidator.exists_base_name v "hero" (Some "png") = false
  /\ AssetValidator.exists_base_name v "Hero" (Some "jpg") = false.
Proof.
  assert (Hfile : forall root dirpath fn,
            walked Examples.hero_fs "/proj" ["Assets/Art"] root dirpath fn ->
            fn = "Hero.png").
  { intros root dirpath fn [Hr [walk [files [Hfs [Hd Hfn]]]]].
    destruct Hr as [<-|[]]. vm_compute in Hfs. injection Hfs as <-.
    destruct Hd as [Hd|[]]. injection Hd as <- <-.
    destruct Hfn as [<-|[]]. reflexivity. }
  apply (hero_png_lookup Examples.hero_fs "/proj" ["Assets/Art"]).
  - exists "Assets/Art", "/proj/Assets/Art". split; [now left|].
    exists [("/proj/Assets/Art", ["Hero.png"])], ["Hero.png"].
    split; [reflexivity|]. split; now left.
  - intros root dirpath fn Hw. rewrite (Hfile _ _ _ Hw). vm_compute.
    discriminate.
  - intros root dirpath fn Hw. rewrite (Hfile _ _ _ Hw). vm_compute.
    intros [_ H]. discriminate.
Defined.

(* ===================================================================== *)
(** ** Groups of a successful match *)
(* ===================================================================== *)

Section MatchGroups.
Import Re.

(** The group [n] lies on every path through [r]. *)
Fixpoint binds (n : nat) (r : re) : bool :=
  match r with
  | Group i r' => Nat.eqb i n || binds n r'
  | Seq r1 r2 => binds n r1 || binds n r2
  | _ => false
  end.

Lemma try_down_some {A} (f : nat -> option A) (lo i : nat) (r : A) :
  try_down f lo i = Some r -> exists j, (lo <= j <= i)%nat /\ f j = Some r.
Proof.
  induction i as [|i IH]; cbn [try_down].
  - destruct (Nat.ltb 0 lo) eqn:E; [discriminate|].
    apply Nat.ltb_ge in E.
    destruct (f 0%nat) eqn:Ef; [|discriminate].
    intros [= <-]. exists 0%nat. split; [lia|exact Ef].
  - destruct (Nat.ltb (S i) lo) eqn:E; [discriminate|].
    apply Nat.ltb_ge in E.
    destruct (f (S i)) eqn:Ef.
    + intros [= <-]. exists (S i). split; [lia|exact Ef].
    + intros H. destruct (IH H) as [j [Hj Hf]]. exists j. split; [lia|exact Hf].
Qed.

(** A successful match reaches its continuation, with every capture it
    had and every group that [r] binds. *)
Lemma rmatch_reaches (ic : bool) (r : re) :
  forall pos s m k res,
    rmatch ic r pos s m k = Some res ->
    exists pos' s' m',
      k pos' s' m' = Some res
      /\ forall n, binds n r = true \/ group n m <> None ->
                   group n m' <> None.
Proof.
  induction r as [c|c|c|r1 IH1 r2 IH2|r1 IH1|i r1 IH1| | |];
    intros pos s m k res H; cbn in H.
  - destruct s as [|x s']; [discriminate|].
    destruct (cls_match ic c x); [|discriminate].
    exists (S pos), s', m. split; [exact H|]. intros n [Hn|Hn]; [discriminate|exact Hn].
  - apply try_down_some in H as [j [_ Hj]].
    exists (pos + j)%nat, (drop j s), m. split; [exact Hj|].
    intros n [Hn|Hn]; [discriminate|exact Hn].
  - apply try_down_some in H as [j [_ Hj]].
    exists (pos + j)%nat, (drop j s), m. split; [exact Hj|].
    intros n [Hn|Hn]; [discriminate|exact Hn].
  - apply IH1 in H as [pos1 [s1 [m1 [H1 P1]]]].
    apply IH2 in H1 as [pos2 [s2 [m2 [H2 P2]]]].
    exists pos2, s2, m2. split; [exact H2|].
    intros n [Hn|Hn].
    + cbn in Hn. apply orb_prop in Hn as [Hn|Hn].
      * apply P2. right. apply P1. now left.
      * apply P2. now left.
    + apply P2. right. apply P1. now right.
  - destruct (rmatch ic r1 pos s m k) eqn:E.
    + injection H as <-.
      apply IH1 in E as [pos1 [s1 [m1 [H1 P1]]]].
      exists pos1, s1, m1. split; [exact H1|].
      intros n [Hn|Hn]; [discriminate|]. apply P1. now right.
    + exists pos, s, m. split; [exact H|].
      intros n [Hn|Hn]; [discriminate|exact Hn].
  - apply IH1 in H as [pos1 [s1 [m1 [H1 P1]]]].
    eexists pos1, s1, _. split; [exact H1|].
    intros n Hn. cbn [group].
    destruct (Nat.eqb i n) eqn:E; [discriminate|].
    apply P1. destruct Hn as [Hn|Hn]; [|now right].
    cbn in Hn. rewrite E in Hn. now left.
  - destruct (Nat.eqb pos 0); [|discriminate].
    exists pos, s, m. split; [exact H|].
    intros n [Hn|Hn]; [discriminate|exact Hn].
  - exists pos, s, m. split.
    + destruct s as [|x [|y s']]; [exact H| |discriminate].
      destruct (Nat.eqb (PyStr.code x) 10); [exact H|discriminate].
    + intros n [Hn|Hn]; [discriminate|exact Hn].
  - exists pos, s, m. split; [exact H|].
    intros n [Hn|Hn]; [discriminate|exact Hn].
Qed.

Lemma re_match_group (ic : bool) (r : re) (s : string) (m : caps) (n : nat) :
  re_match ic r s = Some m -> binds n r = true ->
  exists g, group n m = Some g.
Proof.
  intros H Hb. unfold re_match in H.
  apply rmatch_reaches in H as [pos' [s' [m' [Ha P]]]].
  unfold accept in Ha. injection Ha as ->.
  specialize (P n (or_introl Hb)).
  destruct (group n m) as [g|]; [now exists g|congruence].
Qed.

Lemma group_strip_ok (ic : bool) (r : re) (s : string) (m : caps) (n : nat) :
  re_match ic r s = Some m -> binds n r = true ->
  exists g, TypeUtils.group_strip m n = Ok g.
Proof.
  intros H Hb. destruct (re_match_group ic r s m n H Hb) as [g Hg].
  unfold TypeUtils.group_strip. rewrite Hg. eauto.
Qed.

End MatchGroups.

(* ===================================================================== *)
(** ** [parse_type_annotation] is total (utils/type_utils.py) *)
(* ===================================================================== *)

Section ParseTotal.
Import Re TypeUtils.



End ParseTotal.


(* ===================================================================== *)
(** ** The recursion of [_convert_with_check] is well founded *)
(* ===================================================================== *)

Section Lengths.
Import PyStr.

Lemma length_of_chars (l : list ascii) : String.length (of_chars l) = length l.
Proof. induction l as [|c l IH]; cbn; [reflexivity|now f_equal]. Qed.

Lemma length_chars (s : string) : length (chars s) = String.length s.
Proof. induction s as [|c s IH]; cbn; [reflexivity|now f_equal]. Qed.

Lemma drop_while_length p (l : list ascii) :
  (length (drop_while p l) <= length l)%nat.
Proof.
  induction l as [|c l IH]; cbn; [lia|]. destruct (p c); cbn; lia.
Qed.

Lemma strip_length (s : string) :
  (String.length (strip s) <= String.length s)%nat.
Proof.
  unfold strip, rstrip_chars, lstrip_chars.
  rewrite length_of_chars, length_rev.
  etransitivity; [apply drop_while_length|]. rewrite length_rev.
  etransitivity; [apply drop_while_length|]. now rewrite length_chars.
Qed.

Lemma split_chars_length sep (l p : list ascii) :
  In p (split_chars sep l) -> (length p <= length l)%nat.
Proof.
  revert p. induction l as [|c l IH]; intros p; cbn.
  - intros [<-|[]]. cbn. lia.
  - destruct (Ascii.eqb c sep).
    + intros [<-|H]; [cbn; lia|]. specialize (IH p H). lia.
    + destruct (split_chars sep l) as [|w ws] eqn:E.
      * intros [<-|[]]. cbn. lia.
      * intros [<-|H].
        -- cbn. specialize (IH w (or_introl eq_refl)). lia.
        -- specialize (IH p (or_intror H)). lia.
Qed.

Lemma split_part_length sep (s p : string) :
  In p (map strip (split sep s)) ->
  (String.length p <= String.length s)%nat.
Proof.
  unfold split. rewrite map_map. intros H. apply in_map_iff in H as [w [<- Hw]].
  etransitivity; [apply strip_length|].
  rewrite length_of_chars, <- length_chars.
  exact (split_chars_length sep _ _ Hw).
Qed.
End Lengths.

Section Fuel.
Context {fl : FloatOps}.
Import Converters Re.

Lemma rmatch_paren_length pos s m g :
  rmatch false paren_re pos s [] accept = Some m ->
  group 1 m = Some g ->
  (String.length g + 2 <= length s)%nat.
Proof.
  unfold paren_re. cbn [seq rmatch].
  destruct s as [|x s1]; [discriminate|].
  destruct (cls_match false (Lit "(") x); [|discriminate].
  intros H. apply try_down_some in H as [j [_ Hj]].
  destruct (drop j s1) as [|y rest] eqn:Ed; [discriminate|].
  destruct (cls_match false (Lit ")") y); [|discriminate].
  unfold accept in Hj. injection Hj as <-. cbn [group Nat.eqb].
  intros [= <-]. rewrite length_of_chars, length_take. cbn [length].
  assert (length (drop j s1) = S (length rest)) by now rewrite Ed.
  rewrite length_drop in H. lia.
Qed.

Lemma search_paren_length s : forall pos m g,
  search_from false paren_re pos s = Some m ->
  group 1 m = Some g ->
  (String.length g + 2 <= length s)%nat.
Proof.
  induction s as [|x s IH]; intros pos m g; cbn [search_from].
  - destruct (rmatch false paren_re pos [] [] accept) eqn:E; [|discriminate].
    intros [= <-]. now apply rmatch_paren_length with (pos := pos).
  - destruct (rmatch false paren_re pos (x :: s) [] accept) eqn:E.
    + intros [= <-]. now apply rmatch_paren_length with (pos := pos).
    + intros H Hg. specialize (IH _ _ _ H Hg). cbn. lia.
Qed.

(** The text between the parentheses is shorter than the type string. *)
Lemma type_match_shorter (type_str inner : string) :
  type_match type_str = Some inner ->
  (String.length inner + 2 <= String.length type_str)%nat.
Proof.
  unfold type_match, re_search.
  destruct (search_from false paren_re 0 (PyStr.chars type_str)) as [m|] eqn:E;
    [|discriminate].
  intros Hg. rewrite <- (length_chars type_str).
  exact (search_paren_length _ _ _ _ E Hg).
Qed.

Lemma for_fold_ext {A S} (xs : list A) (b1 b2 : S -> A -> M S) :
  (forall s x l, b1 s x l = b2 s x l) ->
  forall s l, for_fold xs s b1 l = for_fold xs s b2 l.
Proof.
  intros H. induction xs as [|x xs IH]; intros s l; cbn; [reflexivity|].
  unfold bind. rewrite H. destruct (b2 s x l) as [[s'|e] l']; [apply IH|reflexivity].
Qed.

Variable check : string -> atom -> atom -> ctx -> M unit.
Variable other_types : string -> atom -> ctx -> option (M pyval).

Lemma convert_list_with_ext rec1 rec2 type_str value c l :
  (forall e, (String.length e + 2 <= String.length type_str)%nat ->
     forall v c l, rec1 e v c l = rec2 e v c l) ->
  _convert_list_with rec1 type_str value c l
  = _convert_list_with rec2 type_str value c l.
Proof.
  intros H. unfold _convert_list_with.
  destruct (type_match type_str) as [inner|] eqn:E; [|reflexivity].
  assert (He : forall v c l, rec1 (PyStr.strip inner) v c l
                             = rec2 (PyStr.strip inner) v c l).
  { apply H. pose proof (type_match_shorter _ _ E).
    pose proof (strip_length inner). lia. }
  destruct value; try reflexivity.
  - unfold try_except, bind. now rewrite He.
  - unfold try_except, bind. now rewrite He.
  - unfold try_except, bind. now rewrite He.
  - unfold bind. erewrite for_fold_ext; [reflexivity|].
    intros acc x l0. cbv beta zeta. destruct (String.eqb (PyStr.strip x) "");
      [reflexivity|]. unfold bind. now rewrite He.
Qed.

Lemma convert_dict_with_ext rec1 rec2 type_str value c l :
  (forall e, (String.length e + 2 <= String.length type_str)%nat ->
     forall v c l, rec1 e v c l = rec2 e v c l) ->
  _convert_dict_with rec1 type_str value c l
  = _convert_dict_with rec2 type_str value c l.
Proof.
  intros H. unfold _convert_dict_with.
  destruct (type_match type_str) as [inner|] eqn:E; [|reflexivity].
  destruct (map PyStr.strip (PyStr.split "," inner))
    as [|kt [|vt [|x xs]]] eqn:Es; try (destruct value; reflexivity).
  assert (He : forall v c l, rec1 vt v c l = rec2 vt v c l).
  { apply H. pose proof (type_match_shorter _ _ E).
    assert (In vt (map PyStr.strip (PyStr.split "," inner))).
    { rewrite Es. right. now left. }
    pose proof (split_part_length _ _ _ H1). lia. }
  assert (Hloop : forall lines s l,
             for_fold lines s (_convert_dict_line rec1 kt vt c) l
             = for_fold lines s (_convert_dict_line rec2 kt vt c) l).
  { intros lines. apply for_fold_ext. intros acc x l0.
    unfold _convert_dict_line. destruct (PyStr.contains ":" x); [|reflexivity].
    destruct (map PyStr.strip (PyStr.split1 ":" x)) as [|a [|b [|? ?]]];
      try reflexivity.
    unfold bind. destruct (lift _ l0) as [[k|e] l1]; [|reflexivity].
    now rewrite He. }
  destruct value; try reflexivity; unfold bind; now rewrite Hloop.
Qed.

(** Above the length of the type string, the bound does not matter. *)
Lemma fuel_irrelevant (n : nat) : forall (m : nat) (type_str : string),
  (String.length type_str < n)%nat -> (String.length type_str < m)%nat ->
  forall v c l,
    _convert_with_check_fuel check other_types n type_str v c l
    = _convert_with_check_fuel check other_types m type_str v c l.
Proof.
  induction n as [|n IH]; intros m type_str Hn Hm v c l; [lia|].
  destruct m as [|m]; [lia|]. cbn [_convert_with_check_fuel].
  pose proof (strip_length type_str) as Hs.
  destruct (PRIMITIVE_TYPE_MAPPING (PyStr.strip type_str)); [reflexivity|].
  destruct (PyStr.startswith "list" (PyStr.strip type_str)).
  { apply convert_list_with_ext. intros e He. apply IH; lia. }
  destruct (PyStr.startswith "dict" (PyStr.strip type_str)); [|reflexivity].
  apply convert_dict_with_ext. intros e He. apply IH; lia.
Qed.

(** [_convert_with_check] satisfies the recursive equation of the source:
    its nested calls are calls of itself. *)
Lemma _convert_with_check_unfold (type_str : string) (value : atom) (c : ctx)
    (l : log) :
  _convert_with_check check other_types type_str value c l
  = (let type_str := PyStr.strip type_str in
     match PRIMITIVE_TYPE_MAPPING type_str with
     | Some conv =>
         bind (lift (conv value))
           (fun v => bind (check type_str v value c) (fun _ => ret (VAtom v)))
     | None =>
         if PyStr.startswith "list" type_str then
           _convert_list check other_types type_str value c
         else if PyStr.startswith "dict" type_str then
           _convert_dict check other_types type_str value c
         else
           match other_types type_str value c with
           | Some m => m
           | None => ret (VAtom value)
           end
     end) l.
Proof.
  unfold _convert_with_check at 1. cbn [_convert_with_check_fuel]. cbv zeta.
  pose proof (strip_length type_str) as Hs.
  destruct (PRIMITIVE_TYPE_MAPPING (PyStr.strip type_str)); [reflexivity|].
  destruct (PyStr.startswith "list" (PyStr.strip type_str)).
  { unfold _convert_list. apply convert_list_with_ext. intros e He v0 c0 l0.
    unfold _convert_with_check. apply fuel_irrelevant; lia. }
  destruct (PyStr.startswith "dict" (PyStr.strip type_str)); [|reflexivity].
  unfold _convert_dict. apply convert_dict_with_ext. intros e He v0 c0 l0.
  unfold _convert_with_check. apply fuel_irrelevant; lia.
Qed.
End Fuel.

(* ===================================================================== *)
(** ** Repeated keys in a dict cell (parsing/data_processing.py) *)
(* ===================================================================== *)

Section DictFacts.
Context {fl : FloatOps}.

Definition atom_kind (a : atom) : nat :=
  match a with
  | ANone => 0 | ABool _ => 1 | AInt _ => 2 | AFloat _ => 3 | AStr _ => 4
  end.

Lemma atom_eqb_refl (a : atom) : atom_eqb a a = true.
Proof.
  destruct a; cbn; auto using Bool.eqb_reflx, Z.eqb_refl, String.eqb_refl.
  now apply bool_decide_eq_true_2.
Qed.

(** Among scalars of one type, [==] is an equivalence. *)
Lemma atom_eqb_eq (a b : atom) :
  atom_kind a = atom_kind b -> atom_eqb a b = true -> a = b.
Proof.
  destruct a, b; cbn; try discriminate; intros _ H; try reflexivity.
  - now apply Bool.eqb_prop in H as ->.
  - now apply Z.eqb_eq in H as ->.
  - now apply bool_decide_eq_true_1 in H as ->.
  - now apply String.eqb_eq in H as ->.
Qed.

Context {V : Type}.
Implicit Types d : pydict V.

Definition keys_of_kind (K : nat) d : Prop :=
  forall k v, In (k, v) d -> atom_kind k = K.

Lemma dict_get_set_eq k v d : dict_get k (dict_set k v d) = Some v.
Proof.
  induction d as [|[k0 v0] d IH]; cbn.
  - now rewrite atom_eqb_refl.
  - destruct (atom_eqb k0 k) eqn:E; cbn; rewrite E; [reflexivity|exact IH].
Qed.

Lemma dict_get_set_ne K k v k' d :
  keys_of_kind K d -> atom_kind k = K -> atom_kind k' = K ->
  atom_eqb k k' = false ->
  dict_get k' (dict_set k v d) = dict_get k' d.
Proof.
  intros Hd Hk Hk' Hne.
  induction d as [|[k0 v0] d IH]; cbn.
  - now rewrite Hne.
  - assert (H0 : atom_kind k0 = K) by (apply (Hd k0 v0); now left).
    assert (Hd' : keys_of_kind K d).
    { intros a b Hab. apply (Hd a b). now right. }
    destruct (atom_eqb k0 k) eqn:E; cbn.
    + apply atom_eqb_eq in E; [|congruence]. subst k0. now rewrite Hne.
    + destruct (atom_eqb k0 k'); [reflexivity|]. now apply IH.
Qed.

Lemma keys_of_kind_set K k v d :
  keys_of_kind K d -> atom_kind k = K -> keys_of_kind K (dict_set k v d).
Proof.
  intros Hd Hk. induction d as [|[k0 v0] d IH]; cbn.
  - intros a b [[= <- <-]|[]]. exact Hk.
  - assert (Hd' : keys_of_kind K d).
    { intros a b Hab. apply (Hd a b). now right. }
    destruct (atom_eqb k0 k).
    + intros a b [[= <- <-]|Hab]; [apply (Hd k0 v0); now left|].
      apply (Hd a b). now right.
    + intros a b [[= <- <-]|Hab]; [apply (Hd k0 v0); now left|].
      now apply (IH Hd' a b).
Qed.

Lemma dict_set_length k v d :
  length (dict_set k v d)
  = if dict_mem k d then length d else S (length d).
Proof.
  unfold dict_mem. induction d as [|[k0 v0] d IH]; cbn; [reflexivity|].
  destruct (atom_eqb k0 k); cbn; [reflexivity|].
  rewrite IH. now destruct (dict_get k d).
Qed.

Lemma dict_mem_set_eq k v d : dict_mem k (dict_set k v d) = true.
Proof. unfold dict_mem. now rewrite dict_get_set_eq. Qed.

Lemma dict_mem_set K k v k' d :
  keys_of_kind K d -> atom_kind k = K -> atom_kind k' = K ->
  dict_mem k' d = true -> dict_mem k' (dict_set k v d) = true.
Proof.
  intros Hd Hk Hk' H. unfold dict_mem in *.
  destruct (atom_eqb k k') eqn:E.
  - apply atom_eqb_eq in E; [|congruence]. subst. now rewrite dict_get_set_eq.
  - now rewrite (dict_get_set_ne K).
Qed.

(** [d[k] = v] for each pair, in order. *)
Definition dict_set_all (es : list (atom * V)) d : pydict V :=
  fold_left (fun d kv => dict_set (fst kv) (snd kv) d) es d.

Definition all_of_kind (K : nat) (es : list (atom * V)) : Prop :=
  forall k v, In (k, v) es -> atom_kind k = K.

Lemma dict_set_all_kind K es d :
  keys_of_kind K d -> all_of_kind K es -> keys_of_kind K (dict_set_all es d).
Proof.
  revert d. induction es as [|[k v] es IH]; intros d Hd Hes; cbn; [exact Hd|].
  apply IH.
  - apply keys_of_kind_set; [exact Hd|]. apply (Hes k v). now left.
  - intros a b Hab. apply (Hes a b). now right.
Qed.

Lemma dict_set_all_get_other K es d k :
  keys_of_kind K d -> all_of_kind K es -> atom_kind k = K ->
  (forall k' v', In (k', v') es -> atom_eqb k' k = false) ->
  dict_get k (dict_set_all es d) = dict_get k d.
Proof.
  revert d. induction es as [|[k0 v0] es IH]; intros d Hd Hes Hk Hne; cbn;
    [reflexivity|].
  rewrite IH.
  - apply (dict_get_set_ne K); auto.
    + apply (Hes k0 v0). now left.
    + apply (Hne k0 v0). now left.
  - apply keys_of_kind_set; [exact Hd|]. apply (Hes k0 v0). now left.
  - intros a b Hab. apply (Hes a b). now right.
  - exact Hk.
  - intros a b Hab. apply (Hne a b). now right.
Qed.

Lemma dict_set_all_mem K es d k :
  keys_of_kind K d -> all_of_kind K es -> atom_kind k = K ->
  dict_mem k d = true -> dict_mem k (dict_set_all es d) = true.
Proof.
  revert d. induction es as [|[k0 v0] es IH]; intros d Hd Hes Hk Hm; cbn;
    [exact Hm|].
  apply IH.
  - apply keys_of_kind_set; [exact Hd|]. apply (Hes k0 v0). now left.
  - intros a b Hab. apply (Hes a b). now right.
  - exact Hk.
  - apply (dict_mem_set K); auto. apply (Hes k0 v0). now left.
Qed.

Lemma dict_set_all_length es d :
  (length (dict_set_all es d) <= length d + length es)%nat.
Proof.
  unfold dict_set_all.
  revert d. induction es as [|[k v] es IH]; intros d; cbn; [lia|].
  specialize (IH (dict_set k v d)). rewrite dict_set_length in IH.
  destruct (dict_mem k d); lia.
Qed.

Lemma dict_set_all_app es1 es2 d :
  dict_set_all (es1 ++ es2) d = dict_set_all es2 (dict_set_all es1 d).
Proof. unfold dict_set_all. apply fold_left_app. Qed.

Lemma dict_set_all_cons k v es d :
  dict_set_all ((k, v) :: es) d = dict_set_all es (dict_set k v d).
Proof. reflexivity. Qed.

Lemma all_of_kind_app K es1 es2 :
  all_of_kind K (es1 ++ es2) <-> all_of_kind K es1 /\ all_of_kind K es2.
Proof.
  unfold all_of_kind. split.
  - intros H. split; intros k v Hin; apply (H k v), in_or_app; tauto.
  - intros [H1 H2] k v Hin. apply in_app_or in Hin as [Hin|Hin]; eauto.
Qed.

Lemma all_of_kind_cons K k v es :
  all_of_kind K ((k, v) :: es) <-> atom_kind k = K /\ all_of_kind K es.
Proof.
  unfold all_of_kind. split.
  - intros H. split; [apply (H k v); now left|].
    intros a b Hin. apply (H a b). now right.
  - intros [H1 H2] a b [[= <- <-]|Hin]; eauto.
Qed.

Lemma keys_of_kind_nil K : keys_of_kind K [].
Proof. intros k v []. Qed.

(** The last pair of a key decides its value. *)
Lemma last_pair_wins K before k v after :
  all_of_kind K (before ++ (k, v) :: after) ->
  (forall k' v', In (k', v') after -> atom_eqb k' k = false) ->
  dict_get k (dict_set_all (before ++ (k, v) :: after) []) = Some v.
Proof.
  intros Hk Hafter.
  apply all_of_kind_app in Hk as [Kb Hk].
  apply all_of_kind_cons in Hk as [Kk Ka].
  rewrite dict_set_all_app, dict_set_all_cons.
  rewrite (dict_set_all_get_other K); auto.
  - apply dict_get_set_eq.
  - apply keys_of_kind_set; [|exact Kk].
    apply dict_set_all_kind; [apply keys_of_kind_nil|exact Kb].
Qed.

(** Two pairs with one key leave fewer keys than pairs. *)
Lemma repeated_key_shrinks K before k1 v1 mid k2 v2 after :
  all_of_kind K (before ++ (k1, v1) :: mid ++ (k2, v2) :: after) ->
  atom_eqb k1 k2 = true ->
  (length (dict_set_all (before ++ (k1, v1) :: mid ++ (k2, v2) :: after) [])
   < length (before ++ (k1, v1) :: mid ++ (k2, v2) :: after))%nat.
Proof.
  intros Hk E.
  apply all_of_kind_app in Hk as [Kb Hk].
  apply all_of_kind_cons in Hk as [K1 Hk].
  apply all_of_kind_app in Hk as [Km Hk].
  apply all_of_kind_cons in Hk as [K2 Ka].
  apply atom_eqb_eq in E; [|congruence]. subst k2.
  rewrite dict_set_all_app, dict_set_all_cons, dict_set_all_app,
    dict_set_all_cons.
  set (d0 := dict_set_all before []).
  set (d1 := dict_set_all mid (dict_set k1 v1 d0)).
  assert (Hd0 : keys_of_kind K d0).
  { apply dict_set_all_kind; [apply keys_of_kind_nil|exact Kb]. }
  assert (Hm : dict_mem k1 d1 = true).
  { apply (dict_set_all_mem K mid); auto.
    - now apply keys_of_kind_set.
    - apply dict_mem_set_eq. }
  pose proof (dict_set_all_length after (dict_set k1 v2 d1)) as L3.
  rewrite dict_set_length, Hm in L3.
  pose proof (dict_set_all_length mid (dict_set k1 v1 d0)) as L2.
  fold d1 in L2. rewrite dict_set_length in L2.
  pose proof (dict_set_all_length before []) as L1.
  fold d0 in L1. cbn in L1.
  rewrite !length_app. cbn. rewrite length_app. cbn.
  destruct (dict_mem k1 d0); lia.
Qed.
End DictFacts.

Section DictLines.
Context {fl : FloatOps}.
Import Converters.
Variable rec : string -> atom -> ctx -> M pyval.
Variables (kt vt : string) (c : ctx).

(** The line holds a colon, its key converts to [k] and its value to [v]. *)
Definition line_converts (line : string) (k : atom) (v : pyval) : Prop :=
  PyStr.contains ":" line = true
  /\ exists key val,
       map PyStr.strip (PyStr.split1 ":" line) = [key; val]
       /\ key_conv kt (AStr key) = Ok k
       /\ forall l, fst (rec vt (AStr val) c l) = Ok v.

(** The pairs that the lines convert to, in order; a line without a colon
    gives none. *)
Inductive converted : list string -> list (atom * pyval) -> Prop :=
| converted_nil : converted [] []
| converted_skip line lines es :
    PyStr.contains ":" line = false -> converted lines es ->
    converted (line :: lines) es
| converted_line line lines k v es :
    line_converts line k v -> converted lines es ->
    converted (line :: lines) ((k, v) :: es).

Lemma converted_app l1 e1 l2 e2 :
  converted l1 e1 -> converted l2 e2 -> converted (l1 ++ l2) (e1 ++ e2).
Proof.
  induction 1; intros H2; cbn; [exact H2| |].
  - apply converted_skip; auto.
  - apply converted_line; auto.
Qed.

Lemma converted_exists lines :
  (forall line, In line lines -> PyStr.contains ":" line = true ->
     exists k v, line_converts line k v) ->
  exists es, converted lines es.
Proof.
  induction lines as [|line lines IH]; intros H.
  - exists []. constructor.
  - destruct IH as [es Hes]. { intros x Hx. apply H. now right. }
    destruct (PyStr.contains ":" line) eqn:E.
    + destruct (H line (or_introl eq_refl) E) as [k [v Hkv]].
      exists ((k, v) :: es). now apply converted_line.
    + exists es. now apply converted_skip.
Qed.

Lemma converted_In lines es k v :
  converted lines es -> In (k, v) es ->
  exists line, In line lines /\ line_converts line k v.
Proof.
  induction 1; intros Hin.
  - destruct Hin.
  - destruct (IHconverted Hin) as [x [Hx Hc]]. exists x. split; [now right|exact Hc].
  - destruct Hin as [[= <- <-]|Hin].
    + exists line. split; [now left|assumption].
    + destruct (IHconverted Hin) as [x [Hx Hc]]. exists x. split; [now right|exact Hc].
Qed.

Lemma converted_length lines es :
  converted lines es ->
  length es = length (List.filter (PyStr.contains ":") lines).
Proof.
  induction 1; cbn; [reflexivity| |].
  - now rewrite H.
  - destruct H as [-> _]. cbn. now f_equal.
Qed.

Definition key_kind : nat :=
  if String.eqb kt "int" then 2
  else if String.eqb kt "float" then 3
  else if String.eqb kt "bool" then 1
  else 4.

Lemma key_conv_kind x a : key_conv kt x = Ok a -> atom_kind a = key_kind.
Proof.
  unfold key_conv, PRIMITIVE_TYPE_MAPPING, key_kind.
  destruct (String.eqb kt "int").
  { cbn. destruct (py_int x); cbn; [|discriminate]. now intros [= <-]. }
  destruct (String.eqb kt "float").
  { cbn. destruct (py_float x); cbn; [|discriminate]. now intros [= <-]. }
  destruct (String.eqb kt "bool"). { cbn. now intros [= <-]. }
  destruct (String.eqb kt "str"). { cbn. now intros [= <-]. }
  destruct (String.eqb kt "string"); cbn; now intros [= <-].
Qed.

Lemma converted_kind lines es :
  converted lines es -> all_of_kind key_kind es.
Proof.
  induction 1; [intros k v []|assumption|].
  apply all_of_kind_cons. split; [|assumption].
  destruct H as [_ [key [val [_ [Hk _]]]]]. exact (key_conv_kind _ _ Hk).
Qed.

(** The loop of [_convert_dict] sets the pairs one after the other. *)
Lemma convert_dict_loop lines es :
  converted lines es ->
  forall acc l,
    fst (for_fold lines acc (_convert_dict_line rec kt vt c) l)
    = Ok (dict_set_all es acc).
Proof.
  induction 1; intros acc l; cbn [for_fold].
  - reflexivity.
  - unfold bind, _convert_dict_line at 1. rewrite H. cbn. apply IHconverted.
  - destruct H as [Hc [key [val [Hs [Hk Hv]]]]].
    unfold _convert_dict_line at 1. rewrite Hc, Hs.
    unfold bind at 1 2 3, lift. rewrite Hk.
    specialize (Hv l). destruct (rec vt (AStr val) c l) as [r l'].
    cbn in Hv. subst r. unfold ret at 1.
    exact (IHconverted (dict_set k v acc) l').
Qed.

End DictLines.

Section DictLastWins.
Context {fl : FloatOps}.
Import Converters.
Variable reg : EnumRegistry.t.

(** C10: a dict cell whose lines all convert, and in which two lines
    have keys that convert to the same key.  The conversion returns a
    mapping that holds, under that key, the value of the last line with
    that key; the mapping has fewer entries than the cell has lines with a
    colon. *)
Theorem dict_later_line_wins (type_str inner kt vt : string) (value : atom)
    (c : ctx) (before mid after : list string) (line1 line2 : string)
    (k1 k2 : atom) (v1 v2 : pyval) :
  type_match type_str = Some inner ->
  map PyStr.strip (PyStr.split "," inner) = [kt; vt] ->
  value <> ANone ->
  PyStr.splitlines (py_str value)
  = (before ++ line1 :: mid ++ line2 :: after)%list ->
  (forall line, In line (PyStr.splitlines (py_str value)) ->
     PyStr.contains ":" line = true ->
     exists k v, line_converts (ParsingDataProcessing._convert_with_check reg) kt vt c line k v) ->
  line_converts (ParsingDataProcessing._convert_with_check reg) kt vt c line1 k1 v1 ->
  line_converts (ParsingDataProcessing._convert_with_check reg) kt vt c line2 k2 v2 ->
  atom_eqb k1 k2 = true ->
  (forall line k v, In line after -> line_converts (ParsingDataProcessing._convert_with_check reg) kt vt c line k v ->
     atom_eqb k k2 = false) ->
  exists d,
    (forall l, fst (ParsingDataProcessing._convert_dict reg type_str value c l)
               = Ok (VDict d))
    /\ dict_get k2 d = Some v2
    /\ (length d
        < length (List.filter (PyStr.contains ":")
                    (PyStr.splitlines (py_str value))))%nat.
Proof.
  intros Htm Hsplit Hval Hlines Hall H1 H2 Heq Hafter.
  assert (Hseg : forall seg, (forall x, In x seg -> In x (PyStr.splitlines (py_str value))) ->
                 exists es, converted (ParsingDataProcessing._convert_with_check reg) kt vt c seg es).
  { intros seg Hsub. apply converted_exists. intros line Hin. apply Hall, Hsub, Hin. }
  destruct (Hseg before) as [eb Hb].
  { intros x Hx. rewrite Hlines. apply in_or_app. now left. }
  destruct (Hseg mid) as [em Hm].
  { intros x Hx. rewrite Hlines. apply in_or_app. right. right.
    apply in_or_app. now left. }
  destruct (Hseg after) as [ea Ha].
  { intros x Hx. rewrite Hlines. apply in_or_app. right. right.
    apply in_or_app. right. now right. }
  set (es := (eb ++ (k1, v1) :: em ++ (k2, v2) :: ea)%list).
  assert (Hes : converted (ParsingDataProcessing._convert_with_check reg) kt vt c (PyStr.splitlines (py_str value)) es).
  { rewrite Hlines. apply converted_app; [exact Hb|].
    apply converted_line; [exact H1|].
    apply converted_app; [exact Hm|]. now apply converted_line. }
  exists (dict_set_all es []). split; [|split].
  - intros l. unfold ParsingDataProcessing._convert_dict, _convert_dict,
      _convert_dict_with.
    rewrite Htm, Hsplit. destruct value; try congruence;
      unfold bind;
      pose proof (convert_dict_loop (ParsingDataProcessing._convert_with_check reg) kt vt c _ _ Hes [] l) as Hloop;
      fold (ParsingDataProcessing._convert_with_check reg);
      destruct (for_fold _ _ _ l) as [r l']; cbn in Hloop; subst r;
      reflexivity.
  - unfold es.
    change (eb ++ (k1, v1) :: em ++ (k2, v2) :: ea)%list
      with (eb ++ ((k1, v1) :: em) ++ (k2, v2) :: ea)%list.
    rewrite app_assoc.
    apply (last_pair_wins (key_kind kt)).
    + rewrite <- app_assoc. exact (converted_kind (ParsingDataProcessing._convert_with_check reg) kt vt c _ _ Hes).
    + intros k' v' Hin.
      destruct (converted_In (ParsingDataProcessing._convert_with_check reg) kt vt c _ _ _ _ Ha Hin) as [line [Hl Hc]].
      exact (Hafter line k' v' Hl Hc).
  - rewrite <- (converted_length (ParsingDataProcessing._convert_with_check reg) kt vt c _ _ Hes).
    apply (repeated_key_shrinks (key_kind kt)); [|exact Heq].
    exact (converted_kind (ParsingDataProcessing._convert_with_check reg) kt vt c _ _ Hes).
Qed.
End DictLastWins.

Lemma dict_later_line_wins_witness :
  exists d,
    (forall l,
       fst (ParsingDataProcessing._convert_dict (fl:=ZFloat) EnumRegistry.new
              "dict(int,string)" (AStr Examples.repeated_key_cell) no_ctx l)
       = Ok (VDict d))
    /\ dict_get (AInt 1) d = Some (VStr "b")
    /\ (length d
        < length (List.filter (PyStr.contains ":")
                    (PyStr.splitlines Examples.repeated_key_cell)))%nat.
Proof.
  assert (H1 : line_converts
                 (ParsingDataProcessing._convert_with_check (fl:=ZFloat)
                    EnumRegistry.new)
                 "int" "string" no_ctx "1:a" (AInt 1) (VStr "a")).
  { split; [reflexivity|]. exists "1", "a". repeat split. }
  assert (H2 : line_converts
                 (ParsingDataProcessing._convert_with_check (fl:=ZFloat)
                    EnumRegistry.new)
                 "int" "string" no_ctx "01:b" (AInt 1) (VStr "b")).
  { split; [reflexivity|]. exists "01", "b". repeat split. }
  apply (dict_later_line_wins (fl:=ZFloat) EnumRegistry.new
           "dict(int,string)" "int,string" "int" "string"
           (AStr Examples.repeated_key_cell) no_ctx [] [] [] "1:a" "01:b"
           (AInt 1) (AInt 1) (VStr "a") (VStr "b")).
  - vm_compute. reflexivity.
  - vm_compute. reflexivity.
  - discriminate.
  - vm_compute. reflexivity.
  - intros line Hin _. vm_compute in Hin.
    destruct Hin as [<-|[<-|[]]]; eauto.
  - exact H1.
  - exact H2.
  - reflexivity.
  - intros line k v [].
Defined.

(* ===================================================================== *)
(** ** The duplicate-key scans (validation/worksheet_validator.py) *)
(* ===================================================================== *)

Section DictMembers.
Context {fl : FloatOps} {V : Type}.
Local Open Scope list_scope.
Implicit Types d : pydict V.

Lemma dict_get_In K d k v :
  keys_of_kind K d -> atom_kind k = K -> NoDup (map fst d) ->
  dict_get k d = Some v <-> In (k, v) d.
Proof.
  intros Hd Hk Hn. induction d as [|[k0 v0] d IH]; cbn.
  - split; [discriminate|tauto].
  - assert (H0 : atom_kind k0 = K) by (apply (Hd k0 v0); now left).
    assert (Hd' : keys_of_kind K d).
    { intros a b Hab. apply (Hd a b). now right. }
    cbn in Hn. apply NoDup_cons in Hn as [Hnotin Hn].
    destruct (atom_eqb k0 k) eqn:E.
    + apply atom_eqb_eq in E; [|congruence]. subst k0. split.
      * intros [= <-]. now left.
      * intros [[= <-]|Hin]; [reflexivity|].
        exfalso. apply Hnotin, list_elem_of_In, in_map_iff. now exists (k, v).
    + rewrite (IH Hd' Hn). split; [tauto|].
      intros [[= <- <-]|Hin]; [|exact Hin].
      now rewrite atom_eqb_refl in E.
Qed.

Lemma dict_set_In K d k v k' v' :
  keys_of_kind K d -> atom_kind k = K -> NoDup (map fst d) ->
  In (k', v') (dict_set k v d)
  <-> (k' = k /\ v' = v) \/ (k' <> k /\ In (k', v') d).
Proof.
  intros Hd Hk Hn. induction d as [|[k0 v0] d IH]; cbn.
  - split.
    + intros [[= <- <-]|[]]. now left.
    + intros [[-> ->]|[_ []]]. now left.
  - assert (H0 : atom_kind k0 = K) by (apply (Hd k0 v0); now left).
    assert (Hd' : keys_of_kind K d).
    { intros a b Hab. apply (Hd a b). now right. }
    cbn in Hn. apply NoDup_cons in Hn as [Hnotin Hn].
    destruct (atom_eqb k0 k) eqn:E; cbn.
    + apply atom_eqb_eq in E; [|congruence]. subst k0. split.
      * intros [[= <- <-]|Hin]; [now left|]. right. split; [|now right].
        intros ->. apply Hnotin, list_elem_of_In, in_map_iff. now exists (k, v').
      * intros [[-> ->]|[Hne [[= <- <-]|Hin]]]; [now left|congruence|now right].
    + rewrite (IH Hd' Hn). split.
      * intros [[= <- <-]|[[-> ->]|[Hne Hin]]].
        -- right. split; [|now left]. intros ->. now rewrite atom_eqb_refl in E.
        -- now left.
        -- right. split; [exact Hne|now right].
      * intros [[-> ->]|[Hne [[= <- <-]|Hin]]]; [right; now left|now left|].
        right. right. now split.
Qed.

Lemma dict_set_NoDup K d k v :
  keys_of_kind K d -> atom_kind k = K -> NoDup (map fst d) ->
  NoDup (map fst (dict_set k v d)).
Proof.
  intros Hd Hk Hn. induction d as [|[k0 v0] d IH]; cbn.
  - apply NoDup_singleton.
  - assert (H0 : atom_kind k0 = K) by (apply (Hd k0 v0); now left).
    assert (Hd' : keys_of_kind K d).
    { intros a b Hab. apply (Hd a b). now right. }
    cbn in Hn. pose proof Hn as Hn0. apply NoDup_cons in Hn as [Hnotin Hn].
    destruct (atom_eqb k0 k) eqn:E; cbn; [exact Hn0|].
    apply NoDup_cons. split; [|now apply IH].
    intros Hin. apply list_elem_of_In, in_map_iff in Hin as [[a b] [Ha Hab]].
    cbn in Ha. subst a.
    apply (dict_set_In K) in Hab as [[-> ->]|[_ Hab]]; auto.
    + now rewrite atom_eqb_refl in E.
    + apply Hnotin, list_elem_of_In, in_map_iff. now exists (k0, b).
Qed.
End DictMembers.

Section EnumScan.
Context {fl : FloatOps}.
Local Open Scope list_scope.
Import WorksheetValidator.

(** The row, with its index, starts with the cell [name]. *)
Definition has_name (name : string) (ir : Z * row) : bool :=
  match snd ir with
  | AStr n :: _ => String.eqb n name
  | _ => false
  end.

(** The Excel rows (7 + index) of the rows that start with [name]. *)
Definition rows_in (name : string) (done : list (Z * row)) : list Z :=
  map (fun ir => 7 + fst ir) (List.filter (has_name name) done).

Definition excel_rows_of (name : string) (row_data : list row) : list Z :=
  rows_in name (enumerate 0 row_data).

(** A row is empty or starts with a valid name. *)
Definition valid_key_row (r : row) : Prop :=
  r = [] \/ exists n rest, r = AStr n :: rest
                           /\ NamingUtils.is_valid_csharp_identifier n = true.

Definition name_rows_is (acc : pydict (list Z)) (done : list (Z * row))
  : Prop :=
  keys_of_kind 4 acc /\ NoDup (map fst acc)
  /\ forall s rows, In (AStr s, rows) acc
                    <-> rows = rows_in s done /\ rows <> [].

Lemma rows_in_app name done ir :
  rows_in name (done ++ [ir])
  = rows_in name done ++ (if has_name name ir then [7 + fst ir] else []).
Proof.
  unfold rows_in. rewrite List.filter_app, map_app. cbn.
  now destruct (has_name name ir).
Qed.

Lemma enum_scan_step_inv acc done idx r :
  name_rows_is acc done -> valid_key_row r ->
  exists acc', enum_scan_step acc (idx, r) = Ok acc'
               /\ name_rows_is acc' (done ++ [(idx, r)]).
Proof.
  intros [HK [HN HI]] [->|[n [rest [-> Hvalid]]]].
  - exists acc. split; [reflexivity|]. split; [exact HK|]. split; [exact HN|].
    intros s rows. rewrite rows_in_app. cbn. rewrite app_nil_r. apply HI.
  - unfold enum_scan_step, validate_enum_name, available_csharp_enum_name.
    rewrite Hvalid. cbn [negb res_bind]. eexists. split; [reflexivity|].
    unfold name_rows_append.
    split; [now apply keys_of_kind_set|].
    split; [now apply (dict_set_NoDup 4)|].
    intros s rows. rewrite (dict_set_In 4) by auto.
    rewrite rows_in_app. unfold has_name. cbn [snd fst].
    assert (Hold : default [] (dict_get (AStr n) acc) = rows_in n done).
    { destruct (dict_get (AStr n) acc) as [r0|] eqn:E; cbn.
      - apply (dict_get_In 4) in E; auto. now apply HI in E.
      - destruct (rows_in n done) eqn:Er; [reflexivity|].
        assert (In (AStr n, rows_in n done) acc) as Hin.
        { apply HI. split; [reflexivity|]. now rewrite Er. }
        apply (dict_get_In 4) in Hin; auto. congruence. }
    rewrite Hold. split.
    + intros [[[= ->] ->]|[Hne Hin]].
      * rewrite String.eqb_refl. split; [reflexivity|].
        now destruct (rows_in n done).
      * apply HI in Hin as [-> Hnil].
        destruct (String.eqb n s) eqn:E.
        { apply String.eqb_eq in E. congruence. }
        now rewrite app_nil_r.
    + intros [-> Hnil]. destruct (String.eqb n s) eqn:E.
      * apply String.eqb_eq in E. subst s. now left.
      * right. split.
        { intros [= ->]. now rewrite String.eqb_refl in E. }
        rewrite app_nil_r in *. now apply HI.
Qed.

Lemma enum_scan_inv items : forall acc done,
  name_rows_is acc done -> Forall (fun ir => valid_key_row (snd ir)) items ->
  exists acc', res_fold items acc enum_scan_step = Ok acc'
               /\ name_rows_is acc' (done ++ items).
Proof.
  induction items as [|[idx r] items IH]; intros acc done Hacc Hall; cbn [res_fold].
  - exists acc. split; [reflexivity|]. now rewrite app_nil_r.
  - apply Forall_cons in Hall as [Hr Hall]. cbn in Hr.
    destruct (enum_scan_step_inv acc done idx r Hacc Hr) as [acc1 [E1 H1]].
    rewrite E1. cbn [res_bind].
    destruct (IH acc1 _ H1 Hall) as [acc' [E' H']].
    exists acc'. split; [exact E'|]. now rewrite <- app_assoc in H'.
Qed.

Lemma enumerate_valid (rows : list row) : forall start,
  Forall valid_key_row rows ->
  Forall (fun ir => valid_key_row (snd ir)) (enumerate start rows).
Proof.
  induction rows as [|r rows IH]; intros start H; cbn; [constructor|].
  apply Forall_cons in H as [Hr H]. apply Forall_cons. split; [exact Hr|now apply IH].
Qed.

(** With valid names throughout, the scan fails exactly when a name
    repeats, and its error lists every repeated name with all its rows. *)
Lemma enum_scan_lists_all (row_data : list row) (sheet_name : string) :
  Forall valid_key_row row_data ->
  exists dups,
    (forall name rows,
        In (name, rows) dups
        <-> rows = excel_rows_of name row_data /\ (1 < length rows)%nat)
    /\ check_duplicate_enum_keys row_data sheet_name
       = match dups with
         | [] => Ok tt
         | _ => Raise (InvalidEnumNameError "duplicate string primary keys"
                         dups (-1))
         end.
Proof.
  intros Hvalid.
  destruct (enum_scan_inv (enumerate 0 row_data) [] [])
    as [name_rows [Efold [HK [HN HI]]]].
  { split; [apply keys_of_kind_nil|]. split; [apply NoDup_nil_2|].
    intros s rows. cbn. split; [tauto|]. intros [-> H]. now apply H. }
  { now apply enumerate_valid. }
  cbn [app] in HI.
  set (dup := List.filter (fun kv => (1 <? length (snd kv))%nat) name_rows).
  exists (map (fun kv => (py_str (fst kv), snd kv)) dup). split.
  - intros name rows. unfold excel_rows_of. rewrite in_map_iff. split.
    + intros [[k v] [[= <- <-] Hin]]. apply filter_In in Hin as [Hin Hlen].
      cbn [snd] in Hlen. apply Nat.ltb_lt in Hlen.
      assert (Hk : atom_kind k = 4%nat) by exact (HK k v Hin).
      destruct k; try discriminate. cbn [py_str fst snd].
      apply HI in Hin as [-> _]. now split.
    + intros [-> Hlen]. exists (AStr name, rows_in name (enumerate 0 row_data)).
      split; [reflexivity|]. apply filter_In. split.
      * apply HI. split; [reflexivity|]. intros E. rewrite E in Hlen. cbn in Hlen. lia.
      * cbn [snd]. now apply Nat.ltb_lt.
  - assert (Ec : collect_name_rows row_data = Ok name_rows) by exact Efold.
    unfold check_duplicate_enum_keys. rewrite Ec.
    cbn [res_bind]. fold dup. now destruct dup.
Qed.
End EnumScan.

Section CompositeScan.
Context {fl : FloatOps}.
Local Open Scope list_scope.
Import WorksheetValidator.
Variable multiplier : Z.







End CompositeScan.

Section DuplicateScans.
Context {fl : FloatOps}.
Import WorksheetValidator.
Local Open Scope list_scope.



End DuplicateScans.



(* ===================================================================== *)
(** * Further properties of the sources *)
(* ===================================================================== *)

(** More concrete inputs. *)
Module Sheets.
Import WorksheetData Examples.

(** A sheet with string keys: the rows [Sword] and [Bow], and an empty
    row between them. *)
Definition weapons : WorksheetData.t (fl:=ZFloat) :=
  WorksheetData.Build "Weapons"
    [str_cell "int"; str_cell "string"; str_cell "int"]
    [ANone; ANone; ANone]
    [str_cell "key"; str_cell "name"; str_cell "hp"]
    [ANone; ANone; ANone]
    [[str_cell "Sword"; int_cell 3]; []; [str_cell "Bow"; int_cell 5]]
    true false false ∅ ∅ (ReferenceChecker.new "Weapons" None) false.

(** Field names with the prefix of an asset and of a reference. *)
Definition marked_names : list (atom (fl:=ZFloat)) :=
  [str_cell "key"; str_cell "[Asset:png]icon"; str_cell "[Item/id]item"].

End Sheets.

(* ===================================================================== *)
(** ** The registry of enums (enum_registry.py) *)
(* ===================================================================== *)

Section Registry.
Import EnumRegistry NamingUtils.

(** The registries that calls of [register_enum] build from
    [EnumRegistry()], whether the calls return or raise. *)
Inductive registered : t -> Prop :=
| registered_new : registered new
| registered_step self enum_name enum_items namespace source :
    registered self ->
    registered (snd (register_enum self enum_name enum_items namespace
                       source)).

(** X1: a call of [register_enum] that returns has entered the enum:
    [has_enum] holds, [get_enum_items] gives the items back,
    [get_enum_value] and [validate_enum_item] answer from them,
    [get_namespace] is the namespace given and the name is among
    [get_all_enum_names]; every other name is answered as before. *)
Theorem register_enum_round_trip (self self' : t) (enum_name : string)
    (enum_items : gmap string Z) (namespace source : string) :
  register_enum self enum_name enum_items namespace source = (Ok tt, self') ->
  has_enum self' enum_name = true
  /\ get_enum_items self' enum_name = Ok enum_items
  /\ get_namespace self' enum_name = namespace
  /\ get_all_enum_names self' = {[enum_name]} ∪ get_all_enum_names self
  /\ (forall item,
        get_enum_value self' enum_name item
        = match enum_items !! item with
          | Some v => Ok v
          | None => Raise (ExportError "enum has no such item" item)
          end
        /\ validate_enum_item self' enum_name item
           = bool_decide (is_Some (enum_items !! item)))
  /\ (forall other, other <> enum_name ->
        has_enum self' other = has_enum self other
        /\ get_enum_items self' other = get_enum_items self other
        /\ get_namespace self' other = get_namespace self other
        /\ forall item,
             get_enum_value self' other item = get_enum_value self other item
             /\ validate_enum_item self' other item
                = validate_enum_item self other item).
Proof.
  unfold register_enum.
  destruct (negb (is_valid_csharp_identifier enum_name)); [discriminate|].
  destruct (_enums self !! enum_name) as [existing|] eqn:E.
  { destruct (negb (bool_decide _)); discriminate. }
  intros H. injection H as <-.
  unfold has_enum, get_enum_items, get_namespace, get_all_enum_names,
    get_enum_value, validate_enum_item. cbn [_enums _enum_namespaces].
  rewrite !lookup_insert_eq. cbn [default].
  split; [apply bool_decide_eq_true; eauto|].
  split; [reflexivity|]. split; [reflexivity|].
  split; [apply dom_insert_L|].
  split.
  - intros item. destruct (enum_items !! item); split; reflexivity.
  - intros other Hne.
    rewrite !lookup_insert_ne by congruence. repeat split; reflexivity.
Qed.

(** X2: in every registry built from [EnumRegistry()] by calls of
    [register_enum], the three tables hold the same names and each name
    is a valid identifier: a registered enum has its namespace and its
    source, and a call that raises leaves the registry as it was. *)
Theorem registered_tables_agree (self : t) :
  registered self ->
  dom (_enum_namespaces self) = dom (_enums self)
  /\ dom (_enum_sources self) = dom (_enums self)
  /\ (forall enum_name, has_enum self enum_name = true ->
        is_valid_csharp_identifier enum_name = true
        /\ is_Some (_enum_namespaces self !! enum_name)
        /\ is_Some (_enum_sources self !! enum_name))
  /\ (forall enum_name enum_items namespace source e,
        fst (register_enum self enum_name enum_items namespace source)
        = Raise e ->
        snd (register_enum self enum_name enum_items namespace source)
        = self).
Proof.
  intros H.
  assert (Hinv : dom (_enum_namespaces self) = dom (_enums self)
                 /\ dom (_enum_sources self) = dom (_enums self)
                 /\ forall n, is_Some (_enums self !! n) ->
                              is_valid_csharp_identifier n = true).
  { induction H as [|self n items ns src _ (IH1 & IH2 & IH3)].
    - cbn. rewrite !dom_empty_L. split; [reflexivity|]. split; [reflexivity|].
      intros n [x Hx]. rewrite lookup_empty in Hx. discriminate.
    - unfold register_enum.
      destruct (negb (is_valid_csharp_identifier n)) eqn:Ev;
        [cbn [snd]; exact (conj IH1 (conj IH2 IH3))|].
      destruct (_enums self !! n) as [existing|] eqn:E.
      { destruct (negb (bool_decide _)); cbn [snd];
          exact (conj IH1 (conj IH2 IH3)). }
      cbn [snd _enums _enum_namespaces _enum_sources].
      rewrite !dom_insert_L, IH1, IH2.
      split; [reflexivity|]. split; [reflexivity|].
      intros n' Hn'. destruct (decide (n' = n)) as [->|Hne].
      + now apply negb_false_iff in Ev.
      + rewrite lookup_insert_ne in Hn' by congruence. auto. }
  destruct Hinv as (H1 & H2 & H3).
  split; [exact H1|]. split; [exact H2|]. split.
  - intros n Hn. unfold has_enum in Hn. apply bool_decide_eq_true in Hn.
    split; [auto|].
    apply elem_of_dom in Hn. rewrite <- H1 in Hn at 1.
    split; [now apply elem_of_dom|].
    apply elem_of_dom in Hn. apply elem_of_dom.
    rewrite H2. rewrite <- H1. now apply elem_of_dom.
  - intros n items ns src e. unfold register_enum.
    destruct (negb (is_valid_csharp_identifier n)); [reflexivity|].
    destruct (_enums self !! n).
    + destruct (negb (bool_decide _)); reflexivity.
    + discriminate.
Qed.

End Registry.

Lemma register_enum_round_trip_witness :
  EnumRegistry.has_enum Examples.foo_registry "Foo" = true
  /\ EnumRegistry.get_enum_items Examples.foo_registry "Foo"
     = Ok Examples.foo_items
  /\ EnumRegistry.get_namespace Examples.foo_registry "Foo"
     = "Data.TableScript".
Proof.
  destruct (register_enum_round_trip EnumRegistry.new Examples.foo_registry
              "Foo" Examples.foo_items "Data.TableScript" "a.xlsx")
    as (H1 & H2 & H3 & _).
  - vm_compute. reflexivity.
  - exact (conj H1 (conj H2 H3)).
Defined.

Lemma registered_tables_agree_witness :
  dom (EnumRegistry._enum_namespaces Examples.foo_registry)
  = dom (EnumRegistry._enums Examples.foo_registry).
Proof.
  destruct (registered_tables_agree Examples.foo_registry) as (H1 & _).
  - exact (registered_step EnumRegistry.new "Foo" Examples.foo_items
             "Data.TableScript" "a.xlsx" registered_new).
  - exact H1.
Defined.

(* ===================================================================== *)
(** ** The two range checks side by side *)
(* ===================================================================== *)

Section CheckPolicies.
Context {fl : FloatOps}.
Local Open Scope list_scope.

Ltac run_check :=
  cbv [try_except bind lift raise ret Converters.warn_at log_warn emit
       Exception fst snd].

(** X3: the check of [data_processing.py] against the check of
    [parsing/data_processing.py], on the same arguments and log.  The
    strict one never logs and raises nothing but [ValueError]; it returns
    exactly when the lenient one returns without a warning; when the
    lenient one raises, the strict one raises the same error; and the
    lenient one logs at most one entry, a warning. *)
Theorem strict_check_iff_lenient_silent (type_str : string) (v raw : atom)
    (c : ctx) (l : log) :
  let strict :=
    DataProcessing._check_csharp_primitive_range type_str v raw c l in
  let lenient :=
    ParsingDataProcessing._check_csharp_primitive_range type_str v raw c l in
  snd strict = l
  /\ (forall e, fst strict = Raise e -> exists what, e = ValueError what)
  /\ (fst strict = Ok tt <-> lenient = (Ok tt, l))
  /\ (forall e, fst lenient = Raise e -> strict = (Raise e, l))
  /\ (exists ws, snd lenient = l ++ ws
                 /\ (ws = [] \/ exists w, ws = [w] /\ is_warn w = true)).
Proof.
  assert (Hne : forall (w : log_entry), l ++ [w] <> l).
  { intros w H. apply (f_equal (@length _)) in H.
    rewrite length_app in H. cbn in H. lia. }
  assert (Hnil : exists ws : log, l = l ++ ws
            /\ (ws = [] \/ exists w, ws = [w] /\ is_warn w = true)).
  { exists []. rewrite app_nil_r. auto. }
  assert (Hone : forall what row field,
            exists ws : log, l ++ [LogEntry WARN what row field] = l ++ ws
            /\ (ws = [] \/ exists w, ws = [w] /\ is_warn w = true)).
  { intros what row field. eexists. split; [reflexivity|].
    right. eexists. split; reflexivity. }
  unfold DataProcessing._check_csharp_primitive_range,
    ParsingDataProcessing._check_csharp_primitive_range.
  destruct (String.eqb type_str "int").
  { run_check. destruct (py_int v) as [ival|e0].
    - destruct (Z.ltb ival (-2147483648) || Z.gtb ival 2147483647).
      + repeat split; eauto; try discriminate.
        * intros e H. injection H as <-. eauto.
        * intros H. injection H as H. now apply Hne in H.
      + repeat split; eauto; try discriminate.
    - repeat split; eauto; try discriminate.
      + intros e H. injection H as <-. eauto.
      + intros e H. injection H as <-. reflexivity. }
  destruct (String.eqb type_str "float").
  { run_check. destruct (py_float v) as [fval|e0].
    - destruct (float_exceeds_single fval).
      + repeat split; eauto; try discriminate.
        * intros e H. injection H as <-. eauto.
        * intros H. injection H as H. now apply Hne in H.
      + repeat split; eauto; try discriminate.
    - repeat split; eauto; try discriminate.
      + intros e H. injection H as <-. eauto.
      + intros e H. injection H as <-. reflexivity. }
  destruct (String.eqb type_str "bool").
  { destruct (is_blank raw).
    - run_check. repeat split; eauto; try discriminate.
    - destruct (negb (existsb _ _)); run_check.
      + repeat split; eauto; try discriminate.
        * intros e H. injection H as <-. eauto.
        * intros H. injection H as H. now apply Hne in H.
      + repeat split; eauto; try discriminate. }
  destruct (existsb (String.eqb type_str) ["str"; "string"]).
  { destruct v as [| | | |s]; run_check;
      try (repeat split; eauto; discriminate).
    destruct (Z.ltb 65535 (Z.of_nat (String.length s))).
    - repeat split; eauto; try discriminate.
      + intros e H. injection H as <-. eauto.
      + intros H. injection H as H. now apply Hne in H.
    - repeat split; eauto; try discriminate. }
  run_check. repeat split; eauto; discriminate.
Qed.

End CheckPolicies.

Section ConvertEnum.
Context {fl : FloatOps}.
Import EnumRegistry ParsingDataProcessing.


End ConvertEnum.

(* ===================================================================== *)
(** ** Loops and sequences of the log monad *)
(* ===================================================================== *)

Section Monad.
Local Open Scope list_scope.

Lemma bind_ok {A B} (m : M A) (f : A -> M B) (l : log) (b : B) (l' : log) :
  bind m f l = (Ok b, l') ->
  exists a l1, m l = (Ok a, l1) /\ f a l1 = (Ok b, l').
Proof.
  unfold bind. destruct (m l) as [[a|e] l1]; [eauto|discriminate].
Qed.

(** What holds of the state and the log before a loop and is kept by
    every round that returns, holds after the loop when it returns. *)
Lemma for_fold_ok {A S} (P : S -> log -> Prop) (body : S -> A -> M S)
    (xs : list A) :
  (forall s x l s' l', In x xs -> P s l -> body s x l = (Ok s', l') ->
                       P s' l') ->
  forall s l s' l',
    P s l -> for_fold xs s body l = (Ok s', l') -> P s' l'.
Proof.
  induction xs as [|x xs IH]; intros Hstep s l s' l' HP H.
  - cbn in H. injection H as <- <-. exact HP.
  - cbn [for_fold] in H. apply bind_ok in H as (s1 & l1 & H1 & H2).
    apply (IH (fun s x l s' l' Hin => Hstep s x l s' l' (or_intror Hin))
              s1 l1 s' l'); [|exact H2].
    apply (Hstep s x l s1 l1); [now left|exact HP|exact H1].
Qed.

End Monad.

(* ===================================================================== *)
(** ** One run of the reference checks (validation/reference_checker.py) *)
(* ===================================================================== *)

Section RunChecks.
Context {fl : FloatOps}.
Import ReferenceChecker.
Local Open Scope list_scope.
Variable allow_int : list Z.
Variable allow_str : list string.

(** X5: a run that has checked a non-empty queue sets the flag, and from
    then on [run_checks] returns at once, whatever the exported files
    are: neither a second call nor a call after further
    [add_pending_check] logs anything or changes the checker, until
    [clear_pending_checks].  A run on an empty queue or on a checker
    whose flag is set does nothing at all. *)
Theorem run_checks_runs_once (load_json : string -> option json) (self self' : t)
    (l l' : log) :
  run_checks allow_int allow_str load_json self l = (Ok self', l') ->
  (_reference_checks_done self = true \/ _pending_ref_checks self = [] ->
   self' = self /\ l' = l)
  /\ (_reference_checks_done self = false -> _pending_ref_checks self <> [] ->
      _reference_checks_done self' = true
      /\ _pending_ref_checks self' = _pending_ref_checks self)
  /\ (forall load_json' l2,
        run_checks allow_int allow_str load_json' self' l2 = (Ok self', l2))
  /\ (_pending_ref_checks self <> [] ->
      forall load_json' item l2,
        run_checks allow_int allow_str load_json'
          (add_pending_check self' item) l2
        = (Ok (add_pending_check self' item), l2))
  /\ _reference_checks_done (clear_pending_checks self') = false.
Proof.
  unfold run_checks. intros H.
  destruct (_reference_checks_done self) eqn:Ed.
  { injection H as <- <-. rewrite Ed.
    repeat split; auto; try discriminate.
    intros _ lj item l2. cbn. rewrite Ed. reflexivity. }
  destruct (_pending_ref_checks self) as [|item0 items] eqn:Ep.
  { injection H as <- <-. rewrite Ed, Ep.
    repeat split; auto; try discriminate.
    intros Hne. now destruct Hne. }
  apply bind_ok in H as (st & l1 & _ & H).
  apply bind_ok in H as ([] & l2 & _ & H).
  cbv [ret] in H. injection H as <- <-. cbn.
  split; [intros [H|H]; discriminate|].
  repeat split; auto; discriminate.
Qed.

(** *** The local tables *)

(** The sheet has been looked for: it is known to be missing, or its
    object is held. *)
Definition resolved (tb : tables) (sheet : string) : Prop :=
  sheet ∈ json_missing tb
  \/ exists o, json_obj_cache tb !! sheet = Some (JObj o).

(** Every cached answer is for a sheet that has been looked for. *)
Definition consistent (tb : tables) : Prop :=
  forall sheet f v, cache tb !! (sheet, f) = Some v -> resolved tb sheet.

Lemma cache_put_lookup tb sheet field v key :
  cache (cache_put tb sheet field v) !! key
  = match field with
    | Some f => if decide (key = (sheet, f)) then Some v else cache tb !! key
    | None => cache tb !! key
    end.
Proof.
  destruct field as [f|]; cbn; [|reflexivity].
  destruct (decide (key = (sheet, f))) as [->|Hne].
  - apply lookup_insert_eq.
  - apply lookup_insert_ne. congruence.
Qed.

Lemma cache_put_other tb sheet field v :
  json_obj_cache (cache_put tb sheet field v) = json_obj_cache tb
  /\ json_missing (cache_put tb sheet field v) = json_missing tb.
Proof. destruct field; split; reflexivity. Qed.

Lemma resolved_cache_put tb sheet field v s :
  resolved (cache_put tb sheet field v) s <-> resolved tb s.
Proof.
  unfold resolved. destruct (cache_put_other tb sheet field v) as [-> ->].
  reflexivity.
Qed.

Lemma consistent_cache_put tb sheet field v :
  consistent tb -> resolved tb sheet ->
  consistent (cache_put tb sheet field v).
Proof.
  intros Hc Hr s f w H. apply resolved_cache_put.
  rewrite cache_put_lookup in H. destruct field as [f0|]; [|eauto].
  destruct (decide _) as [E|_]; [|eauto]. injection E as -> _. exact Hr.
Qed.

(** A lookup on a sheet that has been looked for does not read the
    exported files. *)
Lemma load_ref_set_resolved lj lj' tb sheet field :
  resolved tb sheet ->
  load_ref_set lj tb sheet field = load_ref_set lj' tb sheet field.
Proof.
  intros Hr. unfold load_ref_set.
  destruct (match field with Some f => cache tb !! (sheet, f) | None => None end);
    [reflexivity|].
  destruct (bool_decide (sheet ∈ json_missing tb)) eqn:Em; [reflexivity|].
  apply bool_decide_eq_false in Em.
  destruct Hr as [Hr|[o Ho]]; [contradiction|].
  rewrite Ho. reflexivity.
Qed.

(** X6: the tables of one run, from the empty tables on.  After a lookup
    that returns, the sheet has been looked for once and for all: asking
    again for the same column gives the same answer and leaves the tables
    as they are, and no later lookup of that sheet, for whatever column,
    reads the exported files again. *)
Theorem load_ref_set_reads_once (load_json : string -> option json)
    (tb tb' : tables) (sheet : string) (field : option string)
    (r : option ref_pack) :
  consistent tb ->
  load_ref_set load_json tb sheet field = Ok (r, tb') ->
  consistent tb'
  /\ load_ref_set load_json tb' sheet field = Ok (r, tb')
  /\ forall load_json' field',
       load_ref_set load_json' tb' sheet field'
       = load_ref_set load_json tb' sheet field'.
Proof.
  intros Hc H.
  assert (Hmain : consistent tb' /\ resolved tb' sheet
                  /\ load_ref_set load_json tb' sheet field = Ok (r, tb')).
  2:{ destruct Hmain as (H1 & H2 & H3). split; [exact H1|].
      split; [exact H3|]. intros lj' f'. now apply load_ref_set_resolved. }
  revert H. unfold load_ref_set at 1.
  destruct (match field with Some f => cache tb !! (sheet, f) | None => None end)
    as [hit|] eqn:Ehit.
  { intros H. injection H as <- <-.
    destruct field as [f|]; [|discriminate].
    split; [exact Hc|]. split; [eapply Hc; eauto|].
    unfold load_ref_set. rewrite Ehit. reflexivity. }
  destruct (bool_decide (sheet ∈ json_missing tb)) eqn:Em.
  { intros H. injection H as <- <-. apply bool_decide_eq_true in Em.
    assert (Hr : resolved tb sheet) by now left.
    split; [now apply consistent_cache_put|].
    split; [now apply resolved_cache_put|].
    unfold load_ref_set. destruct field as [f|].
    - rewrite cache_put_lookup, decide_True by reflexivity. reflexivity.
    - cbn [cache_put]. rewrite bool_decide_eq_true_2 by exact Em. reflexivity. }
  apply bool_decide_eq_false in Em.
  set (found := match json_obj_cache tb !! sheet with
                | Some (JAtom ANone) | None => _
                | Some obj => Some (obj, tb)
                end).
  assert (Hfound : forall obj tb1, found = Some (obj, tb1) ->
            cache tb1 = cache tb /\ json_missing tb1 = json_missing tb
            /\ json_obj_cache tb1 !! sheet = Some obj
            /\ (forall s o, json_obj_cache tb !! s = Some (JObj o) ->
                            s <> sheet ->
                            json_obj_cache tb1 !! s = Some (JObj o))).
  { intros obj tb1. subst found.
    assert (Hload : match load_json sheet with
                    | Some obj0 =>
                        Some (obj0, Tables (cache tb)
                                      (<[sheet := obj0]> (json_obj_cache tb))
                                      (json_missing tb))
                    | None => None
                    end = Some (obj, tb1) ->
            cache tb1 = cache tb /\ json_missing tb1 = json_missing tb
            /\ json_obj_cache tb1 !! sheet = Some obj
            /\ (forall s o, json_obj_cache tb !! s = Some (JObj o) ->
                            s <> sheet ->
                            json_obj_cache tb1 !! s = Some (JObj o))).
    { destruct (load_json sheet) as [obj0|]; [|discriminate].
      intros H. injection H as <- <-. cbn.
      rewrite lookup_insert_eq. repeat split; auto.
      intros s o Hs Hne. rewrite lookup_insert_ne by congruence. exact Hs. }
    destruct (json_obj_cache tb !! sheet) as [obj0|] eqn:Eo; [|exact Hload].
    destruct obj0 as [[| | | |]| |]; try exact Hload;
      intros H; injection H as <- <-; repeat split; auto. }
  destruct found as [[obj tb1]|] eqn:Ef.
  2:{ intros H. injection H as <- <-.
      set (tb1 := Tables (cache tb) (json_obj_cache tb)
                    ({[sheet]} ∪ json_missing tb)).
      assert (Hin : sheet ∈ json_missing tb1).
      { cbn. apply elem_of_union. left. now apply elem_of_singleton. }
      assert (Hr : resolved tb1 sheet) by now left.
      assert (Hc1 : consistent tb1).
      { intros s f v Hs. destruct (Hc s f v Hs) as [Hm|[o Ho]].
        - left. cbn. apply elem_of_union. now right.
        - right. eauto. }
      split; [now apply consistent_cache_put|].
      split; [now apply resolved_cache_put|].
      unfold load_ref_set. destruct field as [f|].
      - rewrite cache_put_lookup, decide_True by reflexivity. reflexivity.
      - cbn [cache_put]. rewrite bool_decide_eq_true_2 by exact Hin.
        reflexivity. }
  destruct (Hfound obj tb1 eq_refl) as (Hca & Hmi & Hob & Hkeep).
  destruct obj as [a|lst|o]; try discriminate.
  set (real_field := match field with
                     | None => _
                     | Some f => f
                     end).
  assert (Hr1 : resolved tb1 sheet) by (right; eauto).
  assert (Hc1 : consistent tb1).
  { intros s f v Hs. rewrite Hca in Hs.
    destruct (decide (s = sheet)) as [->|Hne]; [exact Hr1|].
    destruct (Hc s f v Hs) as [Hm|[o' Ho']].
    - left. now rewrite Hmi.
    - right. eauto. }
  (* what a second lookup finds in tables that hold the pack *)
  assert (Hagain : forall tb2 pack,
            json_obj_cache tb2 !! sheet = Some (JObj o) ->
            json_missing tb2 = json_missing tb ->
            cache tb2 !! (sheet, real_field) = Some pack ->
            (forall f, field = Some f -> cache tb2 !! (sheet, f) = Some pack) ->
            cache_put tb2 sheet field pack = tb2 ->
            load_ref_set load_json tb2 sheet field = Ok (pack, tb2)).
  { intros tb2 pack Ho2 Hm2 Hrf Hf Hput. unfold load_ref_set.
    destruct field as [f|].
    - rewrite (Hf f eq_refl). reflexivity.
    - rewrite bool_decide_eq_false_2 by (rewrite Hm2; exact Em).
      rewrite Ho2. fold real_field. rewrite Hrf. now rewrite Hput. }
  destruct (cache tb1 !! (sheet, real_field)) as [hit|] eqn:Erf.
  { intros H. injection H as <- <-.
    split; [now apply consistent_cache_put|].
    split; [now apply resolved_cache_put|].
    apply Hagain.
    - destruct (cache_put_other tb1 sheet field hit) as [-> _]. exact Hob.
    - destruct (cache_put_other tb1 sheet field hit) as [_ ->]. exact Hmi.
    - rewrite cache_put_lookup. destruct field as [f|]; [|exact Erf].
      destruct (decide _); [reflexivity|exact Erf].
    - intros f ->. rewrite cache_put_lookup.
      now rewrite decide_True by reflexivity.
    - destruct field as [f|]; [|reflexivity]. cbn.
      rewrite insert_insert_eq. reflexivity. }
  destruct (build_set_for o real_field) as [vb|e]; [|discriminate].
  cbn [res_bind]. intros H. injection H as <- <-.
  set (pack := Some (fst vb, snd vb, real_field)).
  set (tb2 := Tables (<[(sheet, real_field) := pack]> (cache tb1))
                (json_obj_cache tb1) (json_missing tb1)).
  assert (Hr2 : resolved tb2 sheet) by (right; eauto).
  assert (Hc2 : consistent tb2).
  { intros s f v Hs. cbn in Hs.
    destruct (decide ((s, f) = (sheet, real_field))) as [E|Hne].
    - injection E as -> _. exact Hr2.
    - rewrite lookup_insert_ne in Hs by congruence.
      destruct (Hc1 s f v Hs) as [Hm|[o' Ho']]; [now left|right; eauto]. }
  split; [now apply consistent_cache_put|].
  split; [now apply resolved_cache_put|].
  apply Hagain.
  - destruct (cache_put_other tb2 sheet field pack) as [-> _]. exact Hob.
  - destruct (cache_put_other tb2 sheet field pack) as [_ ->]. exact Hmi.
  - rewrite cache_put_lookup. destruct field as [f|].
    + destruct (decide _); [reflexivity|]. cbn. apply lookup_insert_eq.
    + cbn. apply lookup_insert_eq.
  - intros f ->. rewrite cache_put_lookup.
    now rewrite decide_True by reflexivity.
  - destruct field as [f|]; [|reflexivity]. cbn.
    rewrite insert_insert_eq. reflexivity.
Qed.

End RunChecks.

Lemma run_checks_runs_once_witness :
  exists self' l',
    ReferenceChecker.run_checks [0] [""] Examples.only_B Examples.refs_checker []
    = (Ok self', l')
    /\ ReferenceChecker._reference_checks_done self' = true
    /\ forall l2,
         ReferenceChecker.run_checks [0] [""] (fun _ => None) self' l2
         = (Ok self', l2).
Proof.
  eexists _, _. split; [vm_compute; reflexivity|].
  destruct (run_checks_runs_once [0] [""] Examples.only_B Examples.refs_checker _ [] _
              ltac:(vm_compute; reflexivity)) as (_ & H2 & H3 & _).
  split; [apply H2; [reflexivity|discriminate]|intros l2; apply H3].
Defined.

Lemma load_ref_set_reads_once_witness :
  exists r tb',
    ReferenceChecker.load_ref_set Examples.only_B ReferenceChecker.no_tables
      "B" (Some "id") = Ok (r, tb')
    /\ ReferenceChecker.load_ref_set (fun _ => None) tb' "B" (Some "id")
       = Ok (r, tb').
Proof.
  eexists _, _. split; [vm_compute; reflexivity|].
  assert (Hc : consistent (fl:=ZFloat) ReferenceChecker.no_tables).
  { intros sheet f v H. cbn in H. rewrite lookup_empty in H. discriminate. }
  destruct (load_ref_set_reads_once Examples.only_B ReferenceChecker.no_tables _
              "B" (Some "id") _ Hc ltac:(vm_compute; reflexivity))
    as (_ & H2 & H3).
  rewrite H3. exact H2.
Defined.

Section SummaryLineIff.
Context {fl : FloatOps}.
Import ReferenceChecker.
Local Open Scope list_scope.
Variable allow_int : list Z.
Variable allow_str : list string.
Variable load_json : string -> option json.

(** The two errors that set [any_error]: a referenced value that the
    target column does not hold, and a declared base type that differs
    from the one of the target column. *)
Definition sets_any_error (e : log_entry) : bool :=
  is_error e
  && (String.eqb (log_what e)
        "the referenced value does not exist in the target"
      || String.eqb (log_what e) "reference type mismatch").

(** [added] is what the run has logged so far. *)
Definition any_error_is (l0 : log) (any_error : bool) (l : log) : Prop :=
  exists added, l = l0 ++ added
    /\ existsb sets_any_error added = any_error
    /\ existsb is_success_line added = false.

Lemma any_error_is_log l0 any_error l e :
  any_error_is l0 any_error l -> is_success_line e = false ->
  any_error_is l0 (any_error || sets_any_error e) (l ++ [e]).
Proof.
  intros (added & -> & H1 & H2) He. exists (added ++ [e]).
  split; [now rewrite app_assoc|].
  rewrite !existsb_app. cbn [existsb]. rewrite H1, H2, He, !orb_false_r.
  auto.
Qed.

Lemma any_error_is_counted l0 any_error l e :
  any_error_is l0 any_error l -> is_success_line e = false ->
  sets_any_error e = true -> any_error_is l0 true (l ++ [e]).
Proof.
  intros HJ He Hs. rewrite <- (orb_true_r any_error), <- Hs.
  now apply any_error_is_log.
Qed.

Lemma any_error_is_other l0 any_error l e :
  any_error_is l0 any_error l -> is_success_line e = false ->
  sets_any_error e = false -> any_error_is l0 any_error (l ++ [e]).
Proof.
  intros HJ He Hs. rewrite <- (orb_false_r any_error), <- Hs.
  now apply any_error_is_log.
Qed.

Lemma check_one_any_error l0 item pack any_error v expected_base l
    any_error' l' :
  check_one allow_int allow_str item pack any_error v expected_base l
  = (Ok any_error', l') ->
  any_error_is l0 any_error l -> any_error_is l0 any_error' l'.
Proof.
  unfold check_one. destruct pack as [[ref_values ref_base] ref_real_field].
  intros H HJ.
  destruct (_is_empty_ref _ _ v _).
  { cbv [ret] in H. injection H as <- <-. exact HJ. }
  destruct (nonempty expected_base && negb (value_type_ok _ v)).
  { cbv [bind log_error emit ret] in H. injection H as <- <-.
    now apply any_error_is_other. }
  destruct v as [a|lst|d]; try discriminate.
  destruct (negb (set_mem a ref_values)).
  - cbv [bind log_error emit ret] in H. injection H as <- <-.
    now apply (any_error_is_counted l0 any_error).
  - cbv [ret] in H. injection H as <- <-. exact HJ.
Qed.

Lemma check_item_any_error l0 tb any_error item l tb' any_error' l' :
  check_item allow_int allow_str load_json (tb, any_error) item l
  = (Ok (tb', any_error'), l') ->
  any_error_is l0 any_error l -> any_error_is l0 any_error' l'.
Proof.
  unfold check_item. intros H HJ.
  apply bind_ok in H as ([found tb1] & l1 & H1 & H).
  cbv [lift] in H1. injection H1 as H1 <-.
  destruct found as [pack|].
  2:{ cbv [bind log_warn emit ret] in H. injection H as <- <- <-.
      now apply any_error_is_other. }
  destruct pack as [[ref_values ref_base] ref_real_field].
  apply bind_ok in H as (ae1 & l2 & H2 & H).
  apply bind_ok in H as (ae2 & l3 & H3 & H).
  cbv [ret] in H. injection H as <- <- <-.
  assert (HJ1 : any_error_is l0 ae1 l2).
  { destruct (nonempty (base item) && nonempty ref_base
              && negb (bool_decide (base item = ref_base))).
    - cbv [bind log_error emit ret] in H2. injection H2 as <- <-.
      now apply (any_error_is_counted l0 any_error).
    - cbv [ret] in H2. injection H2 as <- <-. exact HJ. }
  destruct (String.eqb (kind item) "scalar").
  { eapply check_one_any_error; eauto. }
  destruct (String.eqb (kind item) "list").
  2:{ cbv [ret] in H3. injection H3 as <- <-. exact HJ1. }
  destruct (value item) as [a|lst|d].
  - cbv [bind log_error emit ret] in H3. injection H3 as <- <-.
    now apply any_error_is_other.
  - revert H3. apply (for_fold_ok (any_error_is l0)); [|exact HJ1].
    intros s x la s' la' _ Hs Hx. eapply check_one_any_error; eauto.
  - cbv [bind log_error emit ret] in H3. injection H3 as <- <-.
    now apply any_error_is_other.
Qed.

(** X7: what decides the summary line.  A run over a non-empty queue
    that returns has logged the success line exactly when it has logged
    neither a missing reference nor a mismatch of the declared base
    type; the other errors (a value that is not of the expected type, a
    value that is no list) and the warnings do not count. *)
Theorem success_line_iff_no_counted_error (self self' : t) (l l' : log) :
  _reference_checks_done self = false ->
  _pending_ref_checks self <> [] ->
  run_checks allow_int allow_str load_json self l = (Ok self', l') ->
  exists added,
    l' = l ++ added
    /\ existsb is_success_line added = negb (existsb sets_any_error added).
Proof.
  intros Hd Hp H. unfold run_checks in H. rewrite Hd in H.
  destruct (_pending_ref_checks self) as [|item0 items] eqn:Ep;
    [now destruct Hp|].
  apply bind_ok in H as ([tb any_error] & l1 & H1 & H).
  apply bind_ok in H as ([] & l2 & H2 & H).
  cbv [ret] in H. injection H as _ <-.
  assert (HJ : any_error_is l any_error l1).
  { revert H1.
    apply (for_fold_ok (fun st l1 => any_error_is l (snd st) l1)).
    - intros [tb0 ae0] x la [tb1 ae1] la' _ Hs Hx. cbn [snd] in *.
      eapply check_item_any_error; eauto.
    - exists []. rewrite app_nil_r. auto. }
  destruct HJ as (added & -> & HA & HS). cbn [snd] in H2.
  destruct any_error; cbn [negb] in H2.
  - cbv [ret] in H2. injection H2 as <-. exists added.
    rewrite HA, HS. auto.
  - cbv [log_info emit] in H2. injection H2 as <-.
    eexists. rewrite <- app_assoc. split; [reflexivity|].
    rewrite !existsb_app, HA, HS. reflexivity.
Qed.

(** *** A queue whose targets are all missing *)

Definition not_found_warning (item : PendingCheck) : log_entry :=
  LogEntry WARN "the JSON of the target sheet was not found, check skipped"
    (Some (excel_row item)) (field_name item).

(** No object is held and every cached answer is "missing". *)
Definition nothing_found (tb : tables) : Prop :=
  json_obj_cache tb = ∅ /\ forall k v, cache tb !! k = Some v -> v = None.

Lemma nothing_found_cache_put tb sheet field :
  nothing_found tb -> nothing_found (cache_put tb sheet field None).
Proof.
  intros [H1 H2]. split.
  - destruct (cache_put_other tb sheet field None) as [-> _]. exact H1.
  - intros k v. rewrite cache_put_lookup. destruct field as [f|]; [|apply H2].
    destruct (decide _); [congruence|apply H2].
Qed.

Lemma load_ref_set_missing tb sheet field :
  nothing_found tb -> load_json sheet = None ->
  exists tb', load_ref_set load_json tb sheet field = Ok (None, tb')
              /\ nothing_found tb'.
Proof.
  intros Hn Hl. unfold load_ref_set.
  destruct (match field with Some f => cache tb !! (sheet, f) | None => None end)
    as [hit|] eqn:Ehit.
  { destruct field as [f|]; [|discriminate].
    rewrite (proj2 Hn _ _ Ehit). eauto. }
  destruct (bool_decide (sheet ∈ json_missing tb)).
  { eexists. split; [reflexivity|]. now apply nothing_found_cache_put. }
  rewrite (proj1 Hn), lookup_empty, Hl.
  eexists. split; [reflexivity|]. apply nothing_found_cache_put.
  destruct Hn as [H1 H2]. split; [reflexivity|exact H2].
Qed.

Lemma check_items_missing items : forall tb any_error l,
  nothing_found tb ->
  (forall item, In item items -> load_json (ref_sheet item) = None) ->
  exists tb',
    for_fold items (tb, any_error)
      (check_item allow_int allow_str load_json) l
    = (Ok (tb', any_error), l ++ map not_found_warning items).
Proof.
  induction items as [|item items IH]; intros tb any_error l Hn Hm.
  - exists tb. cbn. now rewrite app_nil_r.
  - destruct (load_ref_set_missing tb (ref_sheet item) (ref_field item) Hn)
      as (tb1 & H1 & Hn1); [apply Hm; now left|].
    destruct (IH tb1 any_error (l ++ [not_found_warning item]) Hn1)
      as (tb2 & H2); [intros i Hi; apply Hm; now right|].
    exists tb2. cbn [for_fold map]. unfold bind at 1.
    unfold check_item at 1. unfold bind at 1, lift. rewrite H1.
    cbv [bind log_warn emit ret]. fold (not_found_warning item).
    rewrite H2, <- app_assoc. reflexivity.
Qed.

(** X8: when none of the target sheets of the queue has an exported
    file, a run logs one warning for each queued check, in the order of
    the queue, and then the success line; it returns with the flag set. *)
Theorem missing_targets_warn_then_succeed (self : t) (l : log) :
  _reference_checks_done self = false ->
  _pending_ref_checks self <> [] ->
  (forall item, In item (_pending_ref_checks self) ->
     load_json (ref_sheet item) = None) ->
  run_checks allow_int allow_str load_json self l
  = (Ok (Build (sheet_name self) (source_file self)
           (_pending_ref_checks self) (_ref_dict_warned_cols self) true),
     l ++ map not_found_warning (_pending_ref_checks self)
       ++ [LogEntry INFO success_line None (sheet_name self)]).
Proof.
  intros Hd Hp Hm. unfold run_checks. rewrite Hd.
  destruct (_pending_ref_checks self) as [|item0 items] eqn:Ep;
    [now destruct Hp|].
  destruct (check_items_missing (item0 :: items) no_tables false l)
    as (tb' & H); [split; [reflexivity|]|exact Hm|].
  { intros k v Hk. cbn in Hk. rewrite lookup_empty in Hk. discriminate. }
  unfold bind at 1. rewrite H. cbn [snd negb].
  cbv [bind log_info emit ret]. rewrite <- app_assoc. reflexivity.
Qed.

End SummaryLineIff.

Lemma success_line_iff_no_counted_error_witness :
  exists self' added,
    ReferenceChecker.run_checks [0] [""] Examples.only_B Examples.refs_checker []
    = (Ok self', added)
    /\ existsb is_success_line added = negb (existsb sets_any_error added).
Proof.
  eexists _, _. split; [vm_compute; reflexivity|].
  destruct (success_line_iff_no_counted_error [0] [""] Examples.only_B Examples.refs_checker
              _ [] _ eq_refl ltac:(discriminate)
              ltac:(vm_compute; reflexivity)) as [added [E H]].
  cbn [app] in E. rewrite E. exact H.
Defined.

Lemma missing_targets_warn_then_succeed_witness :
  snd (ReferenceChecker.run_checks [0] [""] (fun _ => None) Examples.refs_checker [])
  = [not_found_warning Examples.refs_check;
     LogEntry INFO ReferenceChecker.success_line None "A"].
Proof.
  rewrite (missing_targets_warn_then_succeed [0] [""] (fun _ => None)
             Examples.refs_checker [] eq_refl ltac:(discriminate)
             (fun _ _ => eq_refl)).
  reflexivity.
Defined.

(* ===================================================================== *)
(** ** Matching a pattern against a text of known shape *)
(* ===================================================================== *)

Section Greedy.
Import Re PyStr.
Local Open Scope list_scope.
Local Open Scope nat_scope.

Lemma chars_of_chars (l : list ascii) : chars (of_chars l) = l.
Proof. apply list_ascii_of_string_of_list_ascii. Qed.

Lemma of_chars_chars (s : string) : of_chars (chars s) = s.
Proof. apply string_of_list_ascii_of_string. Qed.





Lemma take_drop_while (p : ascii -> bool) (l : list ascii) :
  take_while p l ++ drop_while p l = l.
Proof.
  induction l as [|c l IH]; cbn; [reflexivity|].
  destruct (p c); cbn; [now rewrite IH|reflexivity].
Qed.


Lemma drop_while_head (p : ascii -> bool) (l : list ascii) :
  match drop_while p l with
  | [] => True
  | x :: _ => p x = false
  end.
Proof.
  induction l as [|c l IH]; cbn; [exact I|].
  destruct (p c) eqn:E; [exact IH|exact E].
Qed.

Lemma drop_while_none (p : ascii -> bool) (l : list ascii) :
  match l with [] => True | x :: _ => p x = false end ->
  drop_while p l = l.
Proof. destruct l as [|x l]; cbn; [reflexivity|]. now intros ->. Qed.





(** A starred class whose next character is not of the class takes
    nothing. *)
Lemma star_skip (ic : bool) (c : cls) (pos : nat) (s : list ascii) (m : caps)
    (k : nat -> list ascii -> caps -> option caps) :
  match s with [] => True | x :: _ => cls_match ic c x = false end ->
  rmatch ic (Star c) pos s m k = k pos s m.
Proof.
  intros H. cbn [rmatch].
  assert (E : take_while (cls_match ic c) s = []).
  { destruct s as [|x s]; cbn; [reflexivity|]. now rewrite H. }
  rewrite E. cbn [length try_down Nat.ltb Nat.leb].
  rewrite Nat.add_0_r, drop_0. now destruct (k pos s m).
Qed.







End Greedy.

Section FieldPrefixes.
Import Re PyStr FieldParser.
Local Open Scope list_scope.
Local Open Scope nat_scope.

Lemma rmatch_seq ic r1 r2 pos s m k :
  rmatch ic (Seq r1 r2) pos s m k
  = rmatch ic r1 pos s m (fun pos' s' m' => rmatch ic r2 pos' s' m' k).
Proof. reflexivity. Qed.

Lemma rmatch_bos ic s m k : rmatch ic Bos 0 s m k = k 0 s m.
Proof. reflexivity. Qed.

Lemma rmatch_chr ic c pos x s m k :
  cls_match ic c x = true -> rmatch ic (Chr c) pos (x :: s) m k = k (S pos) s m.
Proof. intros H. cbn [rmatch]. now rewrite H. Qed.

Lemma rmatch_chr_fail ic c pos x s m k :
  cls_match ic c x = false -> rmatch ic (Chr c) pos (x :: s) m k = None.
Proof. intros H. cbn [rmatch]. now rewrite H. Qed.

(** One step of a match on a text whose next character is known. *)
Ltac step :=
  first [ rewrite rmatch_seq
        | rewrite rmatch_bos
        | rewrite rmatch_chr by reflexivity
        | rewrite rmatch_chr_fail by reflexivity
        | rewrite star_skip by reflexivity ];
  cbv beta.




End FieldPrefixes.

Section BracketPrefixes.
Import Re PyStr FieldParser.
Local Open Scope list_scope.
Local Open Scope nat_scope.

Ltac step :=
  first [ rewrite rmatch_seq
        | rewrite rmatch_bos
        | rewrite rmatch_chr by reflexivity
        | rewrite rmatch_chr_fail by reflexivity
        | rewrite star_skip by reflexivity ];
  cbv beta.










End BracketPrefixes.

(* ===================================================================== *)
(** ** The prefixes of a field name (parsing/field_parser.py) *)
(* ===================================================================== *)

Section PrefixRoundTrips.
Import Re PyStr FieldParser.

Ltac step :=
  first [ rewrite rmatch_seq
        | rewrite rmatch_bos
        | rewrite rmatch_chr by reflexivity
        | rewrite rmatch_chr_fail by reflexivity
        | rewrite star_skip by reflexivity ];
  cbv beta.





(** What [parse_key_prefix] finds, [extract_actual_field_name] returns. *)
Lemma parse_key_prefix_extract (raw tag real : string) :
  parse_key_prefix raw = Ok (Some (tag, real)) ->
  extract_actual_field_name raw = Ok real.
Proof.
  unfold parse_key_prefix, extract_actual_field_name.
  destruct (Re.re_match true KEY1_PREFIX_RE raw) as [m1|].
  { destruct (TypeUtils.group_strip m1 1); cbn; congruence. }
  destruct (Re.re_match true KEY2_PREFIX_RE raw) as [m2|]; [|discriminate].
  destruct (TypeUtils.group_strip m2 1); cbn; congruence.
Qed.




End PrefixRoundTrips.




(* ===================================================================== *)
(** ** The annotations that [__init__] records (core/worksheet_data.py) *)
(* ===================================================================== *)

Section InitSpecs.
Context {fl : FloatOps}.
Import WorksheetData FieldParser.
Local Open Scope list_scope.
Variable field_names data_labels : list atom.

(** Column [i] is not the first one, is not labelled [ignore] and has
    the text [raw] as its field name. *)
Definition annotated (i : nat) (raw : string) : Prop :=
  (0 < i)%nat
  /\ field_names !! i = Some (AStr raw)
  /\ exists label, data_labels !! i = Some label
                   /\ atom_eqb label (AStr "ignore") = false.

Definition asset_column (i : nat) (ext : option string) : Prop :=
  exists raw name, annotated i raw
                   /\ parse_asset_prefix raw = Ok (Some (name, ext)).

Definition ref_column (i : nat) (sf : string * option string) : Prop :=
  exists raw, annotated i raw
              /\ parse_asset_prefix raw = Ok None
              /\ parse_ref_prefix raw = Ok (Some sf).

(** What the loop has recorded after the first [n] columns. *)
Definition specs_upto (n : nat)
    (st : gmap nat (option string) * gmap nat (string * option string))
  : Prop :=
  (forall i ext, fst st !! i = Some ext <-> (i < n)%nat /\ asset_column i ext)
  /\ (forall i sf, snd st !! i = Some sf <-> (i < n)%nat /\ ref_column i sf).

Lemma nth_error_lookup {A} (lst : list A) : forall i,
  nth_error lst i = lst !! i.
Proof. induction lst as [|a lst IH]; intros [|i]; cbn; auto. Qed.

Lemma index_lookup (lst : list atom) (i : nat) (a : atom) :
  index lst i = Ok a <-> lst !! i = Some a.
Proof.
  unfold index. rewrite nth_error_lookup.
  destruct (lst !! i); split; congruence.
Qed.

Lemma annotated_inj i raw raw' :
  annotated i raw -> annotated i raw' -> raw = raw'.
Proof. intros (_ & H & _) (_ & H' & _). congruence. Qed.

Lemma specs_step n x st st' :
  field_names !! n = Some x ->
  specs_upto n st ->
  collect_specs_step data_labels st (Z.of_nat n, x) = Ok st' ->
  specs_upto (S n) st'.
Proof.
  intros Hx [HA HR]. destruct st as [asset_specs ref_specs].
  unfold collect_specs_step. rewrite Nat2Z.id. cbn [fst snd] in *.
  (* a column that records nothing *)
  assert (Hskip : (forall raw, ~ annotated n raw) ->
                  specs_upto (S n) (asset_specs, ref_specs)).
  { intros Hno. split; cbn [fst snd]; intros i v.
    - rewrite HA. split; [intros [H1 H2]; split; [lia|exact H2]|].
      intros [H1 H2]. split; [|exact H2].
      destruct (decide (i = n)) as [->|]; [|lia].
      destruct H2 as (raw & name & Ha & _). now destruct (Hno raw).
    - rewrite HR. split; [intros [H1 H2]; split; [lia|exact H2]|].
      intros [H1 H2]. split; [|exact H2].
      destruct (decide (i = n)) as [->|]; [|lia].
      destruct H2 as (raw & Ha & _). now destruct (Hno raw). }
  destruct (Nat.eqb_spec n 0) as [->|Hn0].
  { intros H. injection H as <-. apply Hskip.
    intros raw (Hlt & _). lia. }
  destruct (index data_labels n) as [label|e] eqn:El; [|discriminate].
  apply index_lookup in El. cbn [res_bind].
  destruct (atom_eqb label (AStr "ignore")) eqn:Eig.
  { intros H. injection H as <-. apply Hskip.
    intros raw (_ & _ & label' & Hl & Hig). congruence. }
  destruct x as [| | | |raw];
    try (intros H; injection H as <-; apply Hskip;
         intros raw' (_ & Hf & _); congruence).
  assert (Hann : annotated n raw).
  { split; [lia|]. split; [exact Hx|eauto]. }
  destruct (parse_asset_prefix raw) as [asset_result|e] eqn:Ea;
    [|discriminate].
  cbn [res_bind]. destruct asset_result as [[name ext]|].
  { intros H. injection H as <-. split; cbn [fst snd]; intros i v.
    - destruct (decide (i = n)) as [->|Hne].
      + rewrite lookup_insert_eq. split.
        * intros H. injection H as <-. split; [lia|]. exists raw, name. auto.
        * intros (_ & raw' & name' & Ha' & Hp').
          rewrite (annotated_inj n raw' raw Ha' Hann), Ea in Hp'. congruence.
      + rewrite lookup_insert_ne by congruence. rewrite HA.
        split; intros [H1 H2]; (split; [lia|exact H2]).
    - rewrite HR. split; [intros [H1 H2]; split; [lia|exact H2]|].
      intros [H1 H2]. split; [|exact H2].
      destruct (decide (i = n)) as [->|]; [|lia].
      destruct H2 as (raw' & Ha' & Hp' & _).
      rewrite (annotated_inj n raw' raw Ha' Hann), Ea in Hp'. discriminate. }
  destruct (parse_ref_prefix raw) as [ref_result|e] eqn:Er; [|discriminate].
  cbn [res_bind]. destruct ref_result as [[sheet field]|].
  - intros H. injection H as <-. split; cbn [fst snd]; intros i v.
    + rewrite HA. split; [intros [H1 H2]; split; [lia|exact H2]|].
      intros [H1 H2]. split; [|exact H2].
      destruct (decide (i = n)) as [->|]; [|lia].
      destruct H2 as (raw' & name' & Ha' & Hp').
      rewrite (annotated_inj n raw' raw Ha' Hann), Ea in Hp'. discriminate.
    + destruct (decide (i = n)) as [->|Hne].
      * rewrite lookup_insert_eq. split.
        -- intros H. injection H as <-. split; [lia|]. exists raw. auto.
        -- intros (_ & raw' & Ha' & _ & Hp').
           rewrite (annotated_inj n raw' raw Ha' Hann), Er in Hp'. congruence.
      * rewrite lookup_insert_ne by congruence. rewrite HR.
        split; intros [H1 H2]; (split; [lia|exact H2]).
  - intros H. injection H as <-. split; cbn [fst snd]; intros i v.
    + rewrite HA. split; [intros [H1 H2]; split; [lia|exact H2]|].
      intros [H1 H2]. split; [|exact H2].
      destruct (decide (i = n)) as [->|]; [|lia].
      destruct H2 as (raw' & name' & Ha' & Hp').
      rewrite (annotated_inj n raw' raw Ha' Hann), Ea in Hp'. discriminate.
    + rewrite HR. split; [intros [H1 H2]; split; [lia|exact H2]|].
      intros [H1 H2]. split; [|exact H2].
      destruct (decide (i = n)) as [->|]; [|lia].
      destruct H2 as (raw' & Ha' & _ & Hp').
      rewrite (annotated_inj n raw' raw Ha' Hann), Er in Hp'. discriminate.
Qed.

Lemma specs_loop xs : forall pre st st',
  field_names = pre ++ xs ->
  specs_upto (length pre) st ->
  res_fold (enumerate (Z.of_nat (length pre)) xs) st
    (collect_specs_step data_labels) = Ok st' ->
  specs_upto (length field_names) st'.
Proof.
  induction xs as [|x xs IH]; intros pre st st' Hf Hst H.
  - cbn in H. injection H as <-. now rewrite Hf, app_nil_r.
  - cbn [enumerate res_fold] in H.
    destruct (collect_specs_step data_labels st (Z.of_nat (length pre), x))
      as [st1|e] eqn:E1; [|discriminate].
    cbn [res_bind] in H.
    apply (IH (pre ++ [x]) st1 st').
    + now rewrite <- app_assoc.
    + rewrite length_app. cbn [length]. rewrite Nat.add_1_r.
      apply (specs_step (length pre) x st); auto.
      rewrite Hf. now rewrite lookup_app_r, Nat.sub_diag by lia.
    + rewrite length_app. cbn [length].
      replace (Z.of_nat (length pre + 1)) with (Z.of_nat (length pre) + 1)
        by lia.
      exact H.
Qed.

(** X12: what [__init__] records about the columns.  A column gets an
    entry in [_asset_specs] exactly when it is not the first one, is not
    labelled [ignore] and its field name has the prefix of an asset; it
    gets an entry in [_ref_specs] exactly when, besides, its name has not
    the prefix of an asset but that of a reference.  So no column is in
    both tables: a name such as [[Asset]Icon], which the pattern of
    references matches too, is an asset and never a reference to a sheet
    called Asset. *)
Theorem init_specs_records (asset_specs : gmap nat (option string))
    (ref_specs : gmap nat (string * option string)) :
  init_specs field_names data_labels = Ok (asset_specs, ref_specs) ->
  (forall i ext, asset_specs !! i = Some ext <-> asset_column i ext)
  /\ (forall i sf, ref_specs !! i = Some sf <-> ref_column i sf)
  /\ (forall i, is_Some (asset_specs !! i) -> ref_specs !! i = None).
Proof.
  intros H. unfold init_specs in H.
  destruct (specs_loop field_names [] (∅, ∅) (asset_specs, ref_specs)
              eq_refl) as [HA HR]; [|exact H|].
  { split; intros i v; cbn [fst snd]; rewrite lookup_empty;
      (split; [discriminate|intros [Hlt _]; cbn in Hlt; lia]). }
  cbn [fst snd] in *.
  assert (Hlen : forall i raw, annotated i raw ->
                               (i < length field_names)%nat).
  { intros i raw (_ & Hf & _). now apply lookup_lt_Some in Hf. }
  assert (HA' : forall i ext, asset_specs !! i = Some ext <-> asset_column i ext).
  { intros i ext. rewrite HA. split; [now intros [_ H2]|].
    intros H2. split; [|exact H2].
    destruct H2 as (raw & name & Ha & _). eauto. }
  assert (HR' : forall i sf, ref_specs !! i = Some sf <-> ref_column i sf).
  { intros i sf. rewrite HR. split; [now intros [_ H2]|].
    intros H2. split; [|exact H2]. destruct H2 as (raw & Ha & _). eauto. }
  split; [exact HA'|]. split; [exact HR'|].
  intros i [ext Hi]. apply HA' in Hi as (raw & name & Ha & Hp).
  destruct (ref_specs !! i) as [sf|] eqn:Er; [|reflexivity].
  apply HR' in Er as (raw' & Ha' & Hp' & _).
  rewrite (annotated_inj i raw' raw Ha' Ha), Hp in Hp'. discriminate.
Qed.

End InitSpecs.

Lemma init_specs_records_witness :
  exists asset_specs ref_specs,
    WorksheetData.init_specs Sheets.marked_names [ANone; ANone; ANone]
    = Ok (asset_specs, ref_specs)
    /\ asset_specs !! 1%nat = Some (Some "png")
    /\ ref_specs !! 1%nat = None.
Proof.
  eexists _, _. split; [vm_compute; reflexivity|].
  split; [vm_compute; reflexivity|].
  destruct (init_specs_records Sheets.marked_names [ANone; ANone; ANone] _ _
              ltac:(vm_compute; reflexivity)) as (_ & _ & H).
  apply H. vm_compute. eauto.
Defined.

Section CompositeDetection.
Context {fl : FloatOps}.
Import WorksheetData FieldParser PyStr.

(** X13: when [__init__] finds composite keys, the two real names it
    keeps for the generated lookup are the actual field names of the
    columns 1 and 2, under which [generate_json] writes the two keys, and
    neither is empty; the type cells of the two columns are texts that
    hold [int]. *)
Theorem composite_key_fields_are_actual_names (self : t)
    (real1 real2 : string) :
  _detect_composite_keys_with_prefixes_in_first_two_columns self
  = (true, Some (real1, real2)) ->
  _actual_field_name self 1 = Ok real1
  /\ _actual_field_name self 2 = Ok real2
  /\ real1 <> "" /\ real2 <> ""
  /\ exists dt1 dt2,
       data_types self !! 1%nat = Some (AStr dt1)
       /\ data_types self !! 2%nat = Some (AStr dt2)
       /\ contains_sub "int" (lower (strip dt1)) = true
       /\ contains_sub "int" (lower (strip dt2)) = true.
Proof.
  unfold _detect_composite_keys_with_prefixes_in_first_two_columns,
    _actual_field_name.
  destruct (length (field_names self) <=? 2)%nat; [discriminate|].
  destruct (index (field_names self) 1) as [f1|e]; [|discriminate].
  destruct (index (field_names self) 2) as [f2|e]; [|discriminate].
  cbn [res_bind].
  destruct f1 as [| | | |f1]; try discriminate.
  destruct f2 as [| | | |f2]; try discriminate.
  destruct (parse_key_prefix f1) as [[[tag1 r1]|]|e] eqn:E1;
    cbn [res_bind]; try discriminate;
    destruct (parse_key_prefix f2) as [[[tag2 r2]|]|e'] eqn:E2;
    cbn [res_bind]; try discriminate.
  destruct (negb (String.eqb tag1 "key1" && String.eqb tag2 "key2"));
    [discriminate|].
  rewrite <- !nth_error_lookup.
  destruct (nth_error (data_types self) 1) as [[| | | |dt1]|];
    cbn [from_option id]; try discriminate.
  destruct (nth_error (data_types self) 2) as [[| | | |dt2]|];
    cbn [from_option id]; try discriminate.
  destruct (contains_sub "int" (lower (strip dt1))) eqn:Ec1;
    cbn [andb negb]; [|discriminate].
  destruct (contains_sub "int" (lower (strip dt2))) eqn:Ec2;
    cbn [andb negb]; [|discriminate].
  destruct (String.eqb_spec r1 "") as [|Hr1]; [discriminate|].
  destruct (String.eqb_spec r2 "") as [|Hr2]; [discriminate|].
  cbn [orb]. intros H. injection H as <- <-.
  rewrite (parse_key_prefix_extract f1 tag1 r1 E1),
    (parse_key_prefix_extract f2 tag2 r2 E2).
  repeat split; auto. exists dt1, dt2. auto.
Qed.


End CompositeDetection.

Lemma composite_key_fields_are_actual_names_witness :
  WorksheetData._actual_field_name Examples.max_key_sheet 1 = Ok "a"
  /\ WorksheetData._actual_field_name Examples.max_key_sheet 2 = Ok "b".
Proof.
  destruct (composite_key_fields_are_actual_names Examples.max_key_sheet "a" "b"
              ltac:(vm_compute; reflexivity)) as (H1 & H2 & _).
  split; [exact H1|exact H2].
Defined.


(* ===================================================================== *)
(** ** The records of [generate_json] (core/worksheet_data.py) *)
(* ===================================================================== *)

Section Records.
Context {fl : FloatOps}.
Import WorksheetData.
Local Open Scope list_scope.
Variable JSON_ID_FIRST : bool.
Variable enum_registry : EnumRegistry.t.
Variable asset_validator : option AssetValidator.t.

(** The two sheets differ at most in the flags of the warnings given
    and in the reference checker. *)
Definition same_sheet (a b : t) : Prop :=
  name a = name b /\ data_types a = data_types b
  /\ data_labels a = data_labels b /\ field_names a = field_names b
  /\ default_values a = default_values b /\ row_data a = row_data b
  /\ need_generate_keys a = need_generate_keys b
  /\ composite_keys a = composite_keys b
  /\ _ref_specs a = _ref_specs b /\ _asset_specs a = _asset_specs b.

Lemma same_sheet_refl a : same_sheet a a.
Proof. repeat split. Qed.

Lemma same_sheet_trans a b c :
  same_sheet a b -> same_sheet b c -> same_sheet a c.
Proof.
  unfold same_sheet. intros H1 H2.
  repeat match goal with H : _ /\ _ |- _ => destruct H end.
  repeat split; congruence.
Qed.

Lemma same_sheet_asset_warned a : same_sheet a (set_asset_warned a).
Proof. repeat split. Qed.

Lemma same_sheet_pk_warned a : same_sheet a (set_pk_warned a).
Proof. repeat split. Qed.

Lemma same_sheet_checker a rc : same_sheet a (set_checker a rc).
Proof. repeat split. Qed.

(** Column [col] is exported under the name [name]: it is not the first
    column, it is not labelled [ignore], and [name] is its actual field
    name. *)
Definition exported_column (self : t) (col : nat) (name : string) : Prop :=
  (1 <= col < length (field_names self))%nat
  /\ (exists label, data_labels self !! col = Some label
                    /\ atom_eqb label (AStr "ignore") = false)
  /\ _actual_field_name self col = Ok name.

Lemma exported_column_same a b col name :
  same_sheet a b -> exported_column a col name -> exported_column b col name.
Proof.
  intros (_ & _ & Hl & Hf & _) (H1 & H2 & H3).
  unfold exported_column, _actual_field_name in *.
  rewrite <- Hl, <- Hf. auto.
Qed.

(** The fields of a record: [id], and the names of exported columns. *)
Definition fields_ok (self : t) (row_obj : pydict pyval) : Prop :=
  forall f v, In (f, v) row_obj ->
    f = AStr "id" \/ exists col name, exported_column self col name
                                      /\ f = AStr name.

(** A record of the key [k]: it has the field [id], in the first place
    when [JSON_ID_FIRST] is set and with the value [k] when it is not. *)
Definition record_ok (self : t) (k : Z) (row_obj : pydict pyval) : Prop :=
  fields_ok self row_obj
  /\ is_Some (dict_get (AStr "id") row_obj)
  /\ (JSON_ID_FIRST = true ->
      exists v rest, row_obj = (AStr "id", v) :: rest)
  /\ (JSON_ID_FIRST = false ->
      dict_get (AStr "id") row_obj = Some (VInt k)).

Lemma dict_set_keys {V} (k : atom) (x : V) (d : pydict V) (f : atom) (v : V) :
  In (f, v) (dict_set k x d) -> (exists v0, In (f, v0) d) \/ f = k.
Proof.
  induction d as [|[k' v'] d IH]; cbn.
  - intros [H|[]]. injection H as <- <-. now right.
  - destruct (atom_eqb k' k).
    + intros [H|H].
      * injection H as <- <-. left. exists v'. now left.
      * left. exists v. now right.
    + intros [H|H].
      * injection H as <- <-. left. exists v'. now left.
      * destruct (IH H) as [[v0 H0]| ->]; [|now right].
        left. exists v0. now right.
Qed.

Lemma dict_set_head {V} (k : atom) (x : V) (d : pydict V) (k0 : atom) (v0 : V)
    (rest : pydict V) :
  d = (k0, v0) :: rest ->
  exists v1 rest1, dict_set k x d = (k0, v1) :: rest1.
Proof. intros ->. cbn. destruct (atom_eqb k0 k); eauto. Qed.

Lemma dict_get_set_some {V} (k k' : atom) (x : V) (d : pydict V) :
  is_Some (dict_get k' d) -> is_Some (dict_get k' (dict_set k x d)).
Proof.
  induction d as [|[k0 v0] d IH]; cbn.
  - intros [y Hy]. discriminate.
  - destruct (atom_eqb k0 k') eqn:E.
    + intros _. destruct (atom_eqb k0 k); cbn; rewrite E; eauto.
    + intros H. destruct (atom_eqb k0 k); cbn; rewrite E; auto.
Qed.

Lemma enumerate_In {A} (xs : list A) : forall (s z : Z) (x : A),
  In (z, x) (enumerate s xs) -> s <= z.
Proof.
  induction xs as [|y xs IH]; cbn; intros s z x; [intros []|].
  intros [H|H]; [injection H as <- _; lia|].
  apply IH in H. lia.
Qed.

(** One cell: the sheet stays the same, and the record stays as it is or
    gets the value of an exported column under its name. *)
Lemma export_cell_ok (excel_row : Z) (row_obj : pydict pyval) (self : t)
    (col : Z) (cell : atom) (l : log) (row_obj' : pydict pyval) (self' : t)
    (l' : log) :
  1 <= col ->
  export_cell enum_registry asset_validator excel_row (row_obj, self)
    (col, cell) l = (Ok (row_obj', self'), l') ->
  same_sheet self self'
  /\ (row_obj' = row_obj
      \/ exists name value,
           exported_column self (Z.to_nat col) name
           /\ row_obj' = dict_set (AStr name) value row_obj).
Proof.
  intros Hcol. unfold export_cell.
  destruct (length (field_names self) <=? Z.to_nat col)%nat eqn:Elen.
  { intros H. cbv [ret] in H. injection H as <- <- <-.
    split; [apply same_sheet_refl|now left]. }
  apply Nat.leb_gt in Elen.
  intros H. apply bind_ok in H as (label & l1 & Hlabel & H).
  cbv [lift] in Hlabel. injection Hlabel as Hlabel <-.
  apply index_lookup in Hlabel.
  destruct (atom_eqb label (AStr "ignore")) eqn:Eig.
  { cbv [ret] in H. injection H as <- <- <-.
    split; [apply same_sheet_refl|now left]. }
  apply bind_ok in H as (data_name & l2 & Hname & H).
  cbv [lift] in Hname. injection Hname as Hname <-.
  apply bind_ok in H as (type_str & l3 & _ & H).
  apply bind_ok in H as (default_value & l4 & _ & H).
  apply bind_ok in H as (value & l5 & _ & H).
  apply bind_ok in H as (self1 & l6 & H1 & H).
  apply bind_ok in H as (self2 & l7 & H2 & H).
  cbv [ret] in H. injection H as <- <- <-.
  assert (Hs1 : same_sheet self self1).
  { destruct (_asset_specs self !! Z.to_nat col) as [required_ext|].
    2:{ cbv [ret] in H1. injection H1 as <- _. apply same_sheet_refl. }
    destruct asset_validator as [validator|].
    - apply bind_ok in H1 as (u & l8 & _ & H1).
      cbv [ret] in H1. injection H1 as <- _. apply same_sheet_refl.
    - destruct (negb (_asset_validator_missing_warned self)).
      + apply bind_ok in H1 as (u & l8 & _ & H1).
        cbv [ret] in H1. injection H1 as <- _.
        apply same_sheet_asset_warned.
      + cbv [ret] in H1. injection H1 as <- _. apply same_sheet_refl. }
  assert (Hs2 : same_sheet self1 self2).
  { destruct (_ref_specs self1 !! Z.to_nat col) as [[ref_sheet ref_field]|].
    2:{ cbv [ret] in H2. injection H2 as <- _. apply same_sheet_refl. }
    apply bind_ok in H2 as ([kind base] & l8 & _ & H2).
    destruct (String.eqb kind "dict").
    - destruct (negb (ReferenceChecker.is_dict_col_warned _ _)).
      + apply bind_ok in H2 as (u & l9 & _ & H2).
        cbv [ret] in H2. injection H2 as <- _. apply same_sheet_checker.
      + cbv [ret] in H2. injection H2 as <- _. apply same_sheet_refl.
    - cbv [ret] in H2. injection H2 as <- _. apply same_sheet_checker. }
  split; [now apply (same_sheet_trans self self1 self2)|].
  right. exists data_name, value. split; [|reflexivity].
  split; [lia|]. split; [eauto|exact Hname].
Qed.

(** The cells of one row. *)
Lemma export_cells_ok (excel_row : Z) (self0 : t) (cells : list atom)
    (row_obj0 : pydict pyval) (ws0 : t) (l : log) (row_obj : pydict pyval)
    (ws1 : t) (l' : log) :
  same_sheet self0 ws0 ->
  fields_ok self0 row_obj0 ->
  for_fold (enumerate 1 cells) (row_obj0, ws0)
    (export_cell enum_registry asset_validator excel_row) l
  = (Ok (row_obj, ws1), l') ->
  same_sheet self0 ws1
  /\ fields_ok self0 row_obj
  /\ (is_Some (dict_get (AStr "id") row_obj0) ->
      is_Some (dict_get (AStr "id") row_obj))
  /\ (forall v rest, row_obj0 = (AStr "id", v) :: rest ->
        exists v1 rest1, row_obj = (AStr "id", v1) :: rest1).
Proof.
  intros Hs0 Hf0 H.
  revert H.
  apply (for_fold_ok
           (fun (st : pydict pyval * t) (_ : log) =>
              same_sheet self0 (snd st)
              /\ fields_ok self0 (fst st)
              /\ (is_Some (dict_get (AStr "id") row_obj0) ->
                  is_Some (dict_get (AStr "id") (fst st)))
              /\ (forall v rest, row_obj0 = (AStr "id", v) :: rest ->
                    exists v1 rest1, fst st = (AStr "id", v1) :: rest1))).
  - intros [ro self] [col cell] la [ro' self'] la' Hin (Hs & Hf & Hi & Hh) Hx.
    cbn [fst snd] in *.
    apply export_cell_ok in Hx as (Hs' & Hro);
      [|now apply enumerate_In in Hin].
    split; [now apply (same_sheet_trans self0 self self')|].
    destruct Hro as [->|(name & value & Hcol & ->)]; [auto|].
    split; [|split].
    + intros f v Hfv. apply dict_set_keys in Hfv as [[v0 Hv0]| ->].
      * eapply Hf; eauto.
      * right. exists (Z.to_nat col), name. split; [|reflexivity].
        apply (exported_column_same self self0); [|exact Hcol].
        destruct Hs as (E1 & E2 & E3 & E4 & E5 & E6 & E7 & E8 & E9 & E10).
        repeat split; congruence.
    + intros Hsome. apply dict_get_set_some. auto.
    + intros v rest E. destruct (Hh v rest E) as (v1 & rest1 & E1).
      eapply dict_set_head; eauto.
  - cbn [fst snd]. split; [exact Hs0|]. split; [exact Hf0|].
    split; [auto|]. intros v rest ->. eauto.
Qed.

(** The key of a row that is not empty, by the strategy of the sheet;
    [n] is the number of records before it. *)
Definition key_of_row (self : t) (n : Z) (r : list atom) (k : Z) : Prop :=
  if need_generate_keys self then k = n
  else if composite_keys self then
    exists excel_row, composite_row_key r excel_row = Ok k
  else res_bind (index r 0) py_int = Ok k.

Lemma primary_key_ok (st : export_state) (first_real : option string)
    (r : list atom) (excel_row : Z) (l : log) (k : Z) (st1 : export_state)
    (l1 : log) :
  primary_key st first_real r excel_row l = (Ok (k, st1), l1) ->
  used_keys st1 = used_keys st /\ data st1 = data st
  /\ same_sheet (ws st) (ws st1)
  /\ key_of_row (ws st) (serial_key st) r k
  /\ serial_key st1
     = (if need_generate_keys (ws st) then serial_key st + 1
        else serial_key st).
Proof.
  unfold primary_key, key_of_row.
  destruct (need_generate_keys (ws st)).
  { intros H. cbv [ret] in H. injection H as <- <- <-. cbn.
    repeat split. }
  destruct (composite_keys (ws st)).
  { intros H. apply bind_ok in H as (row_key & l2 & H1 & H).
    cbv [lift] in H1. injection H1 as H1 <-.
    cbv [ret] in H. injection H as <- <- <-.
    split; [reflexivity|]. split; [reflexivity|].
    split; [apply same_sheet_refl|]. split; [eauto|reflexivity]. }
  destruct (res_bind (index r 0) py_int) as [row_key|e] eqn:E;
    [|discriminate].
  assert (Hkey : forall st2 l2,
            (Ok (row_key, st2), l2) = (Ok (k, st1), l1) ->
            st2 = st \/ st2 = ExportState (serial_key st) (used_keys st)
                                (data st) (set_pk_warned (ws st)) ->
            used_keys st1 = used_keys st /\ data st1 = data st
            /\ same_sheet (ws st) (ws st1)
            /\ Ok row_key = Ok k /\ serial_key st1 = serial_key st).
  { intros st2 l2 H Hst. injection H as <- <- <-.
    destruct Hst as [->| ->]; cbn; repeat split. }
  destruct first_real as [fr|].
  - destruct (negb (String.eqb (PyStr.lower fr) "id")
              && negb (first_int_pk_not_named_id_warned (ws st))).
    + intros H. apply bind_ok in H as (u & l2 & _ & H). cbv [ret] in H.
      apply Hkey in H; [exact H|now right].
    + intros H. cbv [ret] in H. apply Hkey in H; [exact H|now left].
  - intros H. cbv [ret] in H. apply Hkey in H; [exact H|now left].
Qed.

(** One row. *)
Lemma export_row_ok (first_real : option string) (st : export_state)
    (idx : Z) (r : list atom) (l : log) (st' : export_state) (l' : log) :
  export_row JSON_ID_FIRST enum_registry asset_validator first_real st
    (idx, r) l = (Ok st', l') ->
  (r = [] /\ st' = st)
  \/ (r <> []
      /\ exists k row_obj,
           key_of_row (ws st) (serial_key st) r k
           /\ used_keys st !! k = None
           /\ used_keys st' = <[k := 7 + idx]> (used_keys st)
           /\ data st' = dict_set (AInt k) row_obj (data st)
           /\ serial_key st'
              = (if need_generate_keys (ws st) then serial_key st + 1
                 else serial_key st)
           /\ same_sheet (ws st) (ws st')
           /\ record_ok (ws st) k row_obj).
Proof.
  unfold export_row. destruct r as [|c r].
  { intros H. cbv [ret] in H. injection H as <- _. now left. }
  intros H. right. split; [discriminate|].
  apply bind_ok in H as ([k st1] & l1 & Hk & H).
  apply primary_key_ok in Hk as (Hu & Hd & Hs & Hkey & Hser).
  destruct (used_keys st1 !! k) eqn:Eu; [discriminate|].
  apply bind_ok in H as ([row_obj self1] & l2 & Hcells & H).
  cbv [ret] in H. injection H as <- _.
  cbn [used_keys data serial_key ws].
  set (row_obj0 := if JSON_ID_FIRST then [(AStr "id", VInt k)] else [])
    in Hcells.
  apply (export_cells_ok (7 + idx) (ws st)) in Hcells
    as (Hs1 & Hf & Hsome & Hhead); [|exact Hs|].
  2:{ intros f v. subst row_obj0.
      destruct JSON_ID_FIRST; [|intros []].
      intros [H|[]]. injection H as <- _. now left. }
  exists k.
  exists (if negb JSON_ID_FIRST
          then dict_set (AStr "id") (VInt k) row_obj else row_obj).
  rewrite Hu in *. rewrite Hd.
  split; [exact Hkey|]. split; [exact Eu|]. split; [reflexivity|].
  split; [reflexivity|]. split; [exact Hser|]. split; [exact Hs1|].
  split; [|split; [|split]].
  - intros f v. destruct JSON_ID_FIRST; cbn [negb]; [apply Hf|].
    intros Hfv. apply dict_set_keys in Hfv as [[v0 Hv0]| ->];
      [eapply Hf; eauto|now left].
  - destruct JSON_ID_FIRST; cbn [negb].
    + apply Hsome. subst row_obj0. cbn. eauto.
    + rewrite dict_get_set_eq. eauto.
  - intros ->. cbn [negb]. subst row_obj0. eapply Hhead. reflexivity.
  - intros ->. cbn [negb]. apply dict_get_set_eq.
Qed.

End Records.

Section RecordsOfRows.
Context {fl : FloatOps}.
Import WorksheetData.
Local Open Scope list_scope.
Variable JSON_ID_FIRST : bool.
Variable enum_registry : EnumRegistry.t.
Variable asset_validator : option AssetValidator.t.

(** The records of the rows, in the order of the rows: an empty row
    gives none, another row gives one record under its key; [n] is the
    number of records before. *)
Inductive records_of (self : t)
  : Z -> list (list atom) -> list (atom * pydict pyval) -> Prop :=
| records_nil n : records_of self n [] []
| records_skip n rows recs :
    records_of self n rows recs -> records_of self n ([] :: rows) recs
| records_row n r rows k row_obj recs :
    r <> [] -> key_of_row self n r k ->
    record_ok JSON_ID_FIRST self k row_obj ->
    records_of self (n + 1) rows recs ->
    records_of self n (r :: rows) ((AInt k, row_obj) :: recs).

Definition nonempty (r : list atom) : bool :=
  match r with [] => false | _ => true end.

Lemma records_of_app self rows1 : forall n recs1 rows2 recs2,
  records_of self n rows1 recs1 ->
  records_of self (n + Z.of_nat (length recs1)) rows2 recs2 ->
  records_of self n (rows1 ++ rows2) (recs1 ++ recs2).
Proof.
  induction rows1 as [|r rows1 IH]; intros n recs1 rows2 recs2 H1 H2.
  - inversion H1; subst. cbn in *. now rewrite Z.add_0_r in H2.
  - inversion H1; subst; cbn [app].
    + apply records_skip. now apply IH.
    + apply records_row; auto. apply IH; auto.
      cbn [length] in H2.
      replace (n + 1 + Z.of_nat (length recs))
        with (n + Z.of_nat (S (length recs))) by lia.
      exact H2.
Qed.

Lemma records_of_length self n rows recs :
  records_of self n rows recs ->
  length recs = length (List.filter nonempty rows).
Proof.
  induction 1 as [| |n r rows k row_obj recs Hr]; cbn; auto.
  destruct r; [now destruct Hr|]. cbn. auto.
Qed.

Lemma records_of_serial self n rows recs :
  need_generate_keys self = true ->
  records_of self n rows recs ->
  map fst recs = map AInt (seqZ n (Z.of_nat (length recs))).
Proof.
  intros Hg. induction 1 as [| |n r rows k row_obj recs Hr Hk Ho H IH];
    auto.
  unfold key_of_row in Hk. rewrite Hg in Hk. subst k.
  cbn [length map fst]. rewrite Nat2Z.inj_succ, seqZ_cons by lia.
  cbn [map]. f_equal. rewrite IH. f_equal. f_equal; lia.
Qed.

Lemma key_of_row_same a b n r k :
  same_sheet a b -> key_of_row a n r k -> key_of_row b n r k.
Proof.
  intros (_ & _ & _ & _ & _ & _ & E1 & E2 & _). unfold key_of_row.
  now rewrite E1, E2.
Qed.

Lemma same_sheet_sym a b : same_sheet a b -> same_sheet b a.
Proof.
  unfold same_sheet. intros H.
  repeat match goal with H : _ /\ _ |- _ => destruct H end.
  repeat split; congruence.
Qed.

Lemma record_ok_same a b k row_obj :
  same_sheet a b ->
  record_ok JSON_ID_FIRST a k row_obj -> record_ok JSON_ID_FIRST b k row_obj.
Proof.
  intros Hs (H1 & H2 & H3 & H4). split; [|auto].
  intros f v Hfv. destruct (H1 f v Hfv) as [->|(col & name & Hc & ->)];
    [now left|right].
  exists col, name. split; [|reflexivity].
  now apply (exported_column_same a b).
Qed.

Lemma dict_set_fresh {V} (k : atom) (x : V) (d : pydict V) :
  (forall k' v', In (k', v') d -> atom_eqb k' k = false) ->
  dict_set k x d = d ++ [(k, x)].
Proof.
  induction d as [|[k0 v0] d IH]; cbn; intros H; [reflexivity|].
  rewrite (H k0 v0) by now left. f_equal. apply IH.
  intros k' v' Hin. apply (H k' v'). now right.
Qed.

(** What the loop over the rows keeps. *)
Definition rows_done (self0 : t) (pre : list (list atom))
    (st : export_state) : Prop :=
  same_sheet self0 (ws st)
  /\ records_of self0 0 pre (data st)
  /\ (forall k, In (AInt k) (map fst (data st))
                <-> is_Some (used_keys st !! k))
  /\ (forall f v, In (f, v) (data st) -> exists z, f = AInt z)
  /\ NoDup (map fst (data st))
  /\ (need_generate_keys self0 = true ->
      serial_key st = Z.of_nat (length (data st))).

Lemma rows_done_step self0 first_real pre st idx r l st' l' :
  rows_done self0 pre st ->
  export_row JSON_ID_FIRST enum_registry asset_validator first_real st
    (idx, r) l = (Ok st', l') ->
  rows_done self0 (pre ++ [r]) st'.
Proof.
  intros (Hs & Hrec & Hused & Hkeys & Hnd & Hser) H.
  apply export_row_ok in H
    as [[-> ->]|(Hr & k & row_obj & Hk & Hnew & Hu & Hd & Hsk & Hs' & Hok)].
  { split; [exact Hs|]. split; [|auto].
    rewrite <- (app_nil_r (data st)). apply records_of_app; [exact Hrec|].
    apply records_skip, records_nil. }
  assert (Hfresh : forall k' v', In (k', v') (data st) ->
                                 atom_eqb k' (AInt k) = false).
  { intros k' v' Hin. destruct (Hkeys k' v' Hin) as [z ->]. cbn.
    apply Z.eqb_neq. intros ->.
    assert (Hin' : In (AInt k) (map fst (data st))).
    { apply in_map_iff. exists (AInt k, v'). auto. }
    apply Hused in Hin' as [x Hx]. congruence. }
  rewrite (dict_set_fresh _ _ _ Hfresh) in Hd.
  split; [now apply (same_sheet_trans self0 (ws st) (ws st'))|].
  split; [|split; [|split; [|split]]].
  - rewrite Hd. apply records_of_app; [exact Hrec|].
    apply records_row; [exact Hr| | |apply records_nil].
    + apply (key_of_row_same (ws st) self0); [now apply same_sheet_sym|].
      unfold key_of_row in *.
      destruct (need_generate_keys (ws st)) eqn:Eg; [|exact Hk].
      rewrite Hk. rewrite <- Hser; [lia|].
      destruct Hs as (_ & _ & _ & _ & _ & _ & E1 & _). congruence.
    + apply (record_ok_same (ws st) self0); [now apply same_sheet_sym|].
      exact Hok.
  - intros z. rewrite Hd, Hu, map_app, in_app_iff, Hused. cbn.
    destruct (decide (z = k)) as [->|Hne].
    + rewrite lookup_insert_eq. split; [eauto|auto].
    + rewrite lookup_insert_ne by congruence.
      split; [intros [H|[H|[]]]; [exact H|congruence]|auto].
  - intros f v. rewrite Hd, in_app_iff. intros [H|[H|[]]]; [eauto|].
    injection H as <- _. eauto.
  - rewrite Hd, map_app. cbn [map fst].
    apply NoDup_app. split; [exact Hnd|]. split.
    + intros x Hx Hx'. apply list_elem_of_In in Hx.
      apply list_elem_of_singleton in Hx'. subst x.
      apply Hused in Hx as [y Hy]. congruence.
    + apply NoDup_singleton.
  - intros Hg. rewrite Hsk, Hd, length_app. cbn [length].
    destruct Hs as (_ & _ & _ & _ & _ & _ & E1 & _).
    rewrite <- E1, Hg, (Hser Hg). lia.
Qed.

Lemma rows_done_loop self0 first_real rows : forall s pre st l st' l',
  rows_done self0 pre st ->
  for_fold (enumerate s rows) st
    (export_row JSON_ID_FIRST enum_registry asset_validator first_real) l
  = (Ok st', l') ->
  rows_done self0 (pre ++ rows) st'.
Proof.
  induction rows as [|r rows IH]; intros s pre st l st' l' Hinv H.
  - cbn in H. injection H as <- _. now rewrite app_nil_r.
  - cbn [enumerate for_fold] in H.
    apply bind_ok in H as (st1 & l1 & H1 & H).
    replace (pre ++ r :: rows) with ((pre ++ [r]) ++ rows)
      by now rewrite <- app_assoc.
    eapply IH; [|exact H]. eapply rows_done_step; eauto.
Qed.

(** When [generate_json] returns, the loop over the rows has run to its
    end: the sheet and the mapping returned are those of its last state. *)
Lemma generate_json_rows_done (self ws' : t) (l l' : log)
    (data : pydict (pydict pyval)) :
  generate_json JSON_ID_FIRST enum_registry asset_validator self l
  = (Ok (ws', data), l') ->
  exists st, ws st = ws' /\ WorksheetData.data st = data
             /\ rows_done self (row_data self) st.
Proof.
  unfold generate_json. intros H.
  apply bind_ok in H as (first_real & l1 & _ & H).
  apply bind_ok in H as (st & l2 & Hloop & H).
  cbv [ret] in H. injection H as <- <- <-.
  exists st. split; [reflexivity|]. split; [reflexivity|].
  set (self1 := set_checker self _) in Hloop.
  apply (rows_done_loop self _ _ _ []) in Hloop; [exact Hloop|].
  cbn. split; [apply same_sheet_checker|].
  split; [apply records_nil|]. split.
  - intros k. cbn. rewrite lookup_empty. split; [intros []|].
    intros [x Hx]. discriminate.
  - split; [intros f v []|]. split; [apply NoDup_nil_2|reflexivity].
Qed.

(** X15: the mapping that [generate_json] serializes.  It holds, in the
    order of the rows, one record for each row that is not empty, under
    the key of the row by the strategy of the sheet (the number of the
    record for generated keys, the combined key for composite keys, the
    integer of the first cell otherwise); no two records have the same
    key.  Every record has the field [id] (first when [JSON_ID_FIRST] is
    set, with the key as its value when it is not), and besides it only
    fields named after columns that are not labelled [ignore]. *)
Theorem generate_json_records (self ws' : t) (l l' : log)
    (data : pydict (pydict pyval)) :
  generate_json JSON_ID_FIRST enum_registry asset_validator self l
  = (Ok (ws', data), l') ->
  records_of self 0 (row_data self) data
  /\ NoDup (map fst data)
  /\ length data = length (List.filter nonempty (row_data self))
  /\ same_sheet self ws'.
Proof.
  intros H.
  apply generate_json_rows_done in H
    as (st & <- & <- & Hs & Hrec & _ & _ & Hnd & _).
  split; [exact Hrec|]. split; [exact Hnd|].
  split; [now apply records_of_length in Hrec|exact Hs].
Qed.

End RecordsOfRows.

Lemma generate_json_records_witness :
  exists ws' data l',
    WorksheetData.generate_json true EnumRegistry.new None Sheets.weapons []
    = (Ok (ws', data), l')
    /\ NoDup (map fst data) /\ length data = 2%nat.
Proof.
  eexists _, _, _. split; [vm_compute; reflexivity|].
  destruct (generate_json_records true EnumRegistry.new None Sheets.weapons _ [] _ _
              ltac:(vm_compute; reflexivity)) as (_ & H2 & H3 & _).
  split; [exact H2|exact H3].
Defined.

(* ===================================================================== *)
(** ** The enum of the string keys (core/worksheet_data.py) *)
(* ===================================================================== *)

Section EnumKeys.
Context {fl : FloatOps}.
Import WorksheetData WorksheetValidator.
Local Open Scope list_scope.

(** The first cells of the rows that are not empty. *)
Definition key_cells (rows : list (list atom)) : list atom :=
  flat_map (fun r => match r with [] => [] | val :: _ => [val] end) rows.

Lemma key_cells_length rows :
  length (key_cells rows) = length (List.filter nonempty rows).
Proof.
  induction rows as [|[|c r] rows IH]; cbn; auto.
Qed.

Lemma enum_keys_loop rows : forall s names values st,
  res_fold (enumerate s rows)
    (names, values, Z.of_nat (length values)) enum_keys_step = Ok st ->
  st = (names ++ key_cells rows,
        values ++ seqZ (Z.of_nat (length values))
                    (Z.of_nat (length (key_cells rows))),
        Z.of_nat (length values + length (key_cells rows)))
  /\ Forall valid_key_row rows.
Proof.
  induction rows as [|r rows IH]; intros s names values st H.
  - cbn in H. injection H as <-. cbn. rewrite !app_nil_r, Nat.add_0_r. auto.
  - cbn [enumerate res_fold] in H. unfold enum_keys_step at 1 in H.
    destruct r as [|val r].
    + cbn [res_bind] in H. apply IH in H as [-> Hv]. split; [reflexivity|].
      constructor; [now left|exact Hv].
    + unfold validate_enum_name in H.
      destruct (available_csharp_enum_name val) eqn:Ev; [|discriminate].
      cbn [negb res_bind] in H.
      replace (Z.of_nat (length values) + 1)
        with (Z.of_nat (length (values ++ [Z.of_nat (length values)]))) in H
        by (rewrite length_app; cbn; lia).
      apply IH in H as [-> Hv]. split.
      * cbn [key_cells flat_map app length].
        rewrite <- !app_assoc, !length_app. cbn [app length].
        rewrite Nat2Z.inj_succ, (seqZ_cons (Z.of_nat (length values))) by lia.
        rewrite Z.pred_succ.
        replace (Z.of_nat (length values + 1))
          with (Z.succ (Z.of_nat (length values))) by lia.
        replace (Z.of_nat (length values + 1 + length (key_cells rows)))
          with (Z.of_nat (length values + S (length (key_cells rows))))
          by lia.
        reflexivity.
      * constructor; [|exact Hv]. right.
        destruct val as [| | | |n]; try discriminate. eauto.
Qed.

Lemma enum_keys_valid rows : forall s names values,
  Forall valid_key_row rows ->
  exists st,
    res_fold (enumerate s rows) (names, values, Z.of_nat (length values))
      enum_keys_step = Ok st.
Proof.
  induction rows as [|r rows IH]; intros s names values Hv.
  - cbn. eauto.
  - inversion Hv as [|r' rows' Hr Hrows]; subst.
    cbn [enumerate res_fold]. unfold enum_keys_step at 1.
    destruct Hr as [->|(n & rest & -> & Hn)].
    + cbn [res_bind]. now apply IH.
    + unfold validate_enum_name. cbn [available_csharp_enum_name].
      rewrite Hn. cbn [negb res_bind].
      replace (Z.of_nat (length values) + 1)
        with (Z.of_nat (length (values ++ [Z.of_nat (length values)])))
        by (rewrite length_app; cbn; lia).
      now apply IH.
Qed.

(** X16: the enum of a sheet with string keys goes with its records.
    When [generate_json] and [_generate_enum_keys_csfile] both return,
    the enum has one name for each row that is not empty, the first cell
    of that row, with the values 0, 1, 2, ... in the order of the rows, and
    these values are the keys of the records, in the same order. *)
Theorem enum_values_are_record_keys (JSON_ID_FIRST : bool)
    (enum_registry : EnumRegistry.t)
    (asset_validator : option AssetValidator.t) (self ws' : t) (l l' : log)
    (data : pydict (pydict pyval)) (names : list atom) (values : list Z) :
  need_generate_keys self = true ->
  generate_json JSON_ID_FIRST enum_registry asset_validator self l
  = (Ok (ws', data), l') ->
  _generate_enum_keys_csfile self = Ok (names, values) ->
  names = key_cells (row_data self)
  /\ values = seqZ 0 (Z.of_nat (length names))
  /\ map fst data = map AInt values.
Proof.
  intros Hg Hjson Henum.
  apply generate_json_rows_done in Hjson as (st0 & _ & <- & _ & Hrec & _).
  pose proof (records_of_length _ _ _ _ _ Hrec) as Hlen.
  unfold _generate_enum_keys_csfile in Henum.
  destruct (res_fold _ _ _) as [st|e] eqn:E; [|discriminate].
  apply (enum_keys_loop _ 0 [] []) in E as [-> _].
  cbn in Henum. injection Henum as <- <-.
  split; [reflexivity|]. split; [reflexivity|].
  rewrite (records_of_serial JSON_ID_FIRST self 0 _ _ Hg Hrec).
  now rewrite Hlen, key_cells_length.
Qed.

Lemma collect_name_rows_valid rows : forall s acc acc',
  res_fold (enumerate s rows) acc enum_scan_step = Ok acc' ->
  Forall valid_key_row rows.
Proof.
  induction rows as [|r rows IH]; intros s acc acc' H; [constructor|].
  cbn [enumerate res_fold] in H. unfold enum_scan_step at 1 in H.
  destruct r as [|val r].
  - cbn [res_bind] in H. constructor; [now left|eauto].
  - unfold validate_enum_name in H.
    destruct (available_csharp_enum_name val) eqn:Ev; [|discriminate].
    cbn [negb res_bind] in H. constructor; [|eauto].
    right. destruct val as [| | | |n]; try discriminate. eauto.
Qed.

Lemma key_cells_has_name (n : string) rows : forall s,
  In (AStr n) (key_cells rows) ->
  (1 <= length (List.filter (has_name n) (enumerate s rows)))%nat.
Proof.
  induction rows as [|r rows IH]; intros s; [intros []|].
  cbn [key_cells flat_map enumerate List.filter]. rewrite in_app_iff.
  unfold has_name at 1. cbn [snd]. intros [H|H].
  - destruct r as [|val r]; [destruct H|]. destruct H as [->|[]].
    rewrite String.eqb_refl. cbn. lia.
  - specialize (IH (s + 1) H).
    destruct (match r with AStr n0 :: _ => String.eqb n0 n | _ => false end);
      cbn [length]; lia.
Qed.

Lemma key_cells_NoDup rows :
  Forall valid_key_row rows ->
  (forall n, (length (excel_rows_of n rows) <= 1)%nat) ->
  NoDup (key_cells rows).
Proof.
  unfold excel_rows_of, rows_in. generalize 0 as s.
  induction rows as [|r rows IH]; intros s Hv Hcount; [apply NoDup_nil_2|].
  inversion Hv as [|r' rows' Hr Hrows]; subst.
  assert (Htail : forall n,
            (length (map (fun ir : Z * row => (7 + fst ir)%Z)
                       (List.filter (has_name n) (enumerate (s + 1) rows)))
             <= 1)%nat).
  { intros n. specialize (Hcount n). cbn [enumerate List.filter] in Hcount.
    destruct (has_name n (s, r)); cbn [map length] in Hcount; lia. }
  destruct Hr as [->|(n & rest & -> & Hn)].
  - cbn [key_cells flat_map app]. now apply (IH (s + 1)).
  - cbn [key_cells flat_map app]. apply NoDup_cons. split.
    + intros Hin. apply list_elem_of_In in Hin.
      apply (key_cells_has_name n rows (s + 1)) in Hin.
      specialize (Hcount n). cbn [enumerate List.filter] in Hcount.
      unfold has_name at 1 in Hcount. cbn [snd] in Hcount.
      rewrite String.eqb_refl in Hcount. cbn [map length] in Hcount.
      rewrite length_map in Hcount.
      pose proof (Nat.le_trans _ _ _ (le_n_S _ _ Hin) Hcount) as Habs. lia.
    + now apply (IH (s + 1)).
Qed.

(** X17: after the scan of the string keys, the enum can be written.
    When [check_duplicate_enum_keys] has passed, as it must have for
    [__init__] to return on a sheet with string keys,
    [_generate_enum_keys_csfile] does not raise; the names it hands over
    are valid identifiers, no two of them are the same, and their values
    are 0, 1, 2, ... *)
Theorem scanned_enum_keys_are_distinct (self : t) :
  check_duplicate_enum_keys (row_data self) (name self) = Ok tt ->
  exists names values,
    _generate_enum_keys_csfile self = Ok (names, values)
    /\ NoDup names
    /\ Forall (fun a => exists n, a = AStr n
                 /\ NamingUtils.is_valid_csharp_identifier n = true) names
    /\ values = seqZ 0 (Z.of_nat (length names)).
Proof.
  intros Hcheck.
  assert (Hv : Forall valid_key_row (row_data self)).
  { unfold check_duplicate_enum_keys, collect_name_rows in Hcheck.
    destruct (res_fold _ _ _) as [acc|e] eqn:E; [|discriminate].
    now apply collect_name_rows_valid in E. }
  destruct (enum_scan_lists_all (row_data self) (name self) Hv)
    as (dups & Hdups & Hres).
  rewrite Hcheck in Hres. destruct dups as [|d dups]; [|discriminate].
  destruct (enum_keys_valid (row_data self) 0 [] [] Hv) as (st & Hst).
  change (Z.of_nat (length (@nil Z))) with 0 in Hst.
  pose proof Hst as Hst'.
  apply (enum_keys_loop _ 0 [] []) in Hst' as [-> _].
  exists (key_cells (row_data self)),
    (seqZ 0 (Z.of_nat (length (key_cells (row_data self))))).
  split; [|split; [|split]].
  - unfold _generate_enum_keys_csfile. unfold row in Hst. now rewrite Hst.
  - apply key_cells_NoDup; [exact Hv|]. intros n.
    destruct (le_lt_dec (length (excel_rows_of n (row_data self))) 1)
      as [Hle|Hgt]; [exact Hle|].
    destruct (proj2 (Hdups n (excel_rows_of n (row_data self)))) as [].
    split; [reflexivity|lia].
  - clear -Hv. induction Hv as [|r rows Hr Hrows IH]; [constructor|].
    cbn [key_cells flat_map]. destruct Hr as [->|(n & rest & -> & Hn)];
      [exact IH|].
    cbn [app]. constructor; [eauto|exact IH].
  - reflexivity.
Qed.

End EnumKeys.

Lemma enum_values_are_record_keys_witness :
  exists ws' data l',
    WorksheetData.generate_json true EnumRegistry.new None Sheets.weapons []
    = (Ok (ws', data), l')
    /\ map fst data = [AInt 0; AInt 1].
Proof.
  eexists _, _, _. split; [vm_compute; reflexivity|].
  destruct (enum_values_are_record_keys true EnumRegistry.new None Sheets.weapons
              _ [] _ _ [Examples.str_cell "Sword"; Examples.str_cell "Bow"] [0; 1] eq_refl
              ltac:(vm_compute; reflexivity) ltac:(vm_compute; reflexivity))
    as (_ & _ & H).
  exact H.
Defined.

Lemma scanned_enum_keys_are_distinct_witness :
  exists names values,
    WorksheetData._generate_enum_keys_csfile Sheets.weapons = Ok (names, values)
    /\ NoDup names.
Proof.
  destruct (scanned_enum_keys_are_distinct Sheets.weapons
              ltac:(vm_compute; reflexivity))
    as (names & values & H1 & H2 & _).
  exists names, values. split; [exact H1|exact H2].
Defined.

(* ===================================================================== *)
(** ** The header rows that [__init__] accepts (core/worksheet_data.py) *)
(* ===================================================================== *)

Section HeaderRowsAccepted.
Context {fl : FloatOps}.
Import WorksheetData.
Local Open Scope list_scope.

Lemma for_each_guard {A} (xs : list A) (P : A -> bool) (E : A -> exn)
    (l : log) (u : unit) (l' : log) :
  for_each xs (fun x => if P x then raise (E x) else ret tt) l = (Ok u, l') ->
  l' = l /\ forall x, In x xs -> P x = false.
Proof.
  induction xs as [|x xs IH]; cbn [for_each].
  - intros H. cbv [ret] in H. injection H as _ <-. split; [reflexivity|].
    intros x [].
  - intros H. apply bind_ok in H as (u1 & l1 & H1 & H).
    destruct (P x) eqn:Ex; [discriminate|].
    cbv [ret] in H1. injection H1 as _ <-.
    apply IH in H as [-> Hxs]. split; [reflexivity|].
    intros y [<-|Hy]; auto.
Qed.

Lemma lookup_repeat {A} (x : A) (n i : nat) :
  (i < n)%nat -> repeat x n !! i = Some x.
Proof.
  revert i. induction n as [|n IH]; intros i Hi; [lia|].
  destruct i as [|i]; [reflexivity|]. cbn. apply IH. lia.
Qed.

(** X18: [_align_list] gives a list of exactly [target] cells: the
    cells of [lst] in their places, then [fill].  It logs one warning
    when [lst] has not [target] cells, and nothing when it has; then the
    list comes back as it is. *)
Theorem align_list_has_target_length (sheet : string) (lst : list atom)
    (target : nat) (fill : atom) (name : string) (l : log) :
  exists r,
    fst (_align_list sheet lst target fill name l) = Ok r
    /\ length r = target
    /\ (forall i, (i < target)%nat ->
          r !! i = Some (default fill (lst !! i)))
    /\ (length lst = target -> r = lst)
    /\ snd (_align_list sheet lst target fill name l)
       = l ++ (if Nat.eqb (length lst) target then []
               else [LogEntry WARN
                       (if (length lst <? target)%nat
                        then "fewer cells than field columns, filled with None"
                        else "more cells than field columns, truncated")
                       None name]).
Proof.
  unfold _align_list.
  destruct (Nat.eqb_spec (length lst) target) as [E|Hne].
  { exists lst. cbn. rewrite app_nil_r. repeat split; auto.
    intros i Hi. destruct (lookup_lt_is_Some_2 lst i) as [x Hx]; [lia|].
    now rewrite Hx. }
  destruct (Nat.ltb_spec (length lst) target) as [Hlt|Hge].
  - exists (lst ++ repeat fill (target - length lst)).
    cbv [bind log_warn emit ret fst snd].
    split; [reflexivity|]. split; [rewrite length_app, repeat_length; lia|].
    split; [|split; [intros; lia|reflexivity]].
    intros i Hi. destruct (Nat.lt_ge_cases i (length lst)) as [Hin|Hout].
    + rewrite lookup_app_l by exact Hin.
      destruct (lookup_lt_is_Some_2 lst i Hin) as [x Hx]. now rewrite Hx.
    + rewrite lookup_app_r by exact Hout.
      rewrite (lookup_ge_None_2 lst i) by exact Hout. cbn.
      apply lookup_repeat. lia.
  - exists (take target lst).
    cbv [bind log_warn emit ret fst snd].
    split; [reflexivity|]. split; [rewrite length_take; lia|].
    split; [|split; [intros; lia|reflexivity]].
    intros i Hi. rewrite lookup_take_lt by exact Hi.
    destruct (lookup_lt_is_Some_2 lst i) as [x Hx]; [lia|]. now rewrite Hx.
Qed.

(** The six rows have the length of the field row, which is not 0. *)
Definition rows_aligned (h : headers) : Prop :=
  length (h_field_names h) <> 0%nat
  /\ forall ir, In ir (cell_values h) ->
                length (snd ir) = length (h_field_names h).

(** X19: what the construction accepts and what it returns.  The part of
    [__init__] that reads the six header rows returns exactly when the
    six rows have one length, which is not 0; then it returns the rows as
    they were read and logs nothing: no row is ever padded or cut. *)
Theorem init_headers_returns_rows_unchanged (name : string) (h h' : headers)
    (l l' : log) :
  init_headers name h l = (Ok h', l')
  <-> rows_aligned h /\ h' = h /\ l' = l.
Proof.
  assert (Halign : forall lst fill nm la,
            length lst = length (h_field_names h) ->
            _align_list name lst (length (h_field_names h)) fill nm la
            = (Ok lst, la)).
  { intros lst fill nm la E. unfold _align_list.
    now rewrite (proj2 (Nat.eqb_eq _ _) E). }
  split.
  - unfold init_headers. intros H.
    apply bind_ok in H as (u1 & l1 & H1 & H).
    apply (for_each_guard _ (fun ir => Nat.eqb (length (snd ir)) 0)
             (fun ir => HeaderFormatError name
                          "header row is missing or empty" (fst ir)))
      in H1 as [-> _].
    apply bind_ok in H as (u2 & l2 & H2 & H).
    destruct (Nat.eqb_spec (length (h_field_names h)) 0) as [|Hn0];
      [discriminate|].
    cbv [ret] in H2. injection H2 as _ <-.
    apply bind_ok in H as (u3 & l3 & H3 & H).
    apply (for_each_guard _
             (fun ir => negb (Nat.eqb (length (snd ir))
                                (length (h_field_names h))))
             (fun ir => HeaderFormatError name
                          "row length differs from the field columns"
                          (fst ir)))
      in H3 as [-> Hlen].
    assert (Hrows : forall ir, In ir (cell_values h) ->
                      length (snd ir) = length (h_field_names h)).
    { intros ir Hir. apply Nat.eqb_eq, negb_false_iff, Hlen, Hir. }
    unfold cell_values in Hrows.
    unfold bind at 1 in H.
    rewrite (Halign (h_remarks h)) in H
      by (apply (Hrows (1, _)); cbn; auto).
    unfold bind at 1 in H.
    rewrite (Halign (h_headers h)) in H
      by (apply (Hrows (2, _)); cbn; auto).
    unfold bind at 1 in H.
    rewrite (Halign (h_data_types h)) in H
      by (apply (Hrows (3, _)); cbn; auto 6).
    unfold bind at 1 in H.
    rewrite (Halign (h_data_labels h)) in H
      by (apply (Hrows (4, _)); cbn; auto 6).
    unfold bind at 1 in H.
    rewrite (Halign (h_default_values h)) in H
      by (apply (Hrows (6, _)); cbn; auto 8).
    cbv [ret] in H. injection H as <- <-.
    split; [split; [exact Hn0|exact Hrows]|].
    split; [now destruct h|reflexivity].
  - intros ([Hn0 Hrows] & -> & ->). unfold init_headers.
    unfold bind at 1. rewrite for_each_ok.
    2:{ intros ir Hir. rewrite (Hrows ir Hir).
        now rewrite (proj2 (Nat.eqb_neq _ _) Hn0). }
    unfold bind at 1. rewrite (proj2 (Nat.eqb_neq _ _) Hn0).
    cbv [ret]. unfold bind at 1. rewrite for_each_ok.
    2:{ intros ir Hir. rewrite (Hrows ir Hir).
        now rewrite Nat.eqb_refl. }
    unfold cell_values in Hrows.
    unfold bind at 1.
    rewrite (Halign (h_remarks h)) by (apply (Hrows (1, _)); cbn; auto).
    unfold bind at 1.
    rewrite (Halign (h_headers h)) by (apply (Hrows (2, _)); cbn; auto).
    unfold bind at 1.
    rewrite (Halign (h_data_types h)) by (apply (Hrows (3, _)); cbn; auto 6).
    unfold bind at 1.
    rewrite (Halign (h_data_labels h)) by (apply (Hrows (4, _)); cbn; auto 6).
    unfold bind at 1.
    rewrite (Halign (h_default_values h))
      by (apply (Hrows (6, _)); cbn; auto 8).
    now destruct h.
Qed.

End HeaderRowsAccepted.

(* ===================================================================== *)
(** ** File names and paths made safe (utils/path_utils.py) *)
(* ===================================================================== *)

Section Substrings.
Import PyStr.
Local Open Scope list_scope.
Local Open Scope nat_scope.

Lemma prefix_chars_app (p l : list ascii) :
  prefix_chars p l = true <-> exists b, l = p ++ b.
Proof.
  revert l. induction p as [|a p IH]; intros l; cbn.
  - split; [intros _; now exists l|reflexivity].
  - destruct l as [|x l].
    + split; [discriminate|]. intros [b Hb]. discriminate.
    + rewrite andb_true_iff, IH. split.
      * intros [E [b ->]]. apply Ascii.eqb_eq in E as ->. now exists b.
      * intros [b Hb]. injection Hb as -> ->.
        split; [apply Ascii.eqb_refl|now exists b].
Qed.

Lemma contains_chars_infix (sub l : list ascii) :
  contains_chars sub l = true <-> exists a b, l = a ++ sub ++ b.
Proof.
  induction l as [|c l IH]; cbn [contains_chars]; rewrite orb_true_iff.
  - rewrite prefix_chars_app. split.
    + intros [[b Hb]|H]; [|discriminate]. now exists [], b.
    + intros [a [b H]]. left. destruct a; [now exists b|discriminate].
  - rewrite prefix_chars_app, IH. split.
    + intros [[b Hb]|[a [b Hb]]].
      * now exists [], b.
      * exists (c :: a), b. now rewrite Hb.
    + intros [a [b H]]. destruct a as [|x a].
      * left. now exists b.
      * right. injection H as -> ->. now exists a, b.
Qed.

Lemma contains_chars_part (sub a r b : list ascii) :
  contains_chars sub (a ++ r ++ b) = false -> contains_chars sub r = false.
Proof.
  intros H. apply not_true_is_false. intros Hr.
  apply contains_chars_infix in Hr as [x [y ->]].
  apply not_true_iff_false in H. apply H, contains_chars_infix.
  exists (a ++ x), (y ++ b). now rewrite <- !app_assoc.
Qed.

Lemma contains_one (c : ascii) (l : list ascii) :
  contains_chars [c] l = existsb (Ascii.eqb c) l.
Proof.
  induction l as [|x l IH]; cbn; [reflexivity|].
  rewrite andb_true_r. now f_equal.
Qed.

(** A text without [old] is left as it is. *)
Lemma replace_chars_absent (old new l : list ascii) :
  contains_chars old l = false -> replace_chars old new 0 l = l.
Proof.
  induction l as [|c l IH]; cbn [contains_chars replace_chars];
    [reflexivity|].
  intros H. apply orb_false_iff in H as [-> H]. now rewrite IH.
Qed.

Lemma replace_absent (old new s : string) :
  contains_sub old s = false -> replace old new s = s.
Proof.
  intros H. unfold replace.
  rewrite (replace_chars_absent _ _ _ H). apply of_chars_chars.
Qed.

Lemma chars_replace (old new s : string) :
  chars (replace old new s)
  = replace_chars (chars old) (chars new) 0 (chars s).
Proof. apply chars_of_chars. Qed.

(** [c] does not occur in [l]. *)
Definition clean (c : ascii) (l : list ascii) : Prop :=
  existsb (Ascii.eqb c) l = false.

Lemma clean_replace_self (c x : ascii) (l : list ascii) :
  c <> x -> clean c (replace_chars [c] [x] 0 l).
Proof.
  intros Hc. unfold clean.
  induction l as [|y l IH]; cbn [replace_chars prefix_chars];
    [reflexivity|].
  rewrite andb_true_r.
  destruct (Ascii.eqb c y) eqn:E; cbn [app existsb length Nat.sub].
  - rewrite (proj2 (Ascii.eqb_neq c x) Hc). exact IH.
  - now rewrite E.
Qed.

Lemma clean_replace_other (c : ascii) (old new : list ascii) (l : list ascii) :
  clean c new -> clean c l ->
  forall k, clean c (replace_chars old new k l).
Proof.
  unfold clean. intros Hn.
  induction l as [|y l IH]; intros Hl k; cbn [replace_chars];
    [reflexivity|].
  cbn in Hl. apply orb_false_iff in Hl as [Hy Hl].
  destruct k as [|k]; [|now apply IH].
  destruct (prefix_chars old (y :: l)).
  - rewrite existsb_app, Hn. now apply IH.
  - cbn. rewrite Hy. now apply IH.
Qed.

Definition dots : list ascii := ["."%char; "."%char].

Lemma contains_dots_cons (c : ascii) (l : list ascii) :
  contains_chars dots (c :: l)
  = (Ascii.eqb "." c && prefix_chars ["."%char] l) || contains_chars dots l.
Proof.
  cbn [contains_chars dots prefix_chars].
  destruct l as [|x l]; [reflexivity|]. now rewrite !andb_true_r.
Qed.

Lemma contains_dots_clean_app (new r : list ascii) :
  clean "." new ->
  contains_chars dots (new ++ r) = contains_chars dots r.
Proof.
  unfold clean. intros Hn.
  induction new as [|x new IH]; [reflexivity|].
  cbn [app]. rewrite contains_dots_cons.
  cbn [existsb] in Hn. apply orb_false_iff in Hn as [Hx Hn].
  rewrite Hx. cbn [andb orb]. exact (IH Hn).
Qed.

(** After [replace("..", new)] with a [new] without dots no two dots are
    side by side: a dot that stays is followed by a character that is no
    dot, and that character stays too. *)
Lemma replace_dots_none (new : list ascii) :
  clean "." new ->
  forall n l, length l <= n ->
    contains_chars dots (replace_chars dots new 0 l) = false
    /\ (prefix_chars ["."%char] l = false ->
        prefix_chars ["."%char] (replace_chars dots new 0 l) = false).
Proof.
  intros Hn. induction n as [|n IH]; intros l Hl.
  { destruct l; [|cbn in Hl; lia]. now split. }
  destruct l as [|c l]; [now split|]. cbn in Hl.
  cbn [replace_chars].
  destruct (prefix_chars dots (c :: l)) eqn:Ep.
  - apply prefix_chars_app in Ep as [b Hb]. cbn in Hb. injection Hb as -> ->.
    cbn [dots length Nat.sub replace_chars].
    destruct (IH b) as [H1 H2]; [cbn in Hl; lia|].
    split.
    + now rewrite contains_dots_clean_app.
    + intros H. cbn in H. discriminate.
  - destruct (IH l) as [H1 H2]; [lia|]. split.
    + rewrite contains_dots_cons, H1, orb_false_r.
      destruct (Ascii.eqb "." c) eqn:Ec; [|reflexivity]. cbn [andb].
      apply H2. apply Ascii.eqb_eq in Ec as <-.
      cbn in Ep. destruct l as [|x l]; [reflexivity|].
      cbn in Ep |- *. now rewrite andb_true_r in *.
    + intros H. cbn in H |- *. exact H.
Qed.

(** Replacing a doubled character that is no dot by one such character
    brings no two dots side by side. *)
Lemma replace_pair_keeps (x : ascii) :
  Ascii.eqb "." x = false ->
  forall n l, length l <= n ->
    contains_chars dots l = false ->
    contains_chars dots (replace_chars [x; x] [x] 0 l) = false
    /\ (prefix_chars ["."%char] l = false ->
        prefix_chars ["."%char] (replace_chars [x; x] [x] 0 l) = false).
Proof.
  intros Hx. induction n as [|n IH]; intros l Hl Hd.
  { destruct l; [|cbn in Hl; lia]. now split. }
  destruct l as [|c l]; [now split|]. cbn in Hl.
  cbn [replace_chars].
  destruct (prefix_chars [x; x] (c :: l)) eqn:Ep.
  - apply prefix_chars_app in Ep as [b Hb]. cbn in Hb. injection Hb as -> ->.
    cbn [length Nat.sub replace_chars app].
    rewrite !contains_dots_cons in Hd.
    apply orb_false_iff in Hd as [_ Hd].
    apply orb_false_iff in Hd as [_ Hd].
    destruct (IH b) as [H1 H2]; [cbn in Hl; lia|exact Hd|].
    split.
    + rewrite contains_dots_cons, Hx, H1. reflexivity.
    + intros _. cbn [prefix_chars]. now rewrite Hx.
  - rewrite contains_dots_cons in Hd.
    apply orb_false_iff in Hd as [Hc Hd].
    destruct (IH l) as [H1 H2]; [lia|exact Hd|]. split.
    + rewrite contains_dots_cons, H1, orb_false_r.
      destruct (Ascii.eqb "." c) eqn:Ec; [|reflexivity]. cbn [andb] in *.
      now apply H2.
    + intros H. cbn in H |- *. exact H.
Qed.

(** Replacing one character that is no dot by another that is no dot
    keeps the dots where they are. *)
Lemma replace_one_keeps (c x : ascii) (l : list ascii) :
  Ascii.eqb "." c = false -> Ascii.eqb "." x = false ->
  contains_chars dots (replace_chars [c] [x] 0 l) = contains_chars dots l
  /\ prefix_chars ["."%char] (replace_chars [c] [x] 0 l)
     = prefix_chars ["."%char] l.
Proof.
  intros Hc Hx. induction l as [|y l [IH1 IH2]]; [now split|].
  cbn [replace_chars prefix_chars]. rewrite andb_true_r.
  destruct (Ascii.eqb c y) eqn:E; cbn [app length Nat.sub].
  - apply Ascii.eqb_eq in E as <-.
    rewrite !contains_dots_cons, Hx, Hc, IH1. split; reflexivity.
  - rewrite !contains_dots_cons, IH1, IH2. split; reflexivity.
Qed.

Lemma drop_while_part (p : ascii -> bool) (l : list ascii) :
  exists a, l = a ++ drop_while p l.
Proof. exists (take_while p l). symmetry. apply take_drop_while. Qed.

Lemma strip_chars_part (p : ascii -> bool) (l : list ascii) :
  exists a b, l = a ++ rstrip_chars p (lstrip_chars p l) ++ b.
Proof.
  unfold rstrip_chars, lstrip_chars.
  destruct (drop_while_part p l) as [a Ha].
  destruct (drop_while_part p (rev (drop_while p l))) as [b Hb].
  exists a, (rev b). rewrite <- rev_app_distr, <- Hb, rev_involutive.
  exact Ha.
Qed.

Lemma clean_part (c : ascii) (a r b : list ascii) :
  clean c (a ++ r ++ b) -> clean c r.
Proof.
  unfold clean. rewrite !existsb_app. intros H.
  apply orb_false_iff in H as [_ H]. now apply orb_false_iff in H as [H _].
Qed.

Lemma head_not (p : ascii -> bool) (l : list ascii) :
  match l with [] => True | x :: _ => p x = false end ->
  forall c, p c = true -> prefix_chars [c] l = false.
Proof.
  destruct l as [|x l]; [reflexivity|]. intros Hx c Hc. cbn.
  rewrite andb_true_r. apply Ascii.eqb_neq. intros ->. congruence.
Qed.

(** What [strip(chars)] leaves begins and ends with no character of
    [chars], and stripping it again changes nothing. *)
Lemma strip_chars_ends (p : ascii -> bool) (l : list ascii) :
  let r := rstrip_chars p (lstrip_chars p l) in
  match r with [] => True | x :: _ => p x = false end
  /\ match rev r with [] => True | x :: _ => p x = false end
  /\ rstrip_chars p (lstrip_chars p r) = r.
Proof.
  cbn zeta. unfold rstrip_chars, lstrip_chars.
  set (d := drop_while p l).
  assert (Hlast : match drop_while p (rev d) with
                  | [] => True | x :: _ => p x = false end)
    by apply drop_while_head.
  assert (Hhead : match rev (drop_while p (rev d)) with
                  | [] => True | x :: _ => p x = false end).
  { destruct (drop_while_part p (rev d)) as [a Ha].
    destruct (drop_while p (rev d)) as [|y t] eqn:Et; [exact I|].
    assert (Hd : d = rev (y :: t) ++ rev a).
    { rewrite <- rev_app_distr, <- Ha. symmetry. apply rev_involutive. }
    pose proof (drop_while_head p l) as Hh. fold d in Hh.
    destruct (rev (y :: t)) as [|z u] eqn:Er.
    - exact I.
    - rewrite Hd in Hh. exact Hh. }
  split; [exact Hhead|]. rewrite rev_involutive.
  split; [exact Hlast|].
  rewrite (drop_while_none p (rev (drop_while p (rev d)))) by exact Hhead.
  rewrite rev_involutive.
  now rewrite (drop_while_none p (drop_while p (rev d))) by exact Hlast.
Qed.

End Substrings.

Section SafeNames.
Import PyStr PathUtils.
Local Open Scope list_scope.

Lemma dangerous_absent (l : list ascii) (d : string) :
  clean "/" l -> clean "\" l -> contains_chars dots l = false ->
  clean "<" l -> clean ">" l -> clean ":" l -> clean "034" l ->
  clean "|" l -> clean "?" l -> clean "*" l ->
  In d dangerous_chars -> contains_chars (chars d) l = false.
Proof.
  intros H1 H2 H3 H4 H5 H6 H7 H8 H9 H10 Hd. cbn in Hd.
  repeat (destruct Hd as [<-|Hd];
          [first [exact H3 | cbn [chars list_ascii_of_string];
                             rewrite contains_one; assumption]|]).
  destruct Hd.
Qed.

(** The text after the replacements, before [strip]. *)
Lemma replaced_is_safe (filename : string) (d : string) :
  In d dangerous_chars ->
  contains_chars (chars d)
    (chars (fold_left (fun sanitized char => replace char "_" sanitized)
              dangerous_chars filename)) = false.
Proof.
  cbn [fold_left dangerous_chars]. rewrite !chars_replace.
  cbn [chars list_ascii_of_string].
  apply dangerous_absent;
    try (repeat first
           [ apply clean_replace_self; discriminate
           | apply clean_replace_other; [reflexivity|] ]; fail).
  repeat (match goal with
          | |- contains_chars dots (replace_chars [?c] [?x] 0 ?l) = false =>
              rewrite (proj1 (replace_one_keeps c x l eq_refl eq_refl))
          end).
  refine (proj1 (replace_dots_none _ _ _ _ (le_n _))). reflexivity.
Qed.

(** A text without the dangerous strings goes through the replacements
    as it is. *)
Lemma replaced_fixed (s : string) :
  (forall d, In d dangerous_chars -> contains_sub d s = false) ->
  fold_left (fun sanitized char => replace char "_" sanitized)
    dangerous_chars s = s.
Proof.
  intros H. induction dangerous_chars as [|d ds IH]; [reflexivity|].
  cbn [fold_left]. rewrite replace_absent by (apply H; now left).
  apply IH. intros d' Hd'. apply H. now right.
Qed.

(** X20: a file name that [sanitize_filename] returns is not empty, holds
    none of the strings that the function replaces (no slash, no
    backslash, no two dots side by side, no double quote, no less-than or
    greater-than sign, colon, bar, question mark or star), and neither
    begins nor ends with a space or a dot; sanitizing it again returns it
    unchanged. *)
Theorem sanitize_filename_is_safe (filename : option string) (s : string) :
  sanitize_filename filename = inr s ->
  s <> EmptyString
  /\ (forall d, In d dangerous_chars -> contains_sub d s = false)
  /\ (forall c, space_or_dot c = true ->
        startswith (String c EmptyString) s = false
        /\ endswith (String c EmptyString) s = false)
  /\ sanitize_filename (Some s) = inr s.
Proof.
  unfold sanitize_filename.
  destruct filename as [filename|]; [|discriminate].
  destruct (String.eqb filename "") eqn:E0; [discriminate|].
  pose proof (replaced_is_safe filename) as Hsafe.
  generalize dependent (fold_left
    (fun sanitized char => replace char "_" sanitized)
    dangerous_chars filename).
  intros t Hsafe.
  destruct (String.eqb (strip_set space_or_dot t) "") eqn:E1;
    [discriminate|].
  intros H. injection H as <-.
  destruct (strip_chars_part space_or_dot (chars t)) as [a [b Hab]].
  destruct (strip_chars_ends space_or_dot (chars t)) as [Hh [Hl Hfix]].
  cbn zeta in Hh, Hl, Hfix. unfold strip_set in *.
  generalize dependent (rstrip_chars space_or_dot
                          (lstrip_chars space_or_dot (chars t))).
  intros r E1 Hab Hh Hl Hfix.
  assert (Hr : forall d, In d dangerous_chars ->
                         contains_sub d (of_chars r) = false).
  { intros d Hd. unfold contains_sub. rewrite chars_of_chars.
    apply (contains_chars_part _ a r b). rewrite <- Hab.
    apply Hsafe. exact Hd. }
  split; [now apply String.eqb_neq|]. split; [exact Hr|]. split.
  - intros c Hc. unfold startswith, endswith. rewrite chars_of_chars.
    split; [exact (head_not _ _ Hh c Hc)|exact (head_not _ _ Hl c Hc)].
  - rewrite E1, (replaced_fixed _ Hr), chars_of_chars, Hfix, E1.
    reflexivity.
Qed.

(** X21: the path that [ensure_safe_path] hands on holds no two dots side
    by side, whatever the path was. *)
Theorem safe_path_has_no_dot_dot (path : string) :
  contains_sub ".." (safe_path path) = false.
Proof.
  unfold safe_path, contains_sub. rewrite !chars_replace.
  cbn [chars list_ascii_of_string].
  change ["."%char; "."%char] with dots.
  set (l1 := replace_chars dots [] 0 (list_ascii_of_string path)).
  assert (H1 : contains_chars dots l1 = false).
  { refine (proj1 (replace_dots_none _ _ _ _ (le_n _))). reflexivity. }
  set (l2 := replace_chars ["/"%char; "/"%char] ["/"%char] 0 l1).
  assert (H2 : contains_chars dots l2 = false).
  { exact (proj1 (replace_pair_keeps "/" eq_refl _ _ (le_n _) H1)). }
  exact (proj1 (replace_pair_keeps "\" eq_refl _ _ (le_n _) H2)).
Qed.

End SafeNames.

Lemma sanitize_filename_is_safe_witness :
  PathUtils.sanitize_filename (Some "test/../file.txt")
  = inr "test___file.txt"
  /\ PyStr.contains_sub ".." "test___file.txt" = false
  /\ PathUtils.sanitize_filename (Some "test___file.txt")
     = inr "test___file.txt".
Proof.
  split; [reflexivity|].
  destruct (sanitize_filename_is_safe (Some "test/../file.txt")
              "test___file.txt" eq_refl) as (_ & H & _ & Hfix).
  split; [apply H; cbn; tauto|exact Hfix].
Defined.

(* ===================================================================== *)
(** ** The annotations that [validate_type_annotation] accepts
       (utils/type_utils.py) *)
(* ===================================================================== *)

Section Annotations.
Import PyStr TypeUtils.
Local Open Scope list_scope.











End Annotations.

(* ===================================================================== *)
(** ** Sheets with effective data (validation/worksheet_validator.py) *)
(* ===================================================================== *)

Section EffectiveData.
Context {fl : FloatOps}.
Import Py WorksheetValidator.
Local Open Scope list_scope.

Variables field_names data_labels : list atom.

(** The cell [j] of the row [r] counts: it stands under a field column
    (the cell [j] under the column [j + 1]) whose label is not [ignore],
    and it is neither [None] nor the empty string. *)
Definition effective_cell (k : nat) (r : row) (j : nat) : Prop :=
  exists v label,
    r !! j = Some v
    /\ (k + j < length field_names)%nat
    /\ data_labels !! (k + j)%nat = Some label
    /\ atom_eqb label (AStr "ignore") = false
    /\ atom_eqb v ANone = false
    /\ atom_eqb v (AStr "") = false.

Hypothesis labels_cover : (length field_names <= length data_labels)%nat.

Lemma row_scan_iff (r : row) : forall k : nat,
  exists b,
    row_has_effective_data field_names data_labels
      (enumerate (Z.of_nat k) r) = Ok b
    /\ (b = true <-> exists j, effective_cell k r j).
Proof.
  induction r as [|x r IH]; intros k.
  { exists false. split; [reflexivity|]. split; [discriminate|].
    intros [j (v & lab & H & _)]. discriminate. }
  cbn [enumerate row_has_effective_data].
  replace (Z.of_nat k + 1) with (Z.of_nat (S k)) by lia.
  destruct (IH (S k)) as [b [Hb Hiff]].
  assert (Hshift : (exists j, effective_cell k (x :: r) (S j))
                   <-> exists j, effective_cell (S k) r j).
  { split; intros [j (v & lab & H1 & H2 & H3 & H4)]; exists j, v, lab.
    - replace (S k + j)%nat with (k + S j)%nat by lia. auto.
    - replace (S k + j)%nat with (k + S j)%nat in * by lia. auto. }
  assert (Hrest : ~ effective_cell k (x :: r) 0 ->
                  (b = true <-> exists j, effective_cell k (x :: r) j)).
  { intros H0. rewrite Hiff, <- Hshift. split.
    - intros [j H]. now exists (S j).
    - intros [[|j] H]; [contradiction|now exists j]. }
  destruct (Z.leb_spec (Z.of_nat (length field_names)) (Z.of_nat k))
    as [Hout|Hin].
  { exists b. split; [exact Hb|]. apply Hrest.
    intros (v & lab & _ & H & _). lia. }
  rewrite Nat2Z.id. unfold label_at. rewrite nth_error_lookup.
  destruct (lookup_lt_is_Some_2 data_labels k) as [lab Hlab]; [lia|].
  rewrite Hlab. cbn [res_bind].
  destruct (atom_eqb lab (AStr "ignore")) eqn:Ei.
  { exists b. split; [exact Hb|]. apply Hrest.
    intros (v & lab' & _ & _ & H & H' & _).
    rewrite Nat.add_0_r, Hlab in H. injection H as <-. congruence. }
  destruct (atom_eqb x ANone) eqn:En; cbn [orb negb].
  { exists b. split; [exact Hb|]. apply Hrest.
    intros (v & lab' & H & _ & _ & _ & H' & _).
    cbn in H. injection H as <-. congruence. }
  destruct (atom_eqb x (AStr "")) eqn:Ee; cbn [negb].
  { exists b. split; [exact Hb|]. apply Hrest.
    intros (v & lab' & H & _ & _ & _ & _ & H').
    cbn in H. injection H as <-. congruence. }
  exists true. split; [reflexivity|]. split; [|reflexivity].
  intros _. exists O, x, lab. rewrite Nat.add_0_r.
  repeat split; auto. lia.
Qed.

Lemma rows_scan_iff (rows : list row) :
  exists b,
    rows_have_effective_data field_names data_labels rows = Ok b
    /\ (b = true <-> exists r j, In r rows /\ effective_cell 1 r j).
Proof.
  induction rows as [|r rows [b [Hb Hiff]]].
  { exists false. split; [reflexivity|]. split; [discriminate|].
    intros (r & j & [] & _). }
  cbn [rows_have_effective_data].
  destruct (row_scan_iff r 1) as [b1 [H1 Hiff1]].
  change (Z.of_nat 1) with 1 in H1. rewrite H1. cbn [res_bind].
  destruct b1.
  - exists true. split; [reflexivity|]. split; [|reflexivity].
    intros _. destruct (proj1 Hiff1 eq_refl) as [j Hj].
    exists r, j. split; [now left|exact Hj].
  - exists b. split; [exact Hb|]. rewrite Hiff. split.
    + intros (r' & j & Hin & H). exists r', j. split; [now right|exact H].
    + intros (r' & j & [<-|Hin] & H).
      * assert (false = true) by (apply Hiff1; now exists j). discriminate.
      * now exists r', j.
Qed.

(** X23: when the label row is at least as long as the field row,
    [check_has_effective_data] returns, and it returns [True] exactly when
    some row has a cell that is neither [None] nor the empty string under
    a field column whose label is not [ignore]; the cell [j] of a row is
    looked up under the column [j + 1]. *)
Theorem has_effective_data_iff (row_data : list row) :
  exists b,
    check_has_effective_data row_data field_names data_labels = Ok b
    /\ (b = true <-> exists r j, In r row_data /\ effective_cell 1 r j).
Proof.
  unfold check_has_effective_data. destruct row_data as [|r rows].
  - exists false. split; [reflexivity|]. split; [discriminate|].
    intros (r & j & [] & _).
  - apply rows_scan_iff.
Qed.

End EffectiveData.

Lemma has_effective_data_iff_witness :
  WorksheetValidator.check_has_effective_data (fl:=ZFloat)
    [[Py.ANone; Py.AStr "x"]; [Py.AInt 1; Py.AStr ""]]
    [Py.AStr "key"; Py.AStr "id"; Py.AStr "note"]
    [Py.ANone; Py.ANone; Py.AStr "ignore"]
  = Ok true.
Proof.
  destruct (has_effective_data_iff (fl:=ZFloat)
              [Py.AStr "key"; Py.AStr "id"; Py.AStr "note"]
              [Py.ANone; Py.ANone; Py.AStr "ignore"]
              ltac:(cbn; lia)
              [[Py.ANone; Py.AStr "x"]; [Py.AInt 1; Py.AStr ""]])
    as [b [Hb Hiff]].
  rewrite Hb. f_equal. apply Hiff.
  exists [Py.AInt 1; Py.AStr ""], O. split; [cbn; tauto|].
  exists (Py.AInt 1), Py.ANone. cbn. repeat split; lia.
Defined.

(* ===================================================================== *)
(** ** What the asset validator finds (validation/asset_validator.py) *)
(* ===================================================================== *)

Section AssetLookup.
Import AssetValidator.
Local Open Scope list_scope.

(** The extension asked for, as [exists_base_name] compares it. *)
Definition ext_matches (required_ext : option string) (e : _AssetEntry)
  : Prop :=
  match required_ext with
  | Some r =>
      r = EmptyString
      \/ ext e = PyStr.lower (PyStr.lstrip_char "." (PyStr.strip r))
  | None => True
  end.

Lemma exists_in_index_iff idx base_name required_ext :
  exists_in_index idx base_name required_ext = true
  <-> exists e, In e (entries idx (PyStr.strip (PyStr.lower base_name)))
        /\ base e = base_name /\ ext_matches required_ext e.
Proof.
  unfold exists_in_index.
  fold (entries idx (PyStr.strip (PyStr.lower base_name))).
  set (cand := entries idx (PyStr.strip (PyStr.lower base_name))).
  assert (Hany : forall req,
            existsb (entry_is base_name req) cand = true
            <-> exists e, In e cand /\ base e = base_name
                  /\ match req with Some r => ext e = r | None => True end).
  { intros req. rewrite existsb_exists. unfold entry_is.
    split; intros [e [Hin He]]; exists e; (split; [exact Hin|]).
    - apply andb_prop in He as [H1 H2]. apply String.eqb_eq in H1.
      split; [exact H1|]. destruct req; [now apply String.eqb_eq|exact I].
    - destruct He as [-> He]. rewrite String.eqb_refl. cbn [andb].
      destruct req; [now apply String.eqb_eq|reflexivity]. }
  destruct (bool_decide (idx = ∅)) eqn:Eidx.
  { apply bool_decide_eq_true in Eidx. split; [discriminate|].
    intros [e [Hin _]]. subst cand idx. unfold entries in Hin.
    rewrite lookup_empty in Hin. destruct Hin. }
  assert (Hcand : forall b : bool,
            match cand with [] => false | _ => b end = true
            <-> b = true /\ cand <> []).
  { intros b. destruct cand; split; intuition congruence. }
  assert (Hnil : forall (P : _AssetEntry -> Prop),
            (exists e, In e cand /\ P e) -> cand <> []).
  { intros P [e [Hin _]] E. rewrite E in Hin. destruct Hin. }
  destruct required_ext as [r|]; cbn [ext_matches].
  - destruct (String.eqb_spec r "") as [->|Hr]; cbn [negb].
    + rewrite Hcand, Hany. split.
      * intros [[e [Hin [Hb _]]] _]. exists e. auto.
      * intros [e [Hin [Hb _]]]. split; [|intros E; now rewrite E in Hin].
        exists e. auto.
    + rewrite Hcand, Hany. split.
      * intros [[e [Hin [Hb Hx]]] _]. exists e. auto.
      * intros [e [Hin [Hb [Hx|Hx]]]]; [contradiction|].
        split; [|intros E; now rewrite E in Hin]. exists e. auto.
  - rewrite Hcand, Hany. split.
    + intros [[e [Hin [Hb _]]] _]. exists e. auto.
    + intros [e [Hin [Hb _]]]. split; [|intros E; now rewrite E in Hin].
      exists e. auto.
Qed.

(** X24: what a validator finds.  [exists_base_name] answers [True]
    exactly when the project root was inferred and [os.walk] yields, under
    one of the collected roots, a file that is no [.meta] file, whose name
    without the extension is the name asked for, character by character,
    and whose extension in lower case is the one asked for when one is
    asked for.  A name with white space at one of its ends is looked up
    under its stripped key and is therefore never found. *)
Theorem exists_base_name_iff (fs : filesystem) (abs_collector_setting : string)
    (lines : option (list string)) (strict : bool)
    (base_name : string) (required_ext : option string) :
  let v := new fs abs_collector_setting lines strict in
  exists_base_name v base_name required_ext = true
  <-> project_root v <> EmptyString
      /\ PyStr.strip (PyStr.lower base_name) = PyStr.lower base_name
      /\ exists root dirpath fn,
           walked fs (project_root v) (roots v) root dirpath fn
           /\ PyStr.endswith ".meta" fn = false
           /\ fst (splitext fn) = base_name
           /\ ext_matches required_ext (entry_of root dirpath fn).
Proof.
  cbn zeta. unfold exists_base_name, new. cbn [_index project_root roots].
  set (proj := _infer_project_root abs_collector_setting).
  set (rts := _parse_collect_paths lines).
  rewrite exists_in_index_iff.
  destruct (String.eqb_spec proj "") as [Ep|Ep]; cbn [negb andb].
  { split.
    - intros [e [Hin _]]. unfold entries in Hin.
      rewrite lookup_empty in Hin. destruct Hin.
    - intros [H _]. contradiction. }
  destruct (bool_decide (rts = [])) eqn:Er; cbn [negb].
  { apply bool_decide_eq_true in Er. split.
    - intros [e [Hin _]]. unfold entries in Hin.
      rewrite lookup_empty in Hin. destruct Hin.
    - intros (_ & _ & root & dp & fn & [Hr _] & _). rewrite Er in Hr.
      destruct Hr. }
  split.
  - intros (e & Hin & Hb & Hx).
    apply entries_build_index in Hin
      as (root & dp & fn & Hw & Hm & Hk & ->).
    cbn [entry_of base] in Hb.
    split; [exact Ep|]. split; [now rewrite Hk, Hb|].
    exists root, dp, fn. auto.
  - intros (_ & Hk & root & dp & fn & Hw & Hm & Hb & Hx).
    exists (entry_of root dp fn). split; [|split; [exact Hb|exact Hx]].
    apply entries_build_index. exists root, dp, fn.
    split; [exact Hw|]. split; [exact Hm|]. split; [|reflexivity].
    now rewrite Hk, Hb.
Qed.

(** X25: the collected roots hold no path twice, and they are the paths
    that the lines give one by one.  A file that cannot be read gives no
    root. *)
Theorem parse_collect_paths_distinct (lines : list string) :
  NoDup (_parse_collect_paths (Some lines))
  /\ (forall p, In p (_parse_collect_paths (Some lines))
        <-> exists line, In line lines
                         /\ _parse_collect_paths (Some [line]) = [p])
  /\ _parse_collect_paths None = [].
Proof.
  unfold _parse_collect_paths.
  set (step := fun (paths : list string) (line : string) => _).
  assert (Hstep : forall paths line,
            step paths line = paths
            /\ (step [] line = [] \/ exists p, step [] line = [p] /\ In p paths)
            \/ exists p, step [] line = [p] /\ ~ In p paths
                         /\ step paths line = paths ++ [p]).
  { intros paths line. unfold step.
    destruct (Re.re_search false collect_path_re line) as [m|]; [|auto].
    destruct (Re.group 1 m) as [g|]; [|auto].
    set (p := if PyStr.endswith "/" (PyStr.strip g)
              then drop_last_char (PyStr.strip g) else PyStr.strip g).
    cbn [existsb app]. destruct (existsb (String.eqb p) paths) eqn:E.
    - left. split; [reflexivity|]. right. exists p. split; [reflexivity|].
      apply existsb_exists in E as [q [Hq E]].
      apply String.eqb_eq in E as ->. exact Hq.
    - right. exists p. split; [reflexivity|]. split; [|reflexivity].
      intros Hin. apply not_true_iff_false in E. apply E.
      apply existsb_exists. exists p. split; [exact Hin|].
      apply String.eqb_refl. }
  assert (Hfold : forall ls paths,
            NoDup paths ->
            NoDup (fold_left step ls paths)
            /\ forall p, In p (fold_left step ls paths)
                 <-> In p paths
                     \/ exists line, In line ls /\ step [] line = [p]).
  { induction ls as [|line ls IH]; intros paths Hnd; cbn [fold_left].
    { split; [exact Hnd|]. intros p. split; [auto|].
      intros [H|[line [[] _]]]. exact H. }
    destruct (Hstep paths line)
      as [[E H]|[q [Hq [Hnew E]]]]; rewrite E.
    - destruct (IH paths Hnd) as [H1 H2]. split; [exact H1|].
      intros p. rewrite H2. split.
      + intros [Hp|[l' [Hl' Hp]]]; [now left|].
        right. exists l'. split; [now right|exact Hp].
      + intros [Hp|[l' [[<-|Hl'] Hp]]]; [now left| |].
        * left. destruct H as [H|[q [Hq Hin]]]; [congruence|].
          rewrite Hq in Hp. now injection Hp as <-.
        * right. now exists l'.
    - destruct (IH (paths ++ [q])) as [H1 H2].
      { apply NoDup_app. split; [exact Hnd|]. split.
        - intros x Hx Hx'. apply list_elem_of_singleton in Hx' as ->.
          apply Hnew. now apply list_elem_of_In.
        - apply NoDup_singleton. }
      split; [exact H1|]. intros p. rewrite H2, in_app_iff. cbn [In]. split.
      + intros [[Hp|[<-|[]]]|[l' [Hl' Hp]]].
        * now left.
        * right. exists line. split; [now left|exact Hq].
        * right. exists l'. split; [now right|exact Hp].
      + intros [Hp|[l' [[<-|Hl'] Hp]]].
        * left. now left.
        * left. right. left. rewrite Hq in Hp. now injection Hp.
        * right. now exists l'. }
  destruct (Hfold lines [] (NoDup_nil_2)) as [H1 H2].
  split; [exact H1|]. split; [|reflexivity].
  intros p. rewrite H2. cbn [fold_left]. split.
  - intros [[]|H]. exact H.
  - intros H. now right.
Qed.

End AssetLookup.

(* ===================================================================== *)
(** ** The project root of a settings file (validation/asset_validator.py) *)
(* ===================================================================== *)

Section ProjectRoot.
Import PyStr AssetValidator.
Local Open Scope list_scope.











End ProjectRoot.


(* ===================================================================== *)
(** ** The properties of the generated class (core/worksheet_data.py) *)
(* ===================================================================== *)

Section Properties.
Context {fl : FloatOps}.
Import Py WorksheetData.
Local Open Scope list_scope.
Local Open Scope nat_scope.

Lemma res_fold_seq_inv {S : Type} (body : S -> nat -> res S)
    (Inv : nat -> S -> Prop) :
  forall len start s s',
    res_fold (seq start len) s body = Ok s' ->
    Inv start s ->
    (forall i s s1, start <= i < start + len ->
       Inv i s -> body s i = Ok s1 -> Inv (Datatypes.S i) s1) ->
    Inv (start + len) s'.
Proof.
  induction len as [|len IH]; intros start s s' H H0 Hstep.
  - cbn in H. injection H as <-. now rewrite Nat.add_0_r.
  - cbn [seq res_fold] in H.
    destruct (body s start) as [s1|e] eqn:E; [|discriminate].
    cbn [res_bind] in H.
    replace (start + Datatypes.S len) with (Datatypes.S start + len) by lia.
    apply (IH (Datatypes.S start) s1 s' H).
    + apply (Hstep start s s1); [lia|exact H0|exact E].
    + intros i t t1 Hi. apply Hstep. lia.
Qed.

Variable self : t.

(** Column [col] is exported under [name] and its type converts to the
    C# type [cs]. *)
Definition typed_column (col : nat) (name cs : string) : Prop :=
  exported_column self col name
  /\ exists ty, data_types self !! col = Some ty /\ csharp_type ty = Ok cs.

(** Column [col] is the first exported one. *)
Definition first_exported (col : nat) (name : string) : Prop :=
  exported_column self col name
  /\ forall c nm, c < col -> ~ exported_column self c nm.

(** The dict after the columns below [i]. *)
Definition props_upto (i : nat) (props : pydict string) : Prop :=
  keys_of_kind 4 props
  /\ (forall name cs,
        dict_get (AStr name) props = Some cs
        <-> exists col, col < i /\ typed_column col name cs
              /\ forall c, col < c < i -> ~ exported_column self c name)
  /\ match props with
     | [] => forall c nm, c < i -> ~ exported_column self c nm
     | (k, _) :: _ =>
         exists col name, k = AStr name /\ col < i /\ first_exported col name
     end.

Lemma exported_column_name col n1 n2 :
  exported_column self col n1 -> exported_column self col n2 -> n1 = n2.
Proof. intros (_ & _ & H1) (_ & _ & H2). congruence. Qed.

Lemma props_keep i props :
  (forall nm, ~ exported_column self i nm) ->
  props_upto i props -> props_upto (S i) props.
Proof.
  intros Hno (H1 & H2 & H3). split; [exact H1|]. split.
  - intros name cs. rewrite H2. split.
    + intros (col & Hc & Ht & Hl). exists col.
      split; [lia|]. split; [exact Ht|]. intros c Hc'.
      destruct (Nat.eq_dec c i) as [->|]; [apply Hno|apply Hl; lia].
    + intros (col & Hc & Ht & Hl). exists col.
      assert (col <> i) by (intros ->; exact (Hno _ (proj1 Ht))).
      split; [lia|]. split; [exact Ht|]. intros c Hc'. apply Hl. lia.
  - destruct props as [|[k v] rest].
    + intros c nm Hc. destruct (Nat.eq_dec c i) as [->|]; [apply Hno|].
      apply H3. lia.
    + destruct H3 as (col & name & -> & Hc & Hf). exists col, name.
      split; [reflexivity|]. split; [lia|exact Hf].
Qed.

Lemma props_set i props nm ty cs :
  exported_column self i nm ->
  data_types self !! i = Some ty -> csharp_type ty = Ok cs ->
  props_upto i props ->
  props_upto (S i) (dict_set (AStr nm) cs props).
Proof.
  intros Hex Hty Hcs (H1 & H2 & H3). split; [|split].
  - now apply keys_of_kind_set.
  - intros name cs0. destruct (String.eqb_spec nm name) as [<-|Hne].
    + rewrite dict_get_set_eq. split.
      * intros [= <-]. exists i. split; [lia|]. split.
        -- split; [exact Hex|]. now exists ty.
        -- intros c Hc. lia.
      * intros (col & Hc & (Hx & ty' & Hty' & Hcs') & Hl).
        destruct (Nat.eq_dec col i) as [->|Hci].
        -- congruence.
        -- destruct (Hl i ltac:(lia) Hex).
    + rewrite (dict_get_set_ne 4) by
        (auto; cbn; now apply String.eqb_neq).
      rewrite H2. split.
      * intros (col & Hc & Ht & Hl). exists col.
        split; [lia|]. split; [exact Ht|]. intros c Hc' Hx.
        destruct (Nat.eq_dec c i) as [->|].
        -- apply Hne. exact (exported_column_name _ _ _ Hex Hx).
        -- apply (Hl c); [lia|exact Hx].
      * intros (col & Hc & Ht & Hl). exists col.
        assert (col <> i).
        { intros ->. apply Hne.
          exact (exported_column_name _ _ _ Hex (proj1 Ht)). }
        split; [lia|]. split; [exact Ht|]. intros c Hc'. apply Hl. lia.
  - destruct props as [|[k v] rest].
    + cbn [dict_set]. exists i, nm. split; [reflexivity|].
      split; [lia|]. split; [exact Hex|]. intros c nm' Hc. now apply H3.
    + destruct (dict_set_head (AStr nm) cs ((k, v) :: rest) k v rest eq_refl)
        as (v1 & rest1 & ->).
      destruct H3 as (col & name & -> & Hc & Hf). exists col, name.
      split; [reflexivity|]. split; [lia|exact Hf].
Qed.

Lemma properties_loop (props : pydict string) :
  _get_properties_dict self = Ok props ->
  props_upto (length (field_names self)) props.
Proof.
  unfold _get_properties_dict, for_effective. intros H.
  apply (res_fold_seq_inv _ props_upto) in H; [exact H| |].
  - split; [intros k v []|]. split.
    + intros name cs. cbn. split; [discriminate|].
      intros (col & Hc & _). lia.
    + intros c nm Hc. lia.
  - intros i s s1 Hi Hinv Hb.
    destruct (index (data_labels self) i) as [label|e] eqn:El;
      [|discriminate].
    apply index_lookup in El. cbn [res_bind] in Hb.
    destruct (negb (atom_eqb label (AStr "ignore")) && (0 <? i)) eqn:Ec.
    + apply andb_prop in Ec as [Ec1 Ec2].
      apply negb_true_iff in Ec1. apply Nat.ltb_lt in Ec2.
      destruct (_actual_field_name self i) as [nm|e] eqn:En;
        [|discriminate].
      cbn [res_bind] in Hb.
      destruct (index (data_types self) i) as [ty|e] eqn:Et;
        [|discriminate].
      apply index_lookup in Et. cbn [res_bind] in Hb.
      destruct (csharp_type ty) as [cs|e] eqn:Ecs; [|discriminate].
      cbn [res_bind] in Hb. injection Hb as <-.
      apply (props_set i s nm ty cs); auto.
      split; [lia|]. split; [now exists label|exact En].
    + injection Hb as <-. apply props_keep; [|exact Hinv].
      intros nm (Hr & (lab & Hlab & Hig) & _).
      rewrite El in Hlab. injection Hlab as <-.
      rewrite Hig in Ec. cbn [negb andb] in Ec.
      apply Nat.ltb_ge in Ec. lia.
Qed.

Lemma exported_below col name :
  exported_column self col name -> col < length (field_names self).
Proof. intros (H & _). lia. Qed.

(** X28: the properties of the generated class.  When
    [_get_properties_dict] returns, its keys are strings, and a name has
    the C# type [cs] exactly when [cs] is the type of the last exported
    column of that name: a column that comes later under the same actual
    field name replaces the type, whatever prefix it carries. *)
Theorem properties_dict_columns (props : pydict string) :
  _get_properties_dict self = Ok props ->
  (forall k v, In (k, v) props -> exists name, k = AStr name)
  /\ forall name cs,
       dict_get (AStr name) props = Some cs
       <-> exists col, typed_column col name cs
             /\ forall c, col < c -> ~ exported_column self c name.
Proof.
  intros H. apply properties_loop in H as (H1 & H2 & _). split.
  - intros k v Hin. specialize (H1 k v Hin).
    destruct k; try discriminate. eauto.
  - intros name cs. rewrite H2. split.
    + intros (col & Hc & Ht & Hl). exists col. split; [exact Ht|].
      intros c Hc' Hx. apply (Hl c); [|exact Hx].
      split; [exact Hc'|now apply (exported_below c name)].
    + intros (col & Ht & Hl). exists col.
      split; [exact (exported_below _ _ (proj1 Ht))|].
      split; [exact Ht|]. intros c Hc. apply Hl. lia.
Qed.

(** X29: keys are generated for a sheet exactly when the class has a
    first property and its type is [string]: the first exported column
    gives the name, and the last exported column of that name gives the
    type that is compared. *)
Theorem need_generate_keys_iff (b : bool) :
  _need_generate_keys self = Ok b ->
  (b = true
   <-> exists col0 name col,
         first_exported col0 name
         /\ typed_column col name "string"
         /\ forall c, col < c -> ~ exported_column self c name).
Proof.
  unfold _need_generate_keys.
  destruct (_get_properties_dict self) as [props|e] eqn:E; [|discriminate].
  cbn [res_bind]. intros [= <-].
  apply properties_loop in E as (H1 & H2 & H3).
  destruct props as [|[k v] rest].
  - split; [discriminate|].
    intros (col0 & name & _ & (Hx & _) & _).
    destruct (H3 col0 name (exported_below _ _ Hx) Hx).
  - destruct H3 as (c0 & n0 & -> & Hc0 & Hf0).
    assert (Hv : dict_get (AStr n0) ((AStr n0, v) :: rest) = Some v).
    { cbn [dict_get]. now rewrite atom_eqb_refl. }
    split.
    + intros Hb. apply String.eqb_eq in Hb. subst v.
      apply H2 in Hv as (col & Hc & Ht & Hl).
      exists c0, n0, col. split; [exact Hf0|]. split; [exact Ht|].
      intros c Hc' Hx. apply (Hl c); [|exact Hx].
      split; [exact Hc'|now apply (exported_below c n0)].
    + intros (col0 & name & col & [Hx0 Hfirst] & Ht & Hl).
      destruct Hf0 as [Hx0' Hfirst'].
      assert (col0 = c0).
      { destruct (Nat.lt_trichotomy col0 c0) as [Hlt|[Heq|Hgt]];
          [|exact Heq|].
        - destruct (Hfirst' col0 name Hlt Hx0).
        - destruct (Hfirst c0 n0 Hgt Hx0'). }
      subst col0.
      assert (name = n0) by exact (exported_column_name _ _ _ Hx0 Hx0').
      subst name.
      assert (Hs : dict_get (AStr n0) ((AStr n0, v) :: rest) = Some "string").
      { apply H2. exists col.
        split; [exact (exported_below _ _ (proj1 Ht))|].
        split; [exact Ht|]. intros c Hc. apply Hl. lia. }
      rewrite Hv in Hs. injection Hs as ->. reflexivity.
Qed.

End Properties.

Lemma properties_dict_columns_witness :
  exists props,
    WorksheetData._get_properties_dict Sheets.weapons = Ok props
    /\ forall k v, In (k, v) props -> exists name, k = AStr name.
Proof.
  eexists. split; [vm_compute; reflexivity|].
  exact (proj1 (properties_dict_columns Sheets.weapons _
                  ltac:(vm_compute; reflexivity))).
Defined.

Lemma need_generate_keys_iff_witness :
  exists col0 name col,
    first_exported Sheets.weapons col0 name
    /\ typed_column Sheets.weapons col name "string"
    /\ forall c, (col < c)%nat -> ~ exported_column Sheets.weapons c name.
Proof.
  exact (proj1 (need_generate_keys_iff Sheets.weapons true
                  ltac:(vm_compute; reflexivity)) eq_refl).
Defined.

(* ===================================================================== *)
(** ** [convert_type_to_csharp] returns (utils/type_utils.py) *)
(* ===================================================================== *)

Section ConvertType.
Import Re TypeUtils.
Local Open Scope list_scope.
Local Open Scope nat_scope.

(** Every captured text has at most [B] characters. *)
Definition caps_bounded (B : nat) (m : caps) : Prop :=
  Forall (fun p => String.length (snd p) <= B) m.

Lemma take_while_length (p : ascii -> bool) (l : list ascii) :
  length (PyStr.take_while p l) <= length l.
Proof.
  induction l as [|c l IH]; cbn; [lia|]. destruct (p c); cbn; lia.
Qed.

(** A group that starts after the first character of a subject of [L]
    characters captures fewer than [L] characters. *)
Lemma rmatch_bounded (ic : bool) (L : nat) (r : re) :
  forall pos s m k res,
    rmatch ic r pos s m k = Some res ->
    1 <= pos -> length s + pos <= L -> caps_bounded (L - 1) m ->
    exists pos' s' m',
      k pos' s' m' = Some res
      /\ 1 <= pos' /\ length s' + pos' <= L /\ caps_bounded (L - 1) m'.
Proof.
  induction r as [c|c|c|r1 IH1 r2 IH2|r1 IH1|i r1 IH1| | |];
    intros pos s m k res H Hp Hs Hm; cbn [rmatch] in H.
  - destruct s as [|x s']; [discriminate|].
    destruct (cls_match ic c x); [|discriminate].
    exists (S pos), s', m. cbn [length] in Hs. repeat split; auto; lia.
  - apply try_down_some in H as [j [[_ Hji] Hj]].
    pose proof (take_while_length (cls_match ic c) s).
    exists (pos + j), (drop j s), m. rewrite length_drop.
    repeat split; auto; lia.
  - apply try_down_some in H as [j [[_ Hji] Hj]].
    pose proof (take_while_length (cls_match ic c) s).
    exists (pos + j), (drop j s), m. rewrite length_drop.
    repeat split; auto; lia.
  - apply IH1 in H as (pos1 & s1 & m1 & H1 & Hp1 & Hs1 & Hm1); auto.
    apply IH2 in H1 as (pos2 & s2 & m2 & H2 & Hp2 & Hs2 & Hm2); auto.
    exists pos2, s2, m2. auto.
  - destruct (rmatch ic r1 pos s m k) eqn:E.
    + injection H as <-.
      apply IH1 in E as (pos1 & s1 & m1 & H1 & Hp1 & Hs1 & Hm1); auto.
      exists pos1, s1, m1. auto.
    + exists pos, s, m. auto.
  - apply IH1 in H as (pos1 & s1 & m1 & H1 & Hp1 & Hs1 & Hm1); auto.
    eexists pos1, s1, _. split; [exact H1|]. repeat split; auto.
    apply Forall_cons. split; [|exact Hm1]. cbn [snd].
    rewrite length_of_chars, length_take. lia.
  - destruct (Nat.eqb pos 0); [|discriminate]. exists pos, s, m. auto.
  - exists pos, s, m. split; [|auto].
    destruct s as [|x [|y s']]; [exact H| |discriminate].
    destruct (Nat.eqb (PyStr.code x) 10); [exact H|discriminate].
  - exists pos, s, m. auto.
Qed.

Lemma group_bounded (B : nat) (m : caps) (n : nat) (g : string) :
  caps_bounded B m -> group n m = Some g -> String.length g <= B.
Proof.
  induction m as [|[i s] m IH]; cbn [group]; [discriminate|].
  intros H. apply Forall_cons in H as [H1 H2].
  destruct (Nat.eqb i n); [intros [= <-]; exact H1|now apply IH].
Qed.

(** The key type of a [dict(..., enum(...))] annotation is shorter than
    the annotation. *)
Lemma dict_key_shorter (s : string) (m : caps) (g : string) :
  re_match true dict_enum_re s = Some m -> group 1 m = Some g ->
  String.length g < String.length s.
Proof.
  unfold re_match, dict_enum_re. intros H Hg.
  cbn [seq word map PyStr.chars list_ascii_of_string] in H.
  rewrite <- (length_chars s). unfold PyStr.chars in *.
  rewrite rmatch_seq, rmatch_bos in H. cbv beta in H.
  rewrite !rmatch_seq in H.
  destruct (list_ascii_of_string s) as [|x s']; [discriminate|].
  destruct (cls_match true (Lit "d") x) eqn:Ex;
    [rewrite rmatch_chr in H by exact Ex
    |rewrite rmatch_chr_fail in H by exact Ex; discriminate].
  apply (rmatch_bounded true (S (length s'))) in H
    as (pos1 & s1 & m1 & H1 & Hp1 & Hs1 & Hm1);
    [|lia|lia|constructor].
  apply (rmatch_bounded true (S (length s'))) in H1
    as (pos2 & s2 & m2 & H2 & Hp2 & Hs2 & Hm2); auto.
  unfold accept in H2. injection H2 as ->.
  pose proof (group_bounded _ _ _ _ Hm2 Hg). cbn [length]. lia.
Qed.

Lemma convert_fuel_returns (n : nat) : forall type_str : string,
  String.length type_str < n ->
  exists cs, convert_type_to_csharp_fuel n type_str = Ok cs.
Proof.
  induction n as [|n IH]; intros type_str Hn; [lia|].
  cbn [convert_type_to_csharp_fuel].
  destruct (re_match true enum_re type_str) as [m|] eqn:E1.
  { exact (group_strip_ok _ _ _ _ 1 E1 eq_refl). }
  destruct (re_match true list_enum_re type_str) as [m|] eqn:E2.
  { destruct (group_strip_ok _ _ _ _ 1 E2 eq_refl) as [g ->].
    cbn [res_bind]. eauto. }
  destruct (re_match true dict_enum_re type_str) as [m|] eqn:E3; [|eauto].
  destruct (re_match_group _ _ _ _ 1 E3 eq_refl) as [g1 Hg1].
  destruct (re_match_group _ _ _ _ 2 E3 eq_refl) as [g2 Hg2].
  unfold group_strip. rewrite Hg1, Hg2. cbn [res_bind].
  destruct (negb _).
  - destruct (IH (PyStr.strip g1)) as [cs ->].
    + pose proof (strip_length g1).
      pose proof (dict_key_shorter _ _ _ E3 Hg1). lia.
    + cbn [res_bind]. eauto.
  - cbn [res_bind]. eauto.
Qed.

(** X30: [convert_type_to_csharp] returns a C# type for every string.  No
    group that it reads of a match is [None], and the call on the key
    type of a [dict(..., enum(...))] annotation is on a shorter string, so
    that the recursion ends. *)
Theorem convert_type_to_csharp_returns (type_str : string) :
  exists cs, convert_type_to_csharp type_str = Ok cs.
Proof. apply convert_fuel_returns. lia. Qed.

End ConvertType.

